(** * The EEG streaming demo of the blog post, embedded in Rocq

    Source: [src/pages/blog/2024-09-27-building-an-advanced-real-time-eeg-
    analysis-app-with-python-and-brainflow.md] (the Flask server, Python) and
    the browser script that goes with it ([socket.on('update_data')],
    JavaScript).

    Samples are IEEE binary64 numbers on both sides (numpy's [float64], JS
    numbers): they are Rocq's primitive floats here.  What the server takes
    from libraries it does not define (numpy's [mean] and [std], BrainFlow's
    [DataFilter], the board description) is an interface, instantiated where
    a concrete run is evaluated.  Module-level globals are the fields of
    [state]; what a handler does to the outside (socket events, filter calls,
    threads, log lines) is appended to its [trace]. *)

From Stdlib Require Import ZArith String PrimFloat Lia.
From Stdlib Require Uint63.
From stdpp Require Import base list pretty strings gmap.

Local Open Scope Z_scope.

(** ** Exceptions *)

Inductive exn : Type :=
| BrainFlowError
| IndexError
| NameError
| OtherException.

Inductive result (T : Type) : Type :=
| Ok (t : T)
| Raise (e : exn).
Arguments Ok {T} t.
Arguments Raise {T} e.

Definition rbind {T U : Type} (r : result T) (k : T -> result U) : result U :=
  match r with
  | Ok t => k t
  | Raise e => Raise e
  end.

Declare Scope result_scope.
Delimit Scope result_scope with result.
Notation "'try!' x '<-' r ';' k" := (rbind r (fun x => k))
  (at level 10, x name, r at level 100, k at level 200) : result_scope.
Local Open Scope result_scope.

(** ** The libraries the server calls *)

Inductive filter_op : Type :=
| Detrend_constant
    (* DataFilter.detrend(row, DetrendOperations.CONSTANT.value) *)
| Bandpass (sampling_rate : Z) (start_freq stop_freq : float) (order : Z)
    (* DataFilter.perform_bandpass(row, rate, start, stop, order,
       FilterTypes.BUTTERWORTH_ZERO_PHASE, 0) *)
| Bandstop (sampling_rate : Z) (start_freq stop_freq : float) (order : Z).
    (* DataFilter.perform_bandstop(row, rate, start, stop, order,
       FilterTypes.BUTTERWORTH_ZERO_PHASE, 0) *)

(** BrainFlow's filters work in place on the row they are given: a call
    either raises or leaves a row of the same length. *)
Class DataFilter : Type := {
  run_filter : filter_op -> list float -> result (list float);
  run_filter_length : forall op row row',
    run_filter op row = Ok row' -> length row' = length row
}.

Class NumPy : Type := {
  np_mean : list float -> float;
  np_std : list float -> float
}.

(** [BoardShim.get_eeg_channels] and [BoardShim.get_sampling_rate] of the
    board in use. *)
Class Board : Type := {
  eeg_channels : list nat;
  sampling_rate : Z
}.

(** ** Globals and observable effects *)

Abbreviation matrix := (list (list float)).

Inductive effect : Type :=
| EmitUpdateData (raw : list float)   (* socketio.emit('update_data', {'raw': raw}) *)
| EmitAnalysisStopped                 (* socketio.emit('analysis_stopped') *)
| FilterCall (row : nat) (op : filter_op)
| ThreadStart                         (* threading.Thread(target=read_eeg_data_brainflow).start() *)
| LogError (e : option exn)           (* logging.error, with the exception it reports *)
| Sleep (seconds : Z).

(** What a module-level name for a handle holds.  Nothing in the module as
    posted assigns [spi], [line] or [chip]: until something does, the name
    is not bound and reading it raises [NameError].  A bound name holds
    [None] ([false]) or an open handle ([true]); a boolean stands for a
    bound name. *)
Inductive handle : Type :=
| Unbound
| Bound (is_open : bool).

Coercion Bound : bool >-> handle.

Record state : Type := mkState {
  running : bool;
  enabled_channels : Z;
  bandpass_enabled : bool;
  baseline_correction_enabled : bool;
  lowcut : float;
  highcut : float;
  calibration_values : list float;
  collected_data : matrix;
  spi : handle;
  line : handle;
  chip : handle;
  trace : list effect
}.

Definition set_running (b : bool) (s : state) : state :=
  mkState b (enabled_channels s) (bandpass_enabled s)
    (baseline_correction_enabled s) (lowcut s) (highcut s)
    (calibration_values s) (collected_data s) (spi s) (line s) (chip s)
    (trace s).

Definition set_calibration_values (v : list float) (s : state) : state :=
  mkState (running s) (enabled_channels s) (bandpass_enabled s)
    (baseline_correction_enabled s) (lowcut s) (highcut s)
    v (collected_data s) (spi s) (line s) (chip s) (trace s).

Definition set_collected_data (d : matrix) (s : state) : state :=
  mkState (running s) (enabled_channels s) (bandpass_enabled s)
    (baseline_correction_enabled s) (lowcut s) (highcut s)
    (calibration_values s) d (spi s) (line s) (chip s) (trace s).

Definition set_handles (sp li ch : handle) (s : state) : state :=
  mkState (running s) (enabled_channels s) (bandpass_enabled s)
    (baseline_correction_enabled s) (lowcut s) (highcut s)
    (calibration_values s) (collected_data s) sp li ch (trace s).

Definition record (e : effect) (s : state) : state :=
  mkState (running s) (enabled_channels s) (bandpass_enabled s)
    (baseline_correction_enabled s) (lowcut s) (highcut s)
    (calibration_values s) (collected_data s) (spi s) (line s) (chip s)
    (trace s ++ [e]).

Definition is_thread_start (e : effect) : bool :=
  match e with ThreadStart => true | _ => false end.

(** Number of acquisition threads started so far. *)
Definition threads_started (s : state) : nat :=
  length (List.filter is_thread_start (trace s)).

(** ** Start and stop *)

(** What the hardware answers during one request: whether closing each
    handle raises, and what [check_gpio_conflicts] finds. *)
Record hardware : Type := mkHardware {
  spi_close : result unit;
  line_release : result unit;
  chip_close : result unit;
  gpio_conflict : bool
}.

(** [cleanup_spi_gpio]: each name is read in the order spi, line, chip
    ([if spi:] raises [NameError] on a name that is not bound), and an open
    handle is closed and forgotten; the first exception ends the clean-up
    and is logged. *)
Definition close_handle (h : handle) (call : result unit)
    (forget : state -> state) (s : state) : result state :=
  match h with
  | Unbound => Raise NameError
  | Bound false => Ok s
  | Bound true =>
      match call with
      | Ok _ => Ok (forget s)
      | Raise e => Raise e
      end
  end.

Definition cleanup_spi_gpio (hw : hardware) (s : state) : state :=
  match close_handle (spi s) (spi_close hw)
          (set_handles (Bound false) (line s) (chip s)) s with
  | Raise e => record (LogError (Some e)) s
  | Ok s1 =>
      match close_handle (line s1) (line_release hw)
              (set_handles (spi s1) (Bound false) (chip s1)) s1 with
      | Raise e => record (LogError (Some e)) s1
      | Ok s2 =>
          match close_handle (chip s2) (chip_close hw)
                  (set_handles (spi s2) (line s2) (Bound false)) s2 with
          | Raise e => record (LogError (Some e)) s2
          | Ok s3 => s3
          end
      end
  end.

(** [check_gpio_conflicts]: [True] when requesting GPIO line 26 raises. *)
Definition check_gpio_conflicts (hw : hardware) : bool := gpio_conflict hw.

(** What a view function returns: [jsonify({"status": msg}), code]. *)
Record response : Type := mkResponse {
  status_message : string;
  status_code : Z
}.

(** [start_analysis]; the result is [None] where the function ends without a
    [return]. *)
Definition start_analysis (hw : hardware) (s : state)
  : state * option response :=
  let s1 := set_running true s in
  let s2 := cleanup_spi_gpio hw s1 in
  if check_gpio_conflicts hw
  then (s2, Some (mkResponse
          "GPIO conflict detected. Please resolve before starting BrainFlow."
          409))
  else (record ThreadStart s2, None).

(** [stop_analysis]. *)
Definition stop_analysis (hw : hardware) (s : state) : state * response :=
  let s1 := set_running false s in
  let s2 := record (Sleep 1) s1 in
  let s3 := cleanup_spi_gpio hw s2 in
  (record EmitAnalysisStopped s3, mkResponse "Analysis stopped" 200).

(** ** The acquisition loop *)

(** [data[eeg_channels, :]]: the rows of the board's array named by the
    channel ids, in that order; an id past the last row raises. *)
Fixpoint select_rows (data : matrix) (ids : list nat) : result matrix :=
  match ids with
  | [] => Ok []
  | i :: rest =>
      match data !! i with
      | None => Raise IndexError
      | Some row => try! rows <- select_rows data rest; Ok (row :: rows)
      end
  end.

(** numpy's [size]: the number of entries. *)
Definition size (m : matrix) : nat := length (concat m).

(** [for idx, channel_data in enumerate(rows): acc[idx].extend(channel_data)],
    counting from [idx]: the lists as they are when the loop ends, and the
    exception that ended it, if any. *)
Fixpoint extend_rows (idx : nat) (rows : matrix) (acc : matrix)
  : matrix * option exn :=
  match rows with
  | [] => (acc, None)
  | channel_data :: rest =>
      match acc !! idx with
      | None => (acc, Some IndexError)
      | Some old => extend_rows (S idx) rest (<[idx := old ++ channel_data]> acc)
      end
  end.

(** [[channel[0] for channel in rows]]. *)
Fixpoint first_samples (rows : matrix) : result (list float) :=
  match rows with
  | [] => Ok []
  | [] :: _ => Raise IndexError
  | (x :: _) :: rest => try! xs <- first_samples rest; Ok (x :: xs)
  end.

Inductive outcome : Type :=
| Next (s : state)               (* the iteration ended, the loop goes on *)
| Raised (e : exn) (s : state).  (* an exception left the loop body *)

Inductive loop_event : Type :=
| Poll (p : result matrix)  (* what [board.get_current_board_data] answers *)
| StopRequested.            (* another thread wrote [running = False] *)

Inductive loop_end : Type :=
| Stopped (s : state)              (* [while running] saw the flag down *)
| Crashed (e : exn) (s : state)    (* an exception left the loop *)
| Pending (s : state).             (* still looping when the script ends *)

Inductive thread_status : Type := Finished | Looping.

Section Pipeline.
Context {filters : DataFilter} {numpy : NumPy} {board : Board}.

(** The four calls of the filter block, in the order of the source. *)
Definition filter_chain : list filter_op :=
  [ Detrend_constant;
    Bandpass sampling_rate 3 45 2;
    Bandstop sampling_rate 48 52 2;
    Bandstop sampling_rate 58 62 2 ].

(** The body of the inner [try] for one [channel]: each call looks up
    [data_transposed[channel]] and filters that row in place; the first
    exception is logged and ends the block. *)
Fixpoint apply_chain (ops : list filter_op) (channel : nat)
    (s : state) (dt : matrix) : state * matrix :=
  match ops with
  | [] => (s, dt)
  | op :: rest =>
      match dt !! channel with
      | None => (record (LogError (Some IndexError)) s, dt)
      | Some row =>
          let s1 := record (FilterCall channel op) s in
          match run_filter op row with
          | Ok row' => apply_chain rest channel s1 (<[channel := row']> dt)
          | Raise e => (record (LogError (Some e)) s1, dt)
          end
      end
  end.

(** [for channel in eeg_channels: try: ... except ...]. *)
Fixpoint filter_channels (channels : list nat) (s : state) (dt : matrix)
  : state * matrix :=
  match channels with
  | [] => (s, dt)
  | channel :: rest =>
      let '(s', dt') := apply_chain filter_chain channel s dt in
      filter_channels rest s' dt'
  end.

(** [for idx in ...: data_transposed[idx] -= calibration_values[idx]]. *)
Fixpoint baseline_correction (idxs : list nat) (cal : list float)
    (dt : matrix) : result matrix :=
  match idxs with
  | [] => Ok dt
  | idx :: rest =>
      match dt !! idx, cal !! idx with
      | Some row, Some c =>
          baseline_correction rest cal
            (<[idx := (fun x => PrimFloat.sub x c) <$> row]> dt)
      | _, _ => Raise IndexError
      end
  end.

(** The REF block: row 0 is replaced by its z-scores when its mean
    exceeds 1000. *)
Definition normalize_ref (dt : matrix) : result matrix :=
  match dt !! 0%nat with
  | None => Raise IndexError
  | Some ref_values =>
      let ref_mean := np_mean ref_values in
      let ref_std := np_std ref_values in
      if PrimFloat.ltb 1000 ref_mean
      then Ok (<[0%nat :=
                 (fun x => PrimFloat.div (PrimFloat.sub x ref_mean) ref_std)
                   <$> ref_values]> dt)
      else Ok dt
  end.

(** The window as it stands after the filter, baseline and REF blocks,
    with the state the filter block leaves (its trace). *)
Definition process_window (dt0 : matrix) (s : state)
  : state * result matrix :=
  let '(s1, dt1) :=
    if bandpass_enabled s then filter_channels eeg_channels s dt0
    else (s, dt0) in
  (s1,
   try! dt2 <-
     (if baseline_correction_enabled s1
      then baseline_correction (seq 0 (length eeg_channels))
             (calibration_values s1) dt1
      else Ok dt1);
   normalize_ref dt2).

(** One pass through the body of [while running]. *)
Definition loop_iteration (poll : result matrix) (s : state) : outcome :=
  match poll with
  | Raise e => Raised e s
  | Ok data =>
      match select_rows data eeg_channels with
      | Raise e => Raised e s
      | Ok dt0 =>
          if (size dt0 =? 0)%nat
          then Next (record (LogError None) s)        (* continue *)
          else
            match process_window dt0 s with
            | (s1, Raise e) => Raised e s1
            | (s1, Ok dt) =>
                match extend_rows 0 dt
                        (replicate (length eeg_channels) []) with
                | (acc, Some e) => Raised e (set_collected_data acc s1)
                | (acc, None) =>
                    let s2 := set_collected_data acc s1 in
                    match first_samples dt with
                    | Raise e => Raised e s2
                    | Ok raw =>
                        Next (record (Sleep 1)
                                (record (EmitUpdateData raw) s2))
                    end
                end
            end
      end
  end.

(** [while running: ...], over what the thread meets while it loops. *)
Fixpoint acquisition_loop (script : list loop_event) (s : state)
  : loop_end :=
  if running s then
    match script with
    | [] => Pending s
    | StopRequested :: rest => acquisition_loop rest (set_running false s)
    | Poll p :: rest =>
        match loop_iteration p s with
        | Next s' => acquisition_loop rest s'
        | Raised e s' => Crashed e s'
        end
    end
  else Stopped s.

(** [read_eeg_data_brainflow]: [setup] is the outcome of creating the
    board, [prepare_session] and [start_stream]; [teardown] that of
    [stop_stream] and [release_session]. *)
Definition read_eeg_data_brainflow (setup : result unit)
    (script : list loop_event) (teardown : result unit) (s : state)
  : state * thread_status :=
  match setup with
  | Raise e => (record (LogError (Some e)) s, Finished)
  | Ok _ =>
      match acquisition_loop script s with
      | Pending s' => (s', Looping)
      | Crashed e s' => (record (LogError (Some e)) s', Finished)
      | Stopped s' =>
          match teardown with
          | Ok _ => (s', Finished)
          | Raise e => (record (LogError (Some e)) s', Finished)
          end
      end
  end.

(** ** Calibration *)

(** The sampling loop of [calibrate], over the polls that fall into its
    five seconds. *)
Fixpoint calibration_loop (polls : list (result matrix))
    (calibration_data : matrix) (s : state) : state * result matrix :=
  match polls with
  | [] => (s, Ok calibration_data)
  | Raise e :: _ => (s, Raise e)
  | Ok data :: rest =>
      match select_rows data eeg_channels with
      | Raise e => (s, Raise e)
      | Ok dt =>
          if (size dt =? 0)%nat
          then calibration_loop rest calibration_data
                 (record (LogError None) s)                (* continue *)
          else
            match extend_rows 0 dt calibration_data with
            | (acc, None) => calibration_loop rest acc s
            | (_, Some e) => (s, Raise e)
            end
      end
  end.

(** What the [try] block of [calibrate] computes up to the assignment of
    [calibration_values]. *)
Definition calibration_run (setup : result unit)
    (polls : list (result matrix)) (s : state)
  : state * result (list float) :=
  match setup with
  | Raise e => (s, Raise e)
  | Ok _ =>
      let '(s1, r) :=
        calibration_loop polls
          (replicate (Z.to_nat (enabled_channels s)) []) s in
      (s1, try! calibration_data <- r; Ok (np_mean <$> calibration_data))
  end.

(** [calibrate]. *)
Definition calibrate (setup : result unit) (polls : list (result matrix))
    (teardown : result unit) (s : state) : state :=
  match calibration_run setup polls s with
  | (s1, Raise e) => record (LogError (Some e)) s1
  | (s1, Ok values) =>
      let s2 := set_calibration_values values s1 in
      match teardown with
      | Ok _ => s2
      | Raise e => record (LogError (Some e)) s2
      end
  end.

End Pipeline.

(** ** Export *)

Inductive cell : Type :=
| Text (t : string)
| Number (v : float).

(** What [csv.writer] is given: one list of cells per [writerow]. *)
Abbreviation csv := (list (list cell)).

(** [zip( *data)]: row [i] holds entry [i] of every channel, and the rows end
    with the shortest channel.  The first channel bounds the number of rows;
    [zip()] of no channel at all is empty. *)
Fixpoint zip_rows (n : nat) (data : matrix) : matrix :=
  match n with
  | O => []
  | S n' =>
      match mapM head data with
      | Some row => row :: zip_rows n' (tail <$> data)
      | None => []
      end
  end.

Definition zip_star (data : matrix) : matrix :=
  match data with
  | [] => []
  | ch :: _ => zip_rows (length ch) data
  end.

(** [['Channel' + str(i+1) for i in range(len(data))]]. *)
Definition header_row (data : matrix) : list cell :=
  (fun i => Text ("Channel" +:+ pretty (S i))) <$> seq 0 (length data).

Definition create_csv (data : matrix) : csv :=
  header_row data :: ((fun row : list float => Number <$> row) <$> zip_star data).

(** [ch[:n]]; a negative [n] counts from the end. *)
Definition slice_to {T : Type} (n : Z) (l : list T) : list T :=
  if 0 <=? n then take (Z.to_nat n) l
  else take (length l - Z.to_nat (- n))%nat l.

(** The [num_rows] query parameter: absent, or a text that [int] turns into
    an integer or rejects. *)
Inductive num_rows_arg : Type :=
| NumRowsAbsent
| NumRowsText (parsed : option Z).

Inductive export_response : Type :=
| CsvAttachment (body : csv)    (* 200, text/csv, eeg_data.csv *)
| InternalServerError.          (* 500 *)

(** [int(request.args.get('num_rows', 5000))]. *)
Definition requested_rows (arg : num_rows_arg) : result Z :=
  match arg with
  | NumRowsAbsent => Ok 5000
  | NumRowsText (Some n) => Ok n
  | NumRowsText None => Raise OtherException
  end.

Definition export_data (arg : num_rows_arg) (s : state)
  : state * export_response :=
  match requested_rows arg with
  | Raise e => (record (LogError (Some e)) s, InternalServerError)
  | Ok num_rows =>
      match collected_data s with
      | [] => (record (LogError (Some IndexError)) s, InternalServerError)
      | ch0 :: _ =>
          let num_rows :=
            if num_rows >? Z.of_nat (length ch0)
            then Z.of_nat (length ch0) else num_rows in
          (s, CsvAttachment
                (create_csv (slice_to num_rows <$> collected_data s)))
      end
  end.

(** ** The browser's chart *)

Record point : Type := mkPoint { x : Z; y : float }.

Record dataset : Type := mkDataset {
  label : string;
  data : list point;
  hidden : bool
}.

Record chart : Type := mkChart {
  labels : list Z;
  datasets : list dataset
}.

(** The page: its chart and how often it has read the clock. *)
Record page : Type := mkPage {
  eegChart : chart;
  clock_reads : nat
}.

Definition shift {T : Type} (l : list T) : list T := tail l.

Definition shift_data (d : dataset) : dataset :=
  mkDataset (label d) (shift (data d)) (hidden d).

Definition push_data (p : point) (d : dataset) : dataset :=
  mkDataset (label d) (data d ++ [p]) (hidden d).

(** [createChart], from the three inputs of the page it reads. *)
Definition createChart (ref_enabled biasout_enabled : bool)
    (enabledChannels : nat) : chart :=
  mkChart []
    ((if ref_enabled then [mkDataset "REF" [] false] else []) ++
     (if biasout_enabled then [mkDataset "BIASOUT" [] false] else []) ++
     ((fun i => mkDataset ("Ch" +:+ pretty (S i)) [] false)
        <$> seq 0 enabledChannels)).

Section Browser.
(** [Date_now k]: what the clock shows at the page's [k]-th reading. *)
Variable Date_now : nat -> Z.

(** The second [forEach] of the handler, from dataset [index] on, with
    [reads] clock readings made so far. *)
Fixpoint push_samples (raw : option (list float)) (index reads : nat)
    (ds : list dataset) : list dataset * nat :=
  match ds with
  | [] => ([], reads)
  | d :: rest =>
      match raw ≫= (fun r => r !! index) with
      | Some v =>
          let '(rest', reads') := push_samples raw (S index) (S reads) rest in
          (push_data (mkPoint (Date_now reads) v) d :: rest', reads')
      | None =>
          let '(rest', reads') := push_samples raw (S index) reads rest in
          (d :: rest', reads')
      end
  end.

(** [socket.on('update_data', ...)]; [raw] is [data.raw] when it is there. *)
Definition update_data (raw : option (list float)) (pg : page) : page :=
  let c := eegChart pg in
  let c1 :=
    if (100 <? length (labels c))%nat
    then mkChart (shift (labels c)) (shift_data <$> datasets c)
    else c in
  let ls := labels c1 ++ [Date_now (clock_reads pg)] in
  let '(ds, reads) :=
    push_samples raw 0 (S (clock_reads pg)) (datasets c1) in
  mkPage (mkChart ls ds) reads.

(** The page after a run of events, oldest first. *)
Definition receive (events : list (option (list float))) (pg : page)
  : page :=
  foldl (fun pg raw => update_data raw pg) pg events.

End Browser.

(** ** Notions the properties are stated with *)

(** The lengths of the rows of a window. *)
Definition shape (m : matrix) : list nat := length <$> m.

(** A state with its trace dropped: the globals alone. *)
Definition globals (s : state) : state :=
  mkState (running s) (enabled_channels s) (bandpass_enabled s)
    (baseline_correction_enabled s) (lowcut s) (highcut s)
    (calibration_values s) (collected_data s) (spi s) (line s) (chip s) [].

Section Polls.
Context {board : Board}.

(** A poll that answers with a window without samples. *)
Definition empty_window (p : result matrix) : bool :=
  match p with
  | Ok data =>
      match select_rows data eeg_channels with
      | Ok dt => (size dt =? 0)%nat
      | Raise _ => false
      end
  | Raise _ => false
  end.

(** A poll that answers with a window that holds samples. *)
Definition holds_samples (p : result matrix) : bool :=
  match p with
  | Ok data =>
      match select_rows data eeg_channels with
      | Ok dt => negb (size dt =? 0)%nat
      | Raise _ => false
      end
  | Raise _ => false
  end.

End Polls.

(** The loop's effect on the export buffer in the words of the
    specification: the buffer after an iteration is the buffer before it with
    the raw readings of the window appended, channel by channel. *)
Definition appends_raw_readings {board : Board}
    (data : matrix) (s s' : state) : Prop :=
  exists dt0, select_rows data eeg_channels = Ok dt0 /\
    collected_data s' = zip_with app (collected_data s) dt0.

(** What the handler keeps true: at most 101 labels, and no series longer
    than the labels. *)
Definition window_bounded (pg : page) : Prop :=
  (length (labels (eegChart pg)) <= 101)%nat /\
  Forall (fun d => length (data d) <= length (labels (eegChart pg)))%nat
    (datasets (eegChart pg)).

(** ** Concrete runs: the libraries and the states they start from *)

Module Bench.

(** numpy's [mean] and [std] on a short window: the sum is taken left to
    right, as numpy does below eight entries. *)
Definition float_of_nat (n : nat) : float :=
  PrimFloat.of_uint63 (Uint63.of_Z (Z.of_nat n)).

Definition seq_mean (l : list float) : float :=
  PrimFloat.div (foldl PrimFloat.add 0%float l) (float_of_nat (length l)).

Definition seq_std (l : list float) : float :=
  let m := seq_mean l in
  PrimFloat.sqrt
    (seq_mean ((fun v => PrimFloat.mul (PrimFloat.sub v m) (PrimFloat.sub v m))
                 <$> l)).

Definition small_numpy : NumPy :=
  {| np_mean := seq_mean; np_std := seq_std |}.

(** A [DataFilter] whose calls all return and leave the row as it is, and
    one whose calls all raise. *)
Definition passthrough_filters : DataFilter :=
  {| run_filter := fun _ row => Ok row;
     run_filter_length := fun _ row row' (H : Ok row = Ok row') =>
       match H in (_ = r)
             return (match r with
                     | Ok out => length out = length row
                     | Raise _ => True
                     end) with
       | eq_refl => eq_refl
       end |}.

Definition raising_filters : DataFilter :=
  {| run_filter := fun _ _ => Raise BrainFlowError;
     run_filter_length := fun _ row row' (H : Raise BrainFlowError = Ok row') =>
       match H in (_ = r)
             return (match r with
                     | Ok out => length out = length row
                     | Raise _ => True
                     end) with
       | eq_refl => I
       end |}.

(** A board with two EEG channels in rows 1 and 2 of its array (row 0 is
    the package counter), sampled at 250 Hz. *)
Definition two_channel_board : Board :=
  {| eeg_channels := [1; 2]%nat; sampling_rate := 250 |}.

(** The globals as the module leaves them at launch, for two channels:
    the three handle names are not bound.  The post shows no assignment to
    [lowcut] and [highcut] either; 1 and 30 stand for them where a state
    needs a value (no function of [state] reads them, and [server] keeps
    track of the settings that are not bound). *)
Definition at_launch : state :=
  mkState false 2 false false 1 30 [0; 0]%float [[]; []]
    Unbound Unbound Unbound [].

(** The stream Running, with the one thread a start request started. *)
Definition streaming : state :=
  mkState true 2 false false 1 30 [0; 0]%float [[]; []]
    Unbound Unbound Unbound [ThreadStart].

(** The stream Running with the filter block switched on, and with a single
    channel enabled. *)
Definition filtering : state :=
  mkState true 2 true false 1 30 [0; 0]%float [[]; []]
    Unbound Unbound Unbound [ThreadStart].

Definition one_enabled : state :=
  mkState true 1 false false 1 30 [0; 0]%float [[]; []]
    Unbound Unbound Unbound [ThreadStart].

(** The state an iteration leaves, however it ends, and one iteration on
    the two-channel board. *)
Definition state_of (o : outcome) : state :=
  match o with
  | Next s => s
  | Raised _ s => s
  end.

Definition iterate (f : DataFilter) (data : matrix) (s : state) : state :=
  state_of (loop_iteration (filters := f) (numpy := small_numpy)
              (board := two_channel_board) (Ok data) s).

Definition first_is_negative (m : matrix) : bool :=
  match m with
  | (v :: _) :: _ => PrimFloat.ltb v 0
  | _ => false
  end.

(** Hardware that closes its handles without complaint. *)
Definition free_hardware : hardware :=
  mkHardware (Ok ()) (Ok ()) (Ok ()) false.

Definition busy_hardware : hardware :=
  mkHardware (Ok ()) (Ok ()) (Ok ()) true.

(** The page's clock, one millisecond a reading, a run of events whose
    [i]-th carries the sample [i] for the first series, and a page whose
    chart has the single series Ch1. *)
Definition clock (k : nat) : Z := 1727464177340 + Z.of_nat k.

Definition samples (n : nat) : list (option (list float)) :=
  (fun i => Some [float_of_nat i]) <$> seq 0 n.

Definition fresh_page : page := mkPage (createChart false false 1) 0.

End Bench.

(** ** Further notions: what the remaining properties are stated with *)

(** The step of the clean-up for one handle goes through: the name holds
    [None], or an open handle whose close call returns. *)
Definition handle_released (h : handle) (call : result unit) : Prop :=
  h = Bound false \/ (h = Bound true /\ call = Ok ()).

(** The state an iteration, or the loop, leaves behind, however it ends. *)
Definition outcome_state (o : outcome) : state :=
  match o with
  | Next s => s
  | Raised _ s => s
  end.

Definition final_state (l : loop_end) : state :=
  match l with
  | Stopped s => s
  | Crashed _ s => s
  | Pending s => s
  end.

Definition is_update_data (e : effect) : bool :=
  match e with EmitUpdateData _ => true | _ => false end.

(** Number of [update_data] events sent so far. *)
Definition updates_published (s : state) : nat :=
  length (List.filter is_update_data (trace s)).

Definition is_poll (ev : loop_event) : bool :=
  match ev with Poll _ => true | StopRequested => false end.

(** [s'] differs from [s] at most in the export buffer and the trace, and
    the trace has only grown. *)
Definition only_buffer_written (s s' : state) : Prop :=
  running s' = running s /\
  enabled_channels s' = enabled_channels s /\
  bandpass_enabled s' = bandpass_enabled s /\
  baseline_correction_enabled s' = baseline_correction_enabled s /\
  lowcut s' = lowcut s /\ highcut s' = highcut s /\
  calibration_values s' = calibration_values s /\
  spi s' = spi s /\ line s' = line s /\ chip s' = chip s /\
  exists t, trace s' = trace s ++ t.

Section Windows.
Context {board : Board}.

(** The windows a run of polls hands over: [data[eeg_channels, :]] of every
    poll that returns an array the channel ids fit. *)
Definition windows (polls : list (result matrix)) : list matrix :=
  omap (fun p =>
          match p with
          | Ok data =>
              match select_rows data eeg_channels with
              | Ok dt => Some dt
              | Raise _ => None
              end
          | Raise _ => None
          end) polls.

End Windows.

(** Row [i] of every window, end to end. *)
Definition column (i : nat) (dts : list matrix) : list float :=
  concat ((fun dt : matrix => default [] (dt !! i)) <$> dts).

(** [s'] differs from [s] at most in the calibration vector and the trace. *)
Definition only_calibration_written (s s' : state) : Prop :=
  running s' = running s /\
  enabled_channels s' = enabled_channels s /\
  bandpass_enabled s' = bandpass_enabled s /\
  baseline_correction_enabled s' = baseline_correction_enabled s /\
  lowcut s' = lowcut s /\ highcut s' = highcut s /\
  collected_data s' = collected_data s /\
  spi s' = spi s /\ line s' = line s /\ chip s' = chip s /\
  updates_published s' = updates_published s.

(** ** The browser: series visibility and what a series receives *)

(** The click handler of a colour box:
    [datasets.find(ds => ds.label === label)], and if there is one,
    [dataset.hidden = !dataset.hidden]. *)
Fixpoint toggle_first (lbl : string) (ds : list dataset) : list dataset :=
  match ds with
  | [] => []
  | d :: rest =>
      if String.eqb (label d) lbl
      then mkDataset (label d) (data d) (negb (hidden d)) :: rest
      else d :: toggle_first lbl rest
  end.

Definition click_color_box (lbl : string) (pg : page) : page :=
  mkPage (mkChart (labels (eegChart pg))
            (toggle_first lbl (datasets (eegChart pg))))
         (clock_reads pg).

(** The samples a run of events carries for series [j], oldest first. *)
Definition series_samples (j : nat) (events : list (option (list float)))
  : list float :=
  omap (fun ev : option (list float) => ev ≫= (fun raw => raw !! j)) events.

(** The last [n] entries of a list. *)
Definition last_n {T : Type} (n : nat) (l : list T) : list T :=
  drop (length l - n) l.

(** ** Settings updates *)

(** What [request.json] holds for a key. *)
#[warnings="-register-all"] Inductive json : Type :=
| JNull
| JBool (b : bool)
| JInt (z : Z)
| JFloat (f : float)
| JString (t : string)
| JArray (items : list json)
| JObject (fields : list (string * json)).

(** Python's truth value of such an object, as [if bandpass_enabled:]
    takes it. *)
Definition truthy (j : json) : bool :=
  match j with
  | JNull => false
  | JBool b => b
  | JInt z => negb (z =? 0)
  | JFloat f => negb (PrimFloat.eqb f 0)
  | JString t => negb (String.eqb t "")
  | JArray items => match items with [] => false | _ => true end
  | JObject fields => match fields with [] => false | _ => true end
  end.

(** Python's [float] and [int] on what a request can hold; on a value that
    already is a float, or an integer, they return it. *)
Class Builtins : Type := {
  py_float : json -> result float;
  py_int : json -> result Z;
  py_float_float : forall f, py_float (JFloat f) = Ok f;
  py_int_int : forall z, py_int (JInt z) = Ok z
}.

(** The globals [update_settings] declares, beyond those of [state].  The
    post shows no module-level assignment to [lowcut], [highcut], [order]
    or [smoothing_enabled]; [unbound] holds the names among the globals
    that nothing has bound when a request arrives.  A field whose name is
    unbound has no meaning. *)
Record server : Type := mkServer {
  core : state;
  order : Z;
  ref_enabled : bool;
  biasout_enabled : bool;
  smoothing_enabled : bool;
  unbound : list string
}.

Definition set_core (f : state -> state) (sv : server) : server :=
  mkServer (f (core sv)) (order sv) (ref_enabled sv) (biasout_enabled sv)
    (smoothing_enabled sv) (unbound sv).

Definition set_lowcut (v : float) (s : state) : state :=
  mkState (running s) (enabled_channels s) (bandpass_enabled s)
    (baseline_correction_enabled s) v (highcut s)
    (calibration_values s) (collected_data s) (spi s) (line s) (chip s)
    (trace s).

Definition set_highcut (v : float) (s : state) : state :=
  mkState (running s) (enabled_channels s) (bandpass_enabled s)
    (baseline_correction_enabled s) (lowcut s) v
    (calibration_values s) (collected_data s) (spi s) (line s) (chip s)
    (trace s).

Definition set_baseline_correction_enabled (b : bool) (s : state) : state :=
  mkState (running s) (enabled_channels s) (bandpass_enabled s)
    b (lowcut s) (highcut s)
    (calibration_values s) (collected_data s) (spi s) (line s) (chip s)
    (trace s).

Definition set_enabled_channels (n : Z) (s : state) : state :=
  mkState (running s) n (bandpass_enabled s)
    (baseline_correction_enabled s) (lowcut s) (highcut s)
    (calibration_values s) (collected_data s) (spi s) (line s) (chip s)
    (trace s).

Definition set_bandpass_enabled (b : bool) (s : state) : state :=
  mkState (running s) (enabled_channels s) b
    (baseline_correction_enabled s) (lowcut s) (highcut s)
    (calibration_values s) (collected_data s) (spi s) (line s) (chip s)
    (trace s).

Definition set_order (n : Z) (sv : server) : server :=
  mkServer (core sv) n (ref_enabled sv) (biasout_enabled sv)
    (smoothing_enabled sv) (unbound sv).

Definition set_ref_enabled (b : bool) (sv : server) : server :=
  mkServer (core sv) (order sv) b (biasout_enabled sv) (smoothing_enabled sv)
    (unbound sv).

Definition set_biasout_enabled (b : bool) (sv : server) : server :=
  mkServer (core sv) (order sv) (ref_enabled sv) b (smoothing_enabled sv)
    (unbound sv).

Definition set_smoothing_enabled (b : bool) (sv : server) : server :=
  mkServer (core sv) (order sv) (ref_enabled sv) (biasout_enabled sv) b
    (unbound sv).

(** Reading a global by its name: the value it is bound to, [NameError]
    when nothing has bound the name. *)
Definition read_global {T : Type} (names : list string) (name : string)
    (v : T) : result T :=
  if bool_decide (name ∈ names) then Raise NameError else Ok v.

Section Settings.
Context {builtins : Builtins}.

(** [conv(data.get(key, old))]: the default [old] is evaluated first,
    whether or not the body has the key; then comes the conversion of what
    the body holds for the key, or of the old value (which [float] and
    [int] return as it is) when the body has no such key. *)
Definition converted {T : Type} (conv : json -> result T)
    (data : gmap string json) (key : string) (old : result T) : result T :=
  match old with
  | Raise e => Raise e
  | Ok old =>
      match data !! key with
      | Some j => conv j
      | None => Ok old
      end
  end.

(** [data.get(key, old)] for a flag, by its truth value. *)
Definition flag (data : gmap string json) (key : string) (old : bool)
  : bool :=
  match data !! key with
  | Some j => truthy j
  | None => old
  end.

(** [update_settings], assignment by assignment; an exception ([NameError]
    on an unbound global, or what [float] or [int] raise) leaves the
    function at that point ([Raise]: the view returns nothing).  The flags
    [baseline_correction_enabled], [ref_enabled], [biasout_enabled] and
    [bandpass_enabled] are bound at module level, as is
    [enabled_channels]. *)
Definition update_settings (data : gmap string json) (sv : server)
  : server * result response :=
  match converted py_float data "lowcut"
          (read_global (unbound sv) "lowcut" (lowcut (core sv))) with
  | Raise e => (sv, Raise e)
  | Ok lo =>
  let sv := set_core (set_lowcut lo) sv in
  match converted py_float data "highcut"
          (read_global (unbound sv) "highcut" (highcut (core sv))) with
  | Raise e => (sv, Raise e)
  | Ok hi =>
  let sv := set_core (set_highcut hi) sv in
  match converted py_int data "order"
          (read_global (unbound sv) "order" (order sv)) with
  | Raise e => (sv, Raise e)
  | Ok ord =>
  let sv := set_order ord sv in
  let sv := set_core (set_baseline_correction_enabled
                        (flag data "baseline_correction_enabled"
                           (baseline_correction_enabled (core sv)))) sv in
  match converted py_int data "enabled_channels"
          (Ok (enabled_channels (core sv))) with
  | Raise e => (sv, Raise e)
  | Ok n =>
  let sv := set_core (set_enabled_channels n) sv in
  let sv := set_ref_enabled (flag data "ref_enabled" (ref_enabled sv)) sv in
  let sv := set_biasout_enabled
              (flag data "biasout_enabled" (biasout_enabled sv)) sv in
  let sv := set_core (set_bandpass_enabled
                        (flag data "bandpass_filter_enabled"
                           (bandpass_enabled (core sv)))) sv in
  match read_global (unbound sv) "smoothing_enabled"
          (smoothing_enabled sv) with
  | Raise e => (sv, Raise e)
  | Ok old =>
  let sv := set_smoothing_enabled (flag data "smoothing_enabled" old) sv in
  (sv, Ok (mkResponse "Settings updated" 200))
  end end end end end.

End Settings.

(** The body the page sends with [updateSettings]: the five inputs it
    reads, the number input as the text it shows. *)
Definition page_settings_body (baseline_checked : bool)
    (enabled_channels_value : string)
    (ref_checked biasout_checked bandpass_checked : bool)
  : gmap string json :=
  <["baseline_correction_enabled" := JBool baseline_checked]>
  (<["enabled_channels" := JString enabled_channels_value]>
  (<["ref_enabled" := JBool ref_checked]>
  (<["biasout_enabled" := JBool biasout_checked]>
  (<["bandpass_filter_enabled" := JBool bandpass_checked]> ∅)))).

(** ** Concrete runs of the settings update *)

Module BenchSettings.

(** The value of a text of decimal digits. *)
Fixpoint digits_value (t : string) (acc : Z) : option Z :=
  match t with
  | EmptyString => Some acc
  | String c rest =>
      let code := Z.of_N (Ascii.N_of_ascii c) in
      if (48 <=? code) && (code <=? 57)
      then digits_value rest (10 * acc + (code - 48))
      else None
  end.

Definition float_of_Z (z : Z) : float :=
  if 0 <=? z then PrimFloat.of_uint63 (Uint63.of_Z z)
  else PrimFloat.opp (PrimFloat.of_uint63 (Uint63.of_Z (- z))).

(** [int] and [float] on the values the runs below hold: numbers, booleans
    and non-empty texts of decimal digits (small enough to be exact); what
    else a text may spell is not read here. *)
Definition small_int (j : json) : result Z :=
  match j with
  | JInt z => Ok z
  | JBool b => Ok (if b then 1 else 0)
  | JString (String c rest) =>
      match digits_value (String c rest) 0 with
      | Some z => Ok z
      | None => Raise OtherException
      end
  | _ => Raise OtherException
  end.

Definition small_float (j : json) : result float :=
  match j with
  | JFloat f => Ok f
  | JInt z => Ok (float_of_Z z)
  | JBool b => Ok (if b then 1 else 0)%float
  | JString (String c rest) =>
      match digits_value (String c rest) 0 with
      | Some z => Ok (float_of_Z z)
      | None => Raise OtherException
      end
  | _ => Raise OtherException
  end.

Definition small_builtins : Builtins :=
  {| py_float := small_float;
     py_int := small_int;
     py_float_float := fun _ => eq_refl;
     py_int_int := fun _ => eq_refl |}.

(** The server at launch when the part the post leaves out has bound the
    four settings to these values. *)
Definition server_at_launch : server :=
  mkServer Bench.at_launch 4 true true false [].

(** The server at launch with the module the post shows and nothing more:
    the four settings are not bound. *)
Definition server_as_posted : server :=
  mkServer Bench.at_launch 4 true true false
    ["lowcut"; "highcut"; "order"; "smoothing_enabled"].

End BenchSettings.

(** ** The page's controls *)

(** The [disabled] flag of every control [disableControls] sets, and the
    text on the calibration button. *)
Record controls : Type := mkControls {
  startBtn : bool;
  stopBtn : bool;
  calibrateBtn : bool;
  exportBtn : bool;
  baseline_input : bool;
  channels_input : bool;
  ref_input : bool;
  biasout_input : bool;
  bandpass_input : bool;
  calibrate_text : string
}.

(** The controls as [index.html] declares them. *)
Definition controls_at_load : controls :=
  mkControls false true false false false false false false false
    "Start Calibration".

Definition disableControls (disable : bool) (c : controls) : controls :=
  mkControls disable (negb disable) disable disable disable disable disable
    disable disable (calibrate_text c).

Definition set_calibrate_text (t : string) (c : controls) : controls :=
  mkControls (startBtn c) (stopBtn c) (calibrateBtn c) (exportBtn c)
    (baseline_input c) (channels_input c) (ref_input c) (biasout_input c)
    (bandpass_input c) t.

(** What happens on the page: a click runs the synchronous part of its
    handler, the answer to a request the callback of its promise. *)
Inductive page_event : Type :=
| StartClicked                    (* startAnalysis() up to the fetch *)
| StartAnswered (status : Z)      (* the [then] of its fetch *)
| StopClicked                     (* stopAnalysis() *)
| CalibrateClicked                (* startCalibration() up to the fetch *)
| CalibrateSettled.               (* its [then] or its [catch] *)

Definition page_step (c : controls) (ev : page_event) : controls :=
  match ev with
  | StartClicked => disableControls true c
  | StartAnswered status =>
      if status =? 409 then disableControls false c else c
  | StopClicked => disableControls false c
  | CalibrateClicked =>
      set_calibrate_text "Calibrating..." (disableControls true c)
  | CalibrateSettled =>
      disableControls false (set_calibrate_text "Start Calibration" c)
  end.

Definition page_run (events : list page_event) (c : controls) : controls :=
  foldl page_step c events.

(** * Properties *)

(** ** Shapes and globals *)

Lemma shape_length m : length (shape m) = length m.
Proof. apply length_fmap. Qed.

Lemma shape_insert (m : matrix) i row row' :
  m !! i = Some row -> length row' = length row ->
  shape (<[i := row']> m) = shape m.
Proof.
  intros Hi Hlen. unfold shape.
  rewrite (list_fmap_insert length m i row'), Hlen.
  apply list_insert_id. by rewrite list_lookup_fmap, Hi.
Qed.

Lemma select_rows_length data ids dt :
  select_rows data ids = Ok dt -> length dt = length ids.
Proof.
  revert dt. induction ids as [|i ids IH]; intros dt; simpl.
  - by intros [= <-].
  - destruct (data !! i); [|discriminate].
    destruct (select_rows data ids) as [rows|]; simpl; [|discriminate].
    intros [= <-]. simpl. by rewrite (IH rows).
Qed.

Lemma size_zero_shape m : size m = 0%nat <-> Forall (fun n => n = 0%nat) (shape m).
Proof.
  unfold size, shape. induction m as [|r m IH]; simpl.
  - split; [constructor | done].
  - rewrite length_app, Forall_cons. destruct IH as [IH1 IH2]. split.
    + intros H. split; [lia | apply IH1; lia].
    + intros [H1 H2]. rewrite H1, (IH2 H2). done.
Qed.

(** [extend_rows] onto as many empty lists as there are rows copies the
    rows. *)
Lemma extend_rows_append idx rows acc :
  (idx + length rows <= length acc)%nat ->
  exists acc', extend_rows idx rows acc = (acc', None) /\
    length acc' = length acc /\
    (forall j, (j < idx)%nat -> acc' !! j = acc !! j) /\
    (forall j, (idx + length rows <= j)%nat -> acc' !! j = acc !! j) /\
    (forall k row old, rows !! k = Some row -> acc !! (idx + k)%nat = Some old ->
       acc' !! (idx + k)%nat = Some (old ++ row)).
Proof.
  revert idx acc. induction rows as [|r rows IH]; intros idx acc Hlen; simpl in *.
  - exists acc. repeat split; auto. intros k row old Hk. by rewrite lookup_nil in Hk.
  - destruct (acc !! idx) as [old|] eqn:Hold.
    2:{ apply lookup_ge_None in Hold. lia. }
    destruct (IH (S idx) (<[idx := old ++ r]> acc)) as (acc' & Heq & Hl & Hlo & Hhi & Hin).
    { rewrite length_insert. lia. }
    exists acc'. rewrite Heq. split; [done|].
    rewrite length_insert in Hl. split; [done|]. repeat split.
    + intros j Hj. rewrite Hlo by lia. apply list_lookup_insert_ne. lia.
    + intros j Hj. rewrite Hhi by lia. apply list_lookup_insert_ne. lia.
    + intros k row old' Hk Hacc. destruct k as [|k]; simpl in Hk.
      * injection Hk as ->. rewrite Nat.add_0_r in *. rewrite Hlo by lia.
        rewrite Hold in Hacc. injection Hacc as ->.
        apply list_lookup_insert_eq. by apply lookup_lt_Some in Hold.
      * replace (idx + S k)%nat with (S idx + k)%nat in * by lia.
        apply (Hin k row old' Hk).
        rewrite list_lookup_insert_ne by lia. done.
Qed.

Lemma extend_rows_fresh (rows : matrix) :
  extend_rows 0 rows (replicate (length rows) []) = (rows, None).
Proof.
  destruct (extend_rows_append 0 rows (replicate (length rows) []))
    as (acc' & Heq & Hl & _ & _ & Hin).
  { rewrite length_replicate. lia. }
  rewrite Heq. f_equal. rewrite length_replicate in Hl.
  apply list_eq. intros k. destruct (rows !! k) as [row|] eqn:Hk.
  - apply (Hin k row [] Hk). apply lookup_replicate_2. by apply lookup_lt_Some in Hk.
  - apply lookup_ge_None. apply lookup_ge_None in Hk. lia.
Qed.

(** When the accumulator is shorter than the window, the loop raises. *)
Lemma extend_rows_short idx rows acc :
  (idx <= length acc < idx + length rows)%nat ->
  exists acc', extend_rows idx rows acc = (acc', Some IndexError).
Proof.
  revert idx acc. induction rows as [|r rows IH]; intros idx acc Hlen; simpl in *.
  - lia.
  - destruct (acc !! idx) as [old|] eqn:Hold; [|by exists acc].
    apply lookup_lt_Some in Hold.
    apply IH. rewrite length_insert. lia.
Qed.

Lemma first_samples_nonempty (rows : matrix) :
  Forall (fun n => n <> 0%nat) (shape rows) ->
  exists raw, first_samples rows = Ok raw /\
    length raw = length rows /\
    forall i v, raw !! i = Some v -> exists row, rows !! i = Some row /\ head row = Some v.
Proof.
  induction rows as [|r rows IH]; simpl; intros H.
  - exists []. repeat split; auto. intros i v Hi. by rewrite lookup_nil in Hi.
  - apply Forall_cons in H as [Hr H]. destruct r as [|v0 r]; [done|].
    destruct (IH H) as (raw & -> & Hl & Hin). simpl.
    exists (v0 :: raw). repeat split; [simpl; lia|].
    intros [|i] v Hi; simpl in *.
    + injection Hi as ->. by eexists.
    + by apply Hin.
Qed.

Section PipelineFacts.
Context {filters : DataFilter} {numpy : NumPy} {board : Board}.

(** The filter block touches neither the globals nor the shape of the
    window; it only extends the trace. *)
Lemma apply_chain_facts ops channel s dt s' dt' :
  apply_chain ops channel s dt = (s', dt') ->
  globals s' = globals s /\ shape dt' = shape dt /\
  exists t, trace s' = trace s ++ t.
Proof.
  revert s dt. induction ops as [|op ops IH]; intros s dt; simpl.
  - intros [= <- <-]. repeat split; auto. exists []. by rewrite app_nil_r.
  - destruct (dt !! channel) as [row|] eqn:Hrow.
    2:{ intros [= <- <-]. repeat split; auto. by eexists. }
    destruct (run_filter op row) as [row'|e] eqn:Hop.
    + intros Hrec. apply IH in Hrec as (Hg & Hs & t & Ht).
      split; [by rewrite Hg|]. split.
      * rewrite Hs. apply (shape_insert dt channel row row' Hrow).
        by apply (run_filter_length op).
      * exists (FilterCall channel op :: t). rewrite Ht. simpl.
        by rewrite <- app_assoc.
    + intros [= <- <-]. repeat split; auto.
      exists [FilterCall channel op; LogError (Some e)]. simpl.
      by rewrite <- app_assoc.
Qed.

Lemma filter_channels_facts channels s dt s' dt' :
  filter_channels channels s dt = (s', dt') ->
  globals s' = globals s /\ shape dt' = shape dt /\
  exists t, trace s' = trace s ++ t.
Proof.
  revert s dt.
  induction channels as [|c channels IH]; intros s dt; cbn [filter_channels].
  - intros [= <- <-]. repeat split; auto. exists []. by rewrite app_nil_r.
  - destruct (apply_chain filter_chain c s dt) as [s1 dt1] eqn:H1.
    apply apply_chain_facts in H1 as (Hg1 & Hs1 & t1 & Ht1).
    intros H2. apply IH in H2 as (Hg2 & Hs2 & t2 & Ht2).
    split; [congruence|]. split; [congruence|].
    exists (t1 ++ t2). by rewrite Ht2, Ht1, app_assoc.
Qed.

Lemma baseline_correction_shape idxs cal dt dt' :
  baseline_correction idxs cal dt = Ok dt' -> shape dt' = shape dt.
Proof.
  revert dt. induction idxs as [|i idxs IH]; intros dt; simpl.
  - by intros [= <-].
  - destruct (dt !! i) as [row|] eqn:Hrow; [|discriminate].
    destruct (cal !! i) as [c|]; [|discriminate].
    intros H. rewrite (IH _ H).
    apply (shape_insert dt i row _ Hrow), length_fmap.
Qed.

Lemma baseline_correction_ok idxs cal dt :
  Forall (fun i => i < length dt /\ i < length cal)%nat idxs ->
  exists dt', baseline_correction idxs cal dt = Ok dt'.
Proof.
  revert dt. induction idxs as [|i idxs IH]; intros dt H; simpl.
  - by eexists.
  - apply Forall_cons in H as [[Hd Hc] H].
    destruct (lookup_lt_is_Some_2 dt i Hd) as [row ->].
    destruct (lookup_lt_is_Some_2 cal i Hc) as [c ->].
    apply IH. rewrite length_insert. done.
Qed.

Lemma normalize_ref_shape dt dt' :
  normalize_ref dt = Ok dt' -> shape dt' = shape dt.
Proof.
  unfold normalize_ref. destruct (dt !! 0%nat) as [row|] eqn:Hrow; [|discriminate].
  destruct (PrimFloat.ltb _ _); intros [= <-]; [|done].
  apply (shape_insert dt 0%nat row _ Hrow), length_fmap.
Qed.

Lemma normalize_ref_ok dt :
  dt <> [] -> exists dt', normalize_ref dt = Ok dt'.
Proof.
  unfold normalize_ref. destruct dt as [|row dt]; [done|]. intros _. simpl.
  destruct (PrimFloat.ltb _ _); by eexists.
Qed.

Lemma process_window_facts dt0 s s1 dt :
  process_window dt0 s = (s1, Ok dt) ->
  globals s1 = globals s /\ shape dt = shape dt0 /\
  exists t, trace s1 = trace s ++ t.
Proof.
  unfold process_window.
  destruct (if bandpass_enabled s then filter_channels eeg_channels s dt0
            else (s, dt0)) as [s' dt1] eqn:Hf.
  assert (globals s' = globals s /\ shape dt1 = shape dt0 /\
          exists t, trace s' = trace s ++ t) as (Hg & Hs & Ht).
  { destruct (bandpass_enabled s).
    - by apply filter_channels_facts in Hf.
    - injection Hf as <- <-. repeat split; auto. exists []. by rewrite app_nil_r. }
  intros [= <- Hr]. split; [done|]. split; [|done].
  destruct (baseline_correction_enabled s').
  - destruct (baseline_correction _ _ dt1) as [dt2|] eqn:Hb; [|discriminate].
    simpl in Hr. apply normalize_ref_shape in Hr.
    apply baseline_correction_shape in Hb. congruence.
  - simpl in Hr. apply normalize_ref_shape in Hr. congruence.
Qed.

(** What an iteration that goes through leaves behind. *)
Lemma loop_iteration_next data s s' :
  loop_iteration (Ok data) s = Next s' ->
  exists dt0, select_rows data eeg_channels = Ok dt0 /\
    ((size dt0 = 0%nat /\ s' = record (LogError None) s) \/
     (size dt0 <> 0%nat /\
      exists s1 dt raw,
        process_window dt0 s = (s1, Ok dt) /\
        first_samples dt = Ok raw /\
        s' = record (Sleep 1)
               (record (EmitUpdateData raw) (set_collected_data dt s1)))).
Proof.
  unfold loop_iteration. intros H.
  destruct (select_rows data eeg_channels) as [dt0|] eqn:Hsel; [|discriminate].
  exists dt0. split; [done|].
  destruct (size dt0 =? 0)%nat eqn:Hsz.
  - injection H as <-. left. by apply Nat.eqb_eq in Hsz.
  - apply Nat.eqb_neq in Hsz. right. split; [done|].
    destruct (process_window dt0 s) as [s1 [dt|]] eqn:Hp; [|discriminate].
    pose proof (process_window_facts _ _ _ _ Hp) as (_ & Hshape & _).
    assert (length eeg_channels = length dt) as Hlen.
    { rewrite <- (select_rows_length _ _ _ Hsel), <- !shape_length. congruence. }
    rewrite Hlen, extend_rows_fresh in H.
    destruct (first_samples dt) as [raw|] eqn:Hraw; [|discriminate].
    injection H as <-. by exists s1, dt, raw.
Qed.

(** An iteration over a window that holds samples in every row goes
    through, whatever the filters do, unless baseline correction runs
    short of calibration values. *)
Lemma loop_iteration_goes_on data s dt0 :
  select_rows data eeg_channels = Ok dt0 ->
  dt0 <> [] ->
  Forall (fun n => n <> 0%nat) (shape dt0) ->
  (baseline_correction_enabled s = false \/
   (length eeg_channels <= length (calibration_values s))%nat) ->
  exists s1 dt raw,
    process_window dt0 s = (s1, Ok dt) /\
    first_samples dt = Ok raw /\
    loop_iteration (Ok data) s
    = Next (record (Sleep 1)
              (record (EmitUpdateData raw) (set_collected_data dt s1))).
Proof.
  intros Hsel Hne Hrows Hcal.
  assert (length dt0 = length eeg_channels) as Hlen0
    by apply (select_rows_length _ _ _ Hsel).
  assert (exists s1 dt, process_window dt0 s = (s1, Ok dt)) as (s1 & dt & Hp).
  { unfold process_window.
    destruct (if bandpass_enabled s then filter_channels eeg_channels s dt0
              else (s, dt0)) as [s' dt1] eqn:Hf.
    assert (globals s' = globals s /\ shape dt1 = shape dt0) as [Hg Hs].
    { destruct (bandpass_enabled s).
      - apply filter_channels_facts in Hf. tauto.
      - by injection Hf as <- <-. }
    assert (length dt1 = length dt0) as Hlen1
      by (rewrite <- !shape_length; congruence).
    assert (exists dt2,
      (if baseline_correction_enabled s'
       then baseline_correction (seq 0 (length eeg_channels))
              (calibration_values s') dt1
       else Ok dt1) = Ok dt2 /\ length dt2 = length dt0) as (dt2 & -> & Hlen2).
    { replace (baseline_correction_enabled s')
        with (baseline_correction_enabled s)
        by apply (f_equal baseline_correction_enabled (eq_sym Hg)).
      replace (calibration_values s') with (calibration_values s)
        by apply (f_equal calibration_values (eq_sym Hg)).
      destruct (baseline_correction_enabled s); [|by exists dt1].
      destruct Hcal as [|Hcal]; [done|].
      destruct (baseline_correction_ok (seq 0 (length eeg_channels))
                  (calibration_values s) dt1) as [dt2 Hb].
      { apply Forall_forall. intros i Hi. apply list_elem_of_In, in_seq in Hi. lia. }
      exists dt2. split; [done|]. apply baseline_correction_shape in Hb.
      rewrite <- !shape_length in *. congruence. }
    simpl. destruct (normalize_ref_ok dt2) as [dt3 ->]; [|by eauto].
    intros ->. by destruct dt0. }
  pose proof (process_window_facts _ _ _ _ Hp) as (_ & Hshape & _).
  destruct (first_samples_nonempty dt) as (raw & Hraw & _).
  { by rewrite Hshape. }
  exists s1, dt, raw. split; [done|]. split; [done|].
  unfold loop_iteration. rewrite Hsel, Hp.
  assert ((size dt0 =? 0)%nat = false) as ->.
  { apply Nat.eqb_neq. intros Hz. apply size_zero_shape in Hz.
    destruct dt0 as [|r dt0]; [done|]. simpl in Hz, Hrows.
    apply Forall_cons in Hz as [Hz _]. apply Forall_cons in Hrows as [Hr _]. done. }
  assert (length eeg_channels = length dt) as ->.
  { rewrite <- Hlen0, <- !shape_length. congruence. }
  by rewrite extend_rows_fresh, Hraw.
Qed.

(** The filter, baseline and REF blocks never read the export buffer. *)
Lemma apply_chain_collected d ops channel s dt :
  apply_chain ops channel (set_collected_data d s) dt =
  (set_collected_data d (apply_chain ops channel s dt).1,
   (apply_chain ops channel s dt).2).
Proof.
  revert s dt. induction ops as [|op ops IH]; intros s dt; simpl; [done|].
  destruct (dt !! channel) as [row|]; [|done].
  destruct (run_filter op row) as [row'|e]; [|done].
  apply (IH (record (FilterCall channel op) s)).
Qed.

Lemma filter_channels_collected d channels s dt :
  filter_channels channels (set_collected_data d s) dt =
  (set_collected_data d (filter_channels channels s dt).1,
   (filter_channels channels s dt).2).
Proof.
  revert s dt.
  induction channels as [|c channels IH]; intros s dt; cbn [filter_channels];
    [done|].
  rewrite apply_chain_collected.
  destruct (apply_chain filter_chain c s dt) as [s1 dt1]. apply IH.
Qed.

Lemma process_window_collected d dt0 s :
  process_window dt0 (set_collected_data d s) =
  (set_collected_data d (process_window dt0 s).1, (process_window dt0 s).2).
Proof.
  unfold process_window. cbn [bandpass_enabled set_collected_data].
  destruct (bandpass_enabled s); [|done].
  rewrite filter_channels_collected.
  by destruct (filter_channels eeg_channels s dt0) as [s1 dt1].
Qed.

End PipelineFacts.

(** ** Start requests *)

Lemma threads_started_record e s :
  threads_started (record e s) =
  (threads_started s + if is_thread_start e then 1 else 0)%nat.
Proof.
  unfold threads_started. cbn [trace record].
  rewrite List.filter_app, length_app. simpl.
  by destruct (is_thread_start e).
Qed.

Lemma cleanup_spi_gpio_running hw s :
  running (cleanup_spi_gpio hw s) = running s.
Proof.
  unfold cleanup_spi_gpio, close_handle.
  repeat case_match; simplify_eq; reflexivity.
Qed.

Lemma cleanup_spi_gpio_threads hw s :
  threads_started (cleanup_spi_gpio hw s) = threads_started s.
Proof.
  unfold cleanup_spi_gpio, close_handle.
  repeat case_match; simplify_eq;
    rewrite ?threads_started_record; unfold threads_started; simpl; lia.
Qed.

(** C1, as the code has it: a start request that finds the stream Running
    leaves the flag as it is, and is a no-op only when the GPIO check reports
    a conflict (409, no thread); without a conflict one more acquisition
    thread is started, whatever the flag says. *)
Theorem start_while_running (hw : hardware) (s : state) :
  running s = true ->
  running (start_analysis hw s).1 = running s /\
  (gpio_conflict hw = true ->
     status_code <$> (start_analysis hw s).2 = Some 409 /\
     threads_started (start_analysis hw s).1 = threads_started s) /\
  (gpio_conflict hw = false ->
     threads_started (start_analysis hw s).1 = S (threads_started s)).
Proof.
  intros Hrun. unfold start_analysis, check_gpio_conflicts.
  destruct (gpio_conflict hw); cbn [fst snd].
  - rewrite cleanup_spi_gpio_running, cleanup_spi_gpio_threads.
    cbn [running set_running]. rewrite Hrun. by repeat split.
  - rewrite threads_started_record, cleanup_spi_gpio_threads.
    cbn [running record]. rewrite cleanup_spi_gpio_running.
    cbn [running set_running]. rewrite Hrun.
    repeat split; try done. intros _. unfold threads_started. simpl. lia.
Qed.

Lemma start_while_running_witness :
  running Bench.streaming = true /\
  running (start_analysis Bench.free_hardware Bench.streaming).1 = true /\
  threads_started (start_analysis Bench.free_hardware Bench.streaming).1 = 2%nat.
Proof.
  split; [reflexivity|].
  destruct (start_while_running Bench.free_hardware Bench.streaming eq_refl)
    as (H1 & _ & H3).
  split; [exact H1 | exact (H3 eq_refl)].
Defined.

(** C1 as stated fails: with the stream Running and one acquisition thread
    alive, a start request on free hardware starts a second one. *)
Lemma start_while_running_not_noop :
  running Bench.streaming = true /\
  threads_started Bench.streaming = 1%nat /\
  threads_started (start_analysis Bench.free_hardware Bench.streaming).1 = 2%nat /\
  (start_analysis Bench.free_hardware Bench.streaming).1 <> Bench.streaming.
Proof.
  repeat split. intros H. apply (f_equal threads_started) in H. discriminate H.
Qed.

(** C2, the code at the inputs where it leaves the claim: on a conflict the
    409 goes out but the flag has been raised already; without a conflict
    the thread is started and the view function returns nothing, where the
    claim has a 200 with a status message. *)
Theorem start_analysis_on_idle :
  running Bench.at_launch = false /\
  status_code <$> (start_analysis Bench.busy_hardware Bench.at_launch).2
    = Some 409 /\
  running (start_analysis Bench.busy_hardware Bench.at_launch).1 = true /\
  threads_started (start_analysis Bench.busy_hardware Bench.at_launch).1 = 0%nat /\
  (start_analysis Bench.free_hardware Bench.at_launch).2 = None /\
  running (start_analysis Bench.free_hardware Bench.at_launch).1 = true /\
  threads_started (start_analysis Bench.free_hardware Bench.at_launch).1 = 1%nat.
Proof. repeat split. Qed.

(** ** Calibration *)

Section CalibrationFacts.
Context {numpy : NumPy} {board : Board}.

Lemma calibration_loop_running b polls cd s :
  calibration_loop polls cd (set_running b s) =
  (set_running b (calibration_loop polls cd s).1,
   (calibration_loop polls cd s).2).
Proof.
  revert cd s. induction polls as [|p polls IH]; intros cd s; simpl; [done|].
  destruct p as [data|e]; [|done].
  destruct (select_rows data eeg_channels) as [dt|e]; [|done].
  destruct (size dt =? 0)%nat.
  - apply (IH cd (record (LogError None) s)).
  - destruct (extend_rows 0 dt cd) as [acc [e|]]; [done|apply IH].
Qed.

Lemma calibration_loop_globals polls cd s :
  globals (calibration_loop polls cd s).1 = globals s.
Proof.
  revert cd s. induction polls as [|p polls IH]; intros cd s; simpl; [done|].
  destruct p as [data|e]; [|done].
  destruct (select_rows data eeg_channels) as [dt|e]; [|done].
  destruct (size dt =? 0)%nat.
  - by rewrite IH.
  - destruct (extend_rows 0 dt cd) as [acc [e|]]; [done|apply IH].
Qed.

Lemma calibrate_running b setup polls teardown s :
  calibrate setup polls teardown (set_running b s) =
  set_running b (calibrate setup polls teardown s).
Proof.
  unfold calibrate, calibration_run. destruct setup as [[]|e]; [|done].
  cbn [enabled_channels set_running]. rewrite calibration_loop_running.
  destruct (calibration_loop polls _ s) as [s1 [cd|e]]; simpl; [|done].
  by destruct teardown.
Qed.

(** [calibrate] either stores what its run computed, or logs the
    exception that ended the run and leaves the vector alone. *)
Lemma calibrate_outcome setup polls teardown s :
  match (calibration_run setup polls s).2 with
  | Raise e =>
      calibration_values (calibrate setup polls teardown s)
        = calibration_values s /\
      last (trace (calibrate setup polls teardown s))
        = Some (LogError (Some e))
  | Ok values =>
      calibration_values (calibrate setup polls teardown s) = values
  end.
Proof.
  unfold calibrate, calibration_run. destruct setup as [[]|e]; simpl.
  2:{ split; [done|]. apply last_snoc. }
  pose proof (calibration_loop_globals polls
                (replicate (Z.to_nat (enabled_channels s)) []) s) as Hg.
  destruct (calibration_loop polls _ s) as [s1 [cd|e]]; simpl in *.
  - by destruct teardown.
  - split; [apply (f_equal calibration_values Hg) | apply last_snoc].
Qed.

Lemma size_nonzero_length (dt : matrix) : size dt <> 0%nat -> length dt <> 0%nat.
Proof. by destruct dt. Qed.

(** With an accumulator shorter than the window, the sampling loop only
    returns when no window held a sample, and then with the accumulator
    as it was. *)
Lemma calibration_loop_short polls cd s s' cd' :
  (length eeg_channels = 0 \/ length cd < length eeg_channels)%nat ->
  calibration_loop polls cd s = (s', Ok cd') ->
  forallb empty_window polls = true /\ cd' = cd.
Proof.
  intros Hlen. revert s.
  induction polls as [|p polls IH]; intros s; cbn [calibration_loop forallb].
  - by intros [= _ <-].
  - destruct p as [data|e]; [|discriminate]. cbn [empty_window].
    destruct (select_rows data eeg_channels) as [dt|e] eqn:Hsel; [|discriminate].
    destruct (size dt =? 0)%nat eqn:Hsz; [apply IH|].
    apply Nat.eqb_neq, size_nonzero_length in Hsz.
    apply select_rows_length in Hsel.
    destruct (extend_rows_short 0 dt cd) as [acc ->]; [lia|discriminate].
Qed.

Lemma calibration_loop_first_window empties data rest cd s dt :
  (length eeg_channels = 0 \/ length cd < length eeg_channels)%nat ->
  forallb empty_window empties = true ->
  select_rows data eeg_channels = Ok dt -> size dt <> 0%nat ->
  (calibration_loop (empties ++ Ok data :: rest) cd s).2 = Raise IndexError.
Proof.
  intros Hlen Hemp Hsel Hsz. revert s.
  induction empties as [|p empties IH]; intros s; simpl.
  - rewrite Hsel. pose proof (size_nonzero_length _ Hsz) as Hl.
    apply Nat.eqb_neq in Hsz. rewrite Hsz.
    apply select_rows_length in Hsel.
    destruct (extend_rows_short 0 dt cd) as [acc ->]; [lia|done].
  - simpl in Hemp. apply andb_prop in Hemp as [Hp Hemp].
    destruct p as [d|e]; [|discriminate]. simpl in Hp.
    destruct (select_rows d eeg_channels) as [dt'|e]; [|discriminate].
    rewrite Hp. by apply IH.
Qed.

Lemma empty_window_holds_no_samples polls :
  forallb empty_window polls = true -> existsb holds_samples polls = false.
Proof.
  induction polls as [|p polls IH]; simpl; [done|].
  intros H. apply andb_prop in H as [Hp H]. rewrite (IH H).
  unfold empty_window, holds_samples in *. destruct p as [data|]; [|done].
  destruct (select_rows data eeg_channels); [|done]. by rewrite Hp.
Qed.

End CalibrationFacts.

(** C3, as the code has it: [calibrate] never looks at the running flag.
    Called while the stream is Running it does what it does while Idle: it
    fails (logs the exception, vector not mutated) exactly when its own run
    raises, and overwrites the vector otherwise. *)
Theorem calibrate_while_running {numpy : NumPy} {board : Board}
    (setup : result unit) (polls : list (result matrix))
    (teardown : result unit) (s : state) :
  running s = true ->
  calibrate setup polls teardown s =
    set_running true (calibrate setup polls teardown (set_running false s)) /\
  (forall e, (calibration_run setup polls s).2 = Raise e ->
     calibration_values (calibrate setup polls teardown s)
       = calibration_values s /\
     last (trace (calibrate setup polls teardown s))
       = Some (LogError (Some e))) /\
  (forall values, (calibration_run setup polls s).2 = Ok values ->
     calibration_values (calibrate setup polls teardown s) = values).
Proof.
  intros Hrun. split.
  - rewrite <- calibrate_running. f_equal.
    rewrite <- Hrun at 1. cbn. by destruct s.
  - pose proof (calibrate_outcome setup polls teardown s) as H.
    split.
    + intros e He. by rewrite He in H.
    + intros values Hv. by rewrite Hv in H.
Qed.

Lemma calibrate_while_running_witness :
  running Bench.streaming = true /\
  calibration_values
    (calibrate (numpy := Bench.small_numpy) (board := Bench.two_channel_board)
       (Ok ()) [Ok [[0; 1]; [10; 20]; [30; 50]]%float] (Ok ()) Bench.streaming)
  = [15; 40]%float.
Proof.
  split; [reflexivity|].
  apply (calibrate_while_running (numpy := Bench.small_numpy)
           (board := Bench.two_channel_board)
           (Ok ()) [Ok [[0; 1]; [10; 20]; [30; 50]]%float] (Ok ())
           Bench.streaming eq_refl).
  reflexivity.
Defined.

(** C3 as stated fails: with the stream Running, a calibration whose session
    the adapter accepts goes through and replaces the vector. *)
Lemma calibrate_while_running_overwrites :
  running Bench.streaming = true /\
  calibration_values Bench.streaming = [0; 0]%float /\
  calibration_values
    (calibrate (numpy := Bench.small_numpy) (board := Bench.two_channel_board)
       (Ok ()) [Ok [[0; 1]; [10; 20]; [30; 50]]%float] (Ok ()) Bench.streaming)
  = [15; 40]%float.
Proof. repeat split. Qed.

(** C10, as the code has it: with fewer enabled channels than the board has
    EEG channels, the first window that holds samples makes the accumulation
    raise [IndexError]; a run that meets such a window is aborted and leaves
    the vector as it was; and the vector is overwritten only when no polled
    window held a sample, then with the mean of nothing for every enabled
    channel. *)
Theorem calibrate_fewer_enabled_channels {numpy : NumPy} {board : Board}
    (setup : result unit) (polls : list (result matrix))
    (teardown : result unit) (s : state) :
  enabled_channels s < Z.of_nat (length eeg_channels) ->
  (forall empties data rest dt,
     setup = Ok () -> polls = empties ++ Ok data :: rest ->
     forallb empty_window empties = true ->
     select_rows data eeg_channels = Ok dt -> size dt <> 0%nat ->
     (calibration_run setup polls s).2 = Raise IndexError) /\
  (existsb holds_samples polls = true ->
     (exists e, (calibration_run setup polls s).2 = Raise e) /\
     calibration_values (calibrate setup polls teardown s)
       = calibration_values s) /\
  (forall values, (calibration_run setup polls s).2 = Ok values ->
     forallb empty_window polls = true /\
     values = replicate (Z.to_nat (enabled_channels s)) (np_mean [])).
Proof.
  intros Hfew.
  assert (length eeg_channels = 0 \/
          length (replicate (Z.to_nat (enabled_channels s)) ([] : list float))
            < length eeg_channels)%nat as Hlen.
  { rewrite length_replicate. lia. }
  assert (forall values, (calibration_run setup polls s).2 = Ok values ->
            forallb empty_window polls = true /\
            values = replicate (Z.to_nat (enabled_channels s)) (np_mean []))
    as Hstored.
  { intros values. unfold calibration_run. destruct setup as [[]|e]; [|discriminate].
    destruct (calibration_loop polls _ s) as [s1 [cd|e]] eqn:Hloop; [|discriminate].
    apply (calibration_loop_short _ _ _ _ _ Hlen) in Hloop as [Hall ->].
    simpl. intros [= <-]. split; [done|]. by rewrite fmap_replicate. }
  split; [|split; [|done]].
  - intros empties data rest dt -> -> Hemp Hsel Hsz. unfold calibration_run.
    pose proof (calibration_loop_first_window empties data rest _ s dt
                  Hlen Hemp Hsel Hsz) as H.
    destruct (calibration_loop _ _ s) as [s1 r]. simpl in *. by rewrite H.
  - intros Hsome.
    pose proof (calibrate_outcome setup polls teardown s) as Hout.
    destruct (calibration_run setup polls s).2 as [values|e] eqn:Hrun.
    + destruct (Hstored values eq_refl) as [Hall _].
      apply empty_window_holds_no_samples in Hall. congruence.
    + split; [by exists e | apply Hout].
Qed.

Lemma calibrate_fewer_enabled_channels_witness :
  let one_enabled := mkState false 1 false false 1 30 [0; 0]%float [[]; []]
                       false false false [] in
  calibration_values
    (calibrate (numpy := Bench.small_numpy) (board := Bench.two_channel_board)
       (Ok ()) [Ok [[]; []; []]; Ok [[0; 1]; [10; 20]; [30; 50]]%float] (Ok ())
       one_enabled)
  = [0; 0]%float.
Proof.
  intros one_enabled.
  apply (calibrate_fewer_enabled_channels (numpy := Bench.small_numpy)
           (board := Bench.two_channel_board)
           (Ok ()) [Ok [[]; []; []]; Ok [[0; 1]; [10; 20]; [30; 50]]%float]
           (Ok ()) one_enabled).
  - simpl. lia.
  - reflexivity.
Defined.

(** C10 as stated fails in its last clause: with one enabled channel on a
    board with two, a run whose polls all come back without samples ends
    normally and overwrites the vector. *)
Lemma calibrate_overwrites_without_samples :
  let one_enabled := mkState false 1 false false 1 30 [0; 0]%float [[]; []]
                       false false false [] in
  enabled_channels one_enabled
    < Z.of_nat (length (eeg_channels (Board := Bench.two_channel_board))) /\
  calibration_values
    (calibrate (numpy := Bench.small_numpy) (board := Bench.two_channel_board)
       (Ok ()) [Ok [[]; []; []]; Ok [[]; []; []]] (Ok ()) one_enabled)
  = [PrimFloat.nan].
Proof. split; [simpl; lia | reflexivity]. Qed.

(** ** The export buffer and the published event *)

(** C4, as the code has it: an iteration that publishes replaces the export
    buffer by its own window as it stands after the filter, baseline and REF
    blocks (with every block idle but the REF one, by the REF-normalised
    window); the published sample is taken from these very rows, and nothing
    of what the buffer held before goes into the new one. *)
Theorem collected_data_is_processed_window
    {filters : DataFilter} {numpy : NumPy} {board : Board}
    (data : matrix) (s s' : state) (dt0 : matrix) :
  loop_iteration (Ok data) s = Next s' ->
  select_rows data eeg_channels = Ok dt0 -> size dt0 <> 0%nat ->
  exists s1 dt raw,
    process_window dt0 s = (s1, Ok dt) /\
    collected_data s' = dt /\
    first_samples (collected_data s') = Ok raw /\
    trace s' = trace s1 ++ [EmitUpdateData raw; Sleep 1] /\
    (bandpass_enabled s = false -> baseline_correction_enabled s = false ->
       normalize_ref dt0 = Ok dt) /\
    (forall d, loop_iteration (Ok data) (set_collected_data d s) = Next s').
Proof.
  intros Hnext Hsel Hsz.
  destruct (loop_iteration_next _ _ _ Hnext) as (dt0' & Hsel' & [[Hz _]|(_ & H)]).
  { congruence. }
  assert (dt0' = dt0) as -> by congruence.
  destruct H as (s1 & dt & raw & Hp & Hraw & ->).
  exists s1, dt, raw. repeat split; try done.
  - cbn. by rewrite <- app_assoc.
  - intros Hb Hc. unfold process_window in Hp. rewrite Hb in Hp.
    rewrite Hc in Hp. simpl in Hp. congruence.
  - intros d. rewrite <- Hnext. unfold loop_iteration. rewrite Hsel.
    rewrite process_window_collected, Hp. cbn [fst snd].
    destruct (size dt0 =? 0)%nat eqn:E; [by apply Nat.eqb_eq in E|].
    unfold loop_iteration in Hnext. rewrite Hsel, E, Hp in Hnext.
    destruct (extend_rows 0 dt _) as [acc [e|]]; [done|].
    cbn. by destruct (first_samples dt).
Qed.

Lemma collected_data_is_processed_window_witness :
  let data := [[0; 1]; [1000.5; 1002.5]; [3; 4]]%float in
  let s' := Bench.iterate Bench.passthrough_filters data Bench.streaming in
  exists s1 dt raw,
    process_window (filters := Bench.passthrough_filters)
      (numpy := Bench.small_numpy) (board := Bench.two_channel_board)
      [[1000.5; 1002.5]; [3; 4]]%float Bench.streaming = (s1, Ok dt) /\
    collected_data s' = dt /\
    first_samples (collected_data s') = Ok raw /\
    trace s' = trace s1 ++ [EmitUpdateData raw; Sleep 1] /\
    (bandpass_enabled Bench.streaming = false ->
     baseline_correction_enabled Bench.streaming = false ->
     normalize_ref (numpy := Bench.small_numpy)
       [[1000.5; 1002.5]; [3; 4]]%float = Ok dt) /\
    (forall d,
       loop_iteration (filters := Bench.passthrough_filters)
         (numpy := Bench.small_numpy) (board := Bench.two_channel_board)
         (Ok data) (set_collected_data d Bench.streaming) = Next s').
Proof.
  intros data s'.
  apply (collected_data_is_processed_window
           (filters := Bench.passthrough_filters) (numpy := Bench.small_numpy)
           (board := Bench.two_channel_board) data Bench.streaming s').
  - reflexivity.
  - reflexivity.
  - discriminate.
Defined.

(** C4 as stated fails: the first window, whose REF row has mean 1001.5,
    goes into the buffer with that row normalised to -1 and 1; the second
    window then replaces the first altogether.  Neither step appends the raw
    readings to what the buffer held. *)
Lemma collected_data_not_append_only :
  let w1 := [[0; 1]; [1000.5; 1002.5]; [3; 4]]%float in
  let w2 := [[2; 3]; [5; 7]; [6; 8]]%float in
  let s0 := Bench.streaming in
  let s1 := Bench.iterate Bench.passthrough_filters w1 s0 in
  let s2 := Bench.iterate Bench.passthrough_filters w2 s1 in
  collected_data s0 = [[]; []] /\
  collected_data s1 = [[-1; 1]; [3; 4]]%float /\
  collected_data s2 = [[5; 7]; [6; 8]]%float /\
  ~ appends_raw_readings (board := Bench.two_channel_board) w1 s0 s1 /\
  ~ appends_raw_readings (board := Bench.two_channel_board) w2 s1 s2.
Proof.
  intros w1 w2 s0 s1 s2. repeat split.
  - intros (dt0 & Hsel & Hc). injection Hsel as <-.
    apply (f_equal Bench.first_is_negative) in Hc. discriminate Hc.
  - intros (dt0 & Hsel & Hc). injection Hsel as <-.
    apply (f_equal shape) in Hc. discriminate Hc.
Qed.

(** C7, as the code has it: the event an iteration publishes carries one
    float for every EEG row of the board, whatever the enabled-channels
    setting, in the order of the rows, and each float is a sample of that
    row's current window. *)
Theorem update_data_one_float_per_row
    {filters : DataFilter} {numpy : NumPy} {board : Board}
    (data : matrix) (s s' : state) (dt0 : matrix) :
  loop_iteration (Ok data) s = Next s' ->
  select_rows data eeg_channels = Ok dt0 -> size dt0 <> 0%nat ->
  exists t raw,
    trace s' = trace s ++ t ++ [EmitUpdateData raw; Sleep 1] /\
    length raw = length eeg_channels /\
    length (collected_data s') = length eeg_channels /\
    forall i v, raw !! i = Some v ->
      exists row, collected_data s' !! i = Some row /\ v ∈ row.
Proof.
  intros Hnext Hsel Hsz.
  destruct (loop_iteration_next _ _ _ Hnext) as (dt0' & Hsel' & [[Hz _]|(_ & H)]).
  { congruence. }
  assert (dt0' = dt0) as -> by congruence.
  destruct H as (s1 & dt & raw & Hp & Hraw & ->).
  destruct (process_window_facts _ _ _ _ Hp) as (_ & Hshape & t & Ht).
  assert (length dt = length eeg_channels) as Hlen.
  { rewrite <- (select_rows_length _ _ _ Hsel), <- !shape_length. congruence. }
  exists t, raw. cbn. rewrite Ht, <- !app_assoc. split; [done|].
  assert (forall rows raw', first_samples rows = Ok raw' ->
            length raw' = length rows /\
            forall i v, raw' !! i = Some v ->
              exists row, rows !! i = Some row /\ v ∈ row) as Hfirst.
  { clear. induction rows as [|r rows IH]; intros raw'; simpl.
    - intros [= <-]. split; [done|]. intros i v Hi. by rewrite lookup_nil in Hi.
    - destruct r as [|v0 r]; [discriminate|].
      destruct (first_samples rows) as [xs|]; [|discriminate].
      intros [= <-]. destruct (IH xs eq_refl) as [Hl Hin]. split; [simpl; lia|].
      intros [|i] v Hi; simpl in *.
      + injection Hi as ->. eexists. split; [done|]. apply list_elem_of_here.
      + by apply Hin. }
  destruct (Hfirst dt raw Hraw) as [Hl Hin]. repeat split; try congruence. done.
Qed.

Lemma update_data_one_float_per_row_witness :
  let data := [[0; 1]; [5; 7]; [6; 8]]%float in
  let s' := Bench.iterate Bench.passthrough_filters data Bench.streaming in
  exists t raw,
    trace s' = trace Bench.streaming ++ t ++ [EmitUpdateData raw; Sleep 1] /\
    length raw = 2%nat /\
    length (collected_data s') = 2%nat /\
    forall i v, raw !! i = Some v ->
      exists row, collected_data s' !! i = Some row /\ v ∈ row.
Proof.
  intros data s'.
  apply (update_data_one_float_per_row
           (filters := Bench.passthrough_filters) (numpy := Bench.small_numpy)
           (board := Bench.two_channel_board) data Bench.streaming s'
           [[5; 7]; [6; 8]]%float).
  - reflexivity.
  - reflexivity.
  - discriminate.
Defined.

(** C7 as stated fails: with one channel enabled on a board with two EEG
    rows, the event carries two floats. *)
Lemma update_data_not_per_enabled_channel :
  enabled_channels Bench.one_enabled = 1 /\
  trace (Bench.iterate Bench.passthrough_filters [[0]; [5]; [6]]%float
           Bench.one_enabled)
  = [ThreadStart; EmitUpdateData [5; 6]%float; Sleep 1].
Proof. split; reflexivity. Qed.

(** Which sample goes out: the first entry of each row.  With the windows
    5, 7 and 6, 8 (oldest entry first, as the board hands them over) the
    event carries 5 and 6. *)
Lemma update_data_sends_first_entries :
  trace (Bench.iterate Bench.passthrough_filters
           [[0; 1]; [5; 7]; [6; 8]]%float Bench.streaming)
  = [ThreadStart; EmitUpdateData [5; 6]%float; Sleep 1].
Proof. reflexivity. Qed.

Lemma baseline_correction_short idxs cal dt i :
  i ∈ idxs -> (length cal <= i)%nat ->
  baseline_correction idxs cal dt = Raise IndexError.
Proof.
  revert dt. induction idxs as [|idx idxs IH]; intros dt Hi Hshort; simpl.
  - by apply elem_of_nil in Hi.
  - destruct (dt !! idx) as [row|]; [|done].
    destruct (cal !! idx) as [c|] eqn:Hc; [|done].
    apply elem_of_cons in Hi as [->|Hi]; [|by apply IH].
    apply lookup_lt_Some in Hc. lia.
Qed.

(** ** Exceptions in the acquisition thread *)

Section LoopFacts.
Context {filters : DataFilter} {numpy : NumPy} {board : Board}.

Lemma select_rows_out_of_range (data : matrix) (ids : list nat) (i : nat) :
  i ∈ ids -> (length data <= i)%nat ->
  select_rows data ids = Raise IndexError.
Proof.
  induction ids as [|id ids IH]; intros Hi Hlen; cbn [select_rows].
  - by apply elem_of_nil in Hi.
  - destruct (data !! id) as [row|] eqn:Hrow; [|done].
    apply elem_of_cons in Hi as [->|Hi].
    + apply lookup_lt_Some in Hrow. lia.
    + by rewrite (IH Hi Hlen).
Qed.

Lemma process_window_globals dt0 s :
  globals (process_window dt0 s).1 = globals s.
Proof.
  unfold process_window.
  destruct (bandpass_enabled s).
  - destruct (filter_channels eeg_channels s dt0) as [s1 dt1] eqn:Hf.
    apply filter_channels_facts in Hf. cbn [fst]. tauto.
  - reflexivity.
Qed.

Lemma process_window_baseline_short dt0 s :
  baseline_correction_enabled s = true ->
  (length (calibration_values s) < length eeg_channels)%nat ->
  exists s1, process_window dt0 s = (s1, Raise IndexError) /\
             globals s1 = globals s.
Proof.
  intros Hon Hshort.
  pose proof (process_window_globals dt0 s) as Hg.
  unfold process_window in *.
  destruct (if bandpass_enabled s then filter_channels eeg_channels s dt0
            else (s, dt0)) as [s1 dt1].
  cbn [fst] in Hg. exists s1. split; [|exact Hg]. f_equal.
  replace (baseline_correction_enabled s1) with true
    by (rewrite <- Hon; apply (f_equal baseline_correction_enabled (eq_sym Hg))).
  replace (calibration_values s1) with (calibration_values s)
    by (apply (f_equal calibration_values (eq_sym Hg))).
  rewrite (baseline_correction_short _ _ _ (length (calibration_values s)));
    [done| |lia].
  apply list_elem_of_In, in_seq. lia.
Qed.

Lemma loop_iteration_raised_running p s e s1 :
  loop_iteration p s = Raised e s1 -> running s1 = running s.
Proof.
  unfold loop_iteration. destruct p as [data|e0]; [|by intros [= _ <-]].
  destruct (select_rows data eeg_channels) as [dt0|e0];
    [|by intros [= _ <-]].
  destruct (size dt0 =? 0)%nat; [discriminate|].
  pose proof (process_window_globals dt0 s) as Hg.
  apply (f_equal running) in Hg. cbn [globals running] in Hg.
  destruct (process_window dt0 s) as [s2 [dt|e0]]; cbn [fst] in Hg.
  - destruct (extend_rows 0 dt (replicate (length eeg_channels) []))
      as [acc [e1|]].
    + by intros [= _ <-].
    + destruct (first_samples dt); [discriminate|]. by intros [= _ <-].
  - by intros [= _ <-].
Qed.

Lemma acquisition_loop_app pre rest s :
  acquisition_loop (pre ++ rest) s =
  match acquisition_loop pre s with
  | Pending s' => acquisition_loop rest s'
  | ended => ended
  end.
Proof.
  revert s. induction pre as [|ev pre IH]; intros s; simpl.
  - destruct (running s) eqn:Hrun; [done|].
    destruct rest; simpl; by rewrite Hrun.
  - destruct (running s); [|done]. destruct ev as [p|]; [|apply IH].
    destruct (loop_iteration p s); [apply IH|done].
Qed.

Lemma acquisition_loop_pending_running script s s' :
  acquisition_loop script s = Pending s' -> running s' = true.
Proof.
  revert s. induction script as [|ev script IH]; intros s; simpl.
  - destruct (running s) eqn:Hrun; [|discriminate]. by intros [= <-].
  - destruct (running s); [|discriminate]. destruct ev as [p|]; [|apply IH].
    destruct (loop_iteration p s); [apply IH|discriminate].
Qed.

End LoopFacts.

(** C6, as the code has it.  An exception raised by a filter call is
    caught inside the iteration: it is logged, the rest of that channel's
    calls is skipped, and whatever the filters do, an iteration over a
    window with samples in every row goes on to archive the window and
    publish its event.  Every other exception leaves the iteration: one
    raised by the poll, the [IndexError] of [data[eeg_channels, :]] on an
    array with too few rows, the [IndexError] of the baseline loop on too
    few calibration values.  Whatever leaves an iteration, and any
    exception during session set-up, reaches the one handler around the
    whole function: it is logged and the thread ends, the rest of the
    stream unread; the running flag is left as it was, up. *)
Theorem loop_exceptions
    {filters : DataFilter} {numpy : NumPy} {board : Board} :
  (forall op ops channel s dt row e,
     dt !! channel = Some row -> run_filter op row = Raise e ->
     apply_chain (op :: ops) channel s dt
     = (record (LogError (Some e)) (record (FilterCall channel op) s), dt)) /\
  (forall data s dt0,
     select_rows data eeg_channels = Ok dt0 -> dt0 <> [] ->
     Forall (fun n => n <> 0%nat) (shape dt0) ->
     (baseline_correction_enabled s = false \/
      (length eeg_channels <= length (calibration_values s))%nat) ->
     exists s1 dt raw,
       process_window dt0 s = (s1, Ok dt) /\
       first_samples dt = Ok raw /\
       loop_iteration (Ok data) s
       = Next (record (Sleep 1)
                 (record (EmitUpdateData raw) (set_collected_data dt s1)))) /\
  (forall e s, loop_iteration (Raise e) s = Raised e s) /\
  (forall data s i,
     i ∈ eeg_channels -> (length data <= i)%nat ->
     loop_iteration (Ok data) s = Raised IndexError s) /\
  (forall data s dt0,
     select_rows data eeg_channels = Ok dt0 -> size dt0 <> 0%nat ->
     baseline_correction_enabled s = true ->
     (length (calibration_values s) < length eeg_channels)%nat ->
     exists s1,
       loop_iteration (Ok data) s = Raised IndexError s1 /\
       globals s1 = globals s) /\
  (forall before p e rest teardown s s' s1,
     acquisition_loop before s = Pending s' ->
     loop_iteration p s' = Raised e s1 ->
     read_eeg_data_brainflow (Ok ()) (before ++ Poll p :: rest) teardown s
     = (record (LogError (Some e)) s1, Finished) /\
     running (record (LogError (Some e)) s1) = true) /\
  (forall e script teardown s,
     read_eeg_data_brainflow (Raise e) script teardown s
     = (record (LogError (Some e)) s, Finished) /\
     running (record (LogError (Some e)) s) = running s).
Proof.
  split; [|split; [|split; [|split; [|split; [|split]]]]].
  - intros op ops channel s dt row e Hrow Hraise.
    cbn [apply_chain]. by rewrite Hrow, Hraise.
  - intros data s dt0 Hsel Hne Hrows Hbase.
    exact (loop_iteration_goes_on data s dt0 Hsel Hne Hrows Hbase).
  - reflexivity.
  - intros data s i Hi Hlen. unfold loop_iteration.
    by rewrite (select_rows_out_of_range data eeg_channels i Hi Hlen).
  - intros data s dt0 Hsel Hsz Hon Hshort.
    destruct (process_window_baseline_short dt0 s Hon Hshort)
      as (s1 & Hp & Hg).
    exists s1. split; [|exact Hg].
    apply Nat.eqb_neq in Hsz. unfold loop_iteration.
    by rewrite Hsel, Hsz, Hp.
  - intros before p e rest teardown s s' s1 Hpending Hraised.
    pose proof (acquisition_loop_pending_running _ _ _ Hpending) as Hrun.
    split.
    + unfold read_eeg_data_brainflow. rewrite acquisition_loop_app, Hpending.
      cbn [acquisition_loop]. by rewrite Hrun, Hraised.
    + cbn [running record].
      by rewrite (loop_iteration_raised_running p s' e s1 Hraised).
  - intros e script teardown s. by split.
Qed.

Lemma loop_exceptions_witness :
  exists s1 dt raw,
    process_window (filters := Bench.raising_filters)
      (numpy := Bench.small_numpy) (board := Bench.two_channel_board)
      [[5; 7]; [6; 8]]%float Bench.filtering = (s1, Ok dt) /\
    first_samples dt = Ok raw /\
    loop_iteration (filters := Bench.raising_filters)
      (numpy := Bench.small_numpy) (board := Bench.two_channel_board)
      (Ok [[0; 1]; [5; 7]; [6; 8]]%float) Bench.filtering
    = Next (record (Sleep 1)
              (record (EmitUpdateData raw) (set_collected_data dt s1))).
Proof.
  destruct (loop_exceptions (filters := Bench.raising_filters)
              (numpy := Bench.small_numpy) (board := Bench.two_channel_board))
    as (_ & Hcaught & _).
  apply (Hcaught [[0; 1]; [5; 7]; [6; 8]]%float Bench.filtering
           [[5; 7]; [6; 8]]%float).
  - reflexivity.
  - discriminate.
  - repeat constructor; discriminate.
  - by left.
Defined.

(** C6 as stated fails: after a poll that raises, the thread is finished
    although the flag is up and a window is waiting; that window alone would
    have been published.  And a thread whose session set-up raises ends with
    the flag up, as [start_analysis] left it. *)
Lemma poll_exception_ends_loop :
  let run := read_eeg_data_brainflow (filters := Bench.passthrough_filters)
               (numpy := Bench.small_numpy)
               (board := Bench.two_channel_board) in
  let window := Poll (Ok [[0; 1]; [5; 7]; [6; 8]]%float) in
  let started := (start_analysis Bench.free_hardware Bench.at_launch).1 in
  run (Ok ()) [Poll (Raise BrainFlowError); window] (Ok ()) Bench.streaming
    = (record (LogError (Some BrainFlowError)) Bench.streaming, Finished) /\
  running (record (LogError (Some BrainFlowError)) Bench.streaming) = true /\
  (trace (run (Ok ()) [window] (Ok ()) Bench.streaming).1
     = [ThreadStart; EmitUpdateData [5; 6]%float; Sleep 1] /\
   (run (Ok ()) [window] (Ok ()) Bench.streaming).2 = Looping) /\
  (run (Raise BrainFlowError) [window] (Ok ()) started).2 = Finished /\
  running (run (Raise BrainFlowError) [window] (Ok ()) started).1 = true.
Proof. repeat split. Qed.

(** ** The filter block *)

(** C8, as the code has it: with [bandpass_enabled] set, the window goes
    through the filter block, channel id by channel id; for an id whose row
    the block can address, the calls are, in this order and each on the
    output of the one before: detrend (constant), zero-phase band-pass with
    the fixed band 3 to 45 Hz, band-stop 48 to 52 Hz, band-stop 58 to 62 Hz;
    a call that raises ends the chain of that id.  Neither [lowcut] nor
    [highcut] takes part. *)
Theorem filter_chain_order {filters : DataFilter} {numpy : NumPy}
    {board : Board} :
  (forall s dt0, bandpass_enabled s = true ->
     (process_window dt0 s).1 = (filter_channels eeg_channels s dt0).1) /\
  (forall channel rest s dt,
     filter_channels (channel :: rest) s dt =
     filter_channels rest (apply_chain filter_chain channel s dt).1
       (apply_chain filter_chain channel s dt).2) /\
  (forall channel s dt row r1 r2 r3 r4,
     dt !! channel = Some row ->
     run_filter Detrend_constant row = Ok r1 ->
     run_filter (Bandpass sampling_rate 3 45 2) r1 = Ok r2 ->
     run_filter (Bandstop sampling_rate 48 52 2) r2 = Ok r3 ->
     run_filter (Bandstop sampling_rate 58 62 2) r3 = Ok r4 ->
     (apply_chain filter_chain channel s dt).2 = <[channel := r4]> dt /\
     trace (apply_chain filter_chain channel s dt).1 =
       trace s ++ [ FilterCall channel Detrend_constant;
                    FilterCall channel (Bandpass sampling_rate 3 45 2);
                    FilterCall channel (Bandstop sampling_rate 48 52 2);
                    FilterCall channel (Bandstop sampling_rate 58 62 2) ]) /\
  (forall op ops channel s dt row e,
     dt !! channel = Some row -> run_filter op row = Raise e ->
     apply_chain (op :: ops) channel s dt =
     (record (LogError (Some e)) (record (FilterCall channel op) s), dt)).
Proof.
  split; [|split; [|split]].
  - intros s dt0 Hon. unfold process_window. rewrite Hon.
    by destruct (filter_channels eeg_channels s dt0).
  - intros channel rest s dt. cbn [filter_channels].
    by destruct (apply_chain filter_chain channel s dt).
  - intros channel s dt row r1 r2 r3 r4 Hrow H1 H2 H3 H4.
    assert (forall (m : matrix) v, (channel < length m)%nat ->
              <[channel := v]> m !! channel = Some v) as Hins.
    { intros m v Hm. by apply list_lookup_insert_eq. }
    pose proof (lookup_lt_Some _ _ _ Hrow) as Hlt.
    unfold filter_chain. cbn [apply_chain].
    rewrite Hrow, H1. rewrite Hins by done. rewrite H2.
    rewrite Hins by (by rewrite length_insert). rewrite H3.
    rewrite Hins by (by rewrite !length_insert). rewrite H4.
    cbn. split; [by rewrite !list_insert_insert_eq | by rewrite <- !app_assoc].
  - intros op ops channel s dt row e Hrow Hop. cbn [apply_chain].
    by rewrite Hrow, Hop.
Qed.

Lemma filter_chain_order_witness :
  trace (apply_chain (filters := Bench.passthrough_filters)
           (filter_chain (board := Bench.two_channel_board)) 1
           Bench.filtering [[1; 2]; [3; 4]]%float).1
  = [ ThreadStart;
      FilterCall 1 Detrend_constant;
      FilterCall 1 (Bandpass 250 3 45 2);
      FilterCall 1 (Bandstop 250 48 52 2);
      FilterCall 1 (Bandstop 250 58 62 2) ].
Proof.
  destruct (filter_chain_order (filters := Bench.passthrough_filters)
              (numpy := Bench.small_numpy) (board := Bench.two_channel_board))
    as (_ & _ & Horder & _).
  apply (Horder 1%nat Bench.filtering [[1; 2]; [3; 4]]%float [3; 4]%float
           [3; 4]%float [3; 4]%float [3; 4]%float [3; 4]%float);
    reflexivity.
Defined.

(** C8 as stated fails: with the band configured as 1 to 30 Hz, the
    band-pass the block calls is the one for 3 to 45 Hz. *)
Lemma bandpass_band_is_fixed :
  (lowcut Bench.filtering, highcut Bench.filtering) = (1, 30)%float /\
  trace (process_window (filters := Bench.passthrough_filters)
           (numpy := Bench.small_numpy) (board := Bench.two_channel_board)
           [[1; 2]; [3; 4]]%float Bench.filtering).1
  = [ ThreadStart;
      FilterCall 1 Detrend_constant;
      FilterCall 1 (Bandpass 250 3 45 2);
      FilterCall 1 (Bandstop 250 48 52 2);
      FilterCall 1 (Bandstop 250 58 62 2);
      LogError (Some IndexError) ] /\
  Bandpass 250 3 45 2
    <> Bandpass 250 (lowcut Bench.filtering) (highcut Bench.filtering) 2.
Proof.
  repeat split. intros H.
  apply (f_equal (fun op => match op with
                            | Bandpass _ lo _ _ => PrimFloat.ltb lo 2
                            | _ => false
                            end)) in H.
  discriminate H.
Qed.

(** ** Export *)

Lemma mapM_head_tail (data : matrix) :
  Forall (fun ch => 0 < length ch)%nat data ->
  exists row, mapM head data = Some row /\
    length row = length data /\
    forall j ch, data !! j = Some ch -> row !! j = ch !! 0%nat.
Proof.
  induction data as [|ch data IH]; intros H.
  - exists []. repeat split; auto. intros j ch Hj. by rewrite lookup_nil in Hj.
  - apply Forall_cons in H as [Hch H]. destruct (IH H) as (row & Hrow & Hl & Hin).
    destruct ch as [|v ch]; [simpl in Hch; lia|].
    exists (v :: row). cbn. rewrite Hrow. cbn. repeat split; [lia|].
    intros [|j] ch' Hj; simpl in *; [by injection Hj as <-|by apply Hin].
Qed.

Lemma zip_rows_spec n (data : matrix) :
  Forall (fun ch => n <= length ch)%nat data ->
  length (zip_rows n data) = n /\
  forall i row, zip_rows n data !! i = Some row ->
    length row = length data /\
    forall j ch, data !! j = Some ch -> row !! j = ch !! i.
Proof.
  revert data. induction n as [|n IH]; intros data H; simpl.
  - split; [done|]. intros i row Hi. by rewrite lookup_nil in Hi.
  - destruct (mapM_head_tail data) as (row0 & -> & Hl0 & Hin0).
    { eapply Forall_impl; [exact H|]. simpl. lia. }
    destruct (IH (tail <$> data)) as [Hlen Hrows].
    { apply Forall_fmap. eapply Forall_impl; [exact H|].
      intros [|v ch]; simpl; lia. }
    split; [simpl; lia|].
    intros [|i] row Hi; simpl in Hi.
    + injection Hi as <-. split; [done|]. exact Hin0.
    + destruct (Hrows i row Hi) as [Hl Hin]. rewrite length_fmap in Hl.
      split; [done|]. intros j ch Hj. rewrite (Hin j (tail ch)).
      * by destruct ch.
      * by rewrite list_lookup_fmap, Hj.
Qed.

(** C5: for a row count [n >= 0] and an export buffer whose channels all
    hold [L] values, the export answers with the header row, one name per
    channel, followed by exactly [min n L] data rows, row [i] holding entry
    [i] of every channel; asking for more than [L] rows is not an error; and
    a request without [num_rows] is served as one for 5000 rows. *)
Theorem export_data_rows (s : state) (n : Z) (L : nat) :
  0 <= n ->
  collected_data s <> [] ->
  Forall (fun ch => length ch = L) (collected_data s) ->
  exists rows,
    export_data (NumRowsText (Some n)) s
      = (s, CsvAttachment
              (((fun i => Text ("Channel" +:+ pretty (S i)))
                  <$> seq 0 (length (collected_data s)))
               :: rows)) /\
    length rows = Nat.min (Z.to_nat n) L /\
    (forall i row, rows !! i = Some row ->
       length row = length (collected_data s) /\
       forall j ch v, collected_data s !! j = Some ch -> ch !! i = Some v ->
         row !! j = Some (Number v)) /\
    export_data NumRowsAbsent s = export_data (NumRowsText (Some 5000)) s.
Proof.
  intros Hn Hne Hall. unfold export_data. cbn [requested_rows].
  destruct (collected_data s) as [|ch0 chs] eqn:Hcd; [done|]. clear Hne.
  set (k := if n >? Z.of_nat (length ch0) then Z.of_nat (length ch0) else n).
  assert (length ch0 = L) as Hch0 by (by apply Forall_cons in Hall as [? _]).
  assert (0 <= k /\ Z.to_nat k = Nat.min (Z.to_nat n) L) as [Hk Hmin].
  { unfold k. destruct (Z.gtb_spec n (Z.of_nat (length ch0))); lia. }
  set (sliced := slice_to k <$> (ch0 :: chs)).
  assert (Forall (fun ch => Z.to_nat k <= length ch)%nat sliced) as Hsl.
  { apply Forall_fmap. eapply Forall_impl; [exact Hall|]. simpl.
    intros ch Hch. unfold slice_to.
    destruct (Z.leb_spec 0 k); [|lia]. rewrite length_take. lia. }
  exists ((fun row : list float => Number <$> row) <$> zip_star sliced).
  assert (zip_star sliced = zip_rows (Z.to_nat k) sliced) as Hzip.
  { unfold sliced. cbn. f_equal. unfold slice_to.
    destruct (Z.leb_spec 0 k); [|lia]. rewrite length_take. lia. }
  destruct (zip_rows_spec (Z.to_nat k) sliced Hsl) as [Hlen Hrows].
  split; [|split; [|split; [|done]]].
  - unfold create_csv, header_row. fold sliced. unfold sliced at 1.
    by rewrite length_fmap.
  - by rewrite length_fmap, Hzip, Hlen.
  - intros i row. rewrite Hzip, list_lookup_fmap.
    destruct (zip_rows (Z.to_nat k) sliced !! i) as [r|] eqn:Hi; [|discriminate].
    intros [= <-]. destruct (Hrows i r Hi) as [Hl Hin].
    unfold sliced in Hl. rewrite length_fmap in Hl.
    split; [by rewrite length_fmap|].
    intros j ch v Hj Hv. rewrite list_lookup_fmap.
    rewrite (Hin j (slice_to k ch)).
    2:{ unfold sliced. by rewrite list_lookup_fmap, Hj. }
    unfold slice_to. destruct (Z.leb_spec 0 k); [|lia].
    assert (i < Z.to_nat k)%nat by (apply lookup_lt_Some in Hi; lia).
    by rewrite lookup_take_lt, Hv by done.
Qed.

Lemma export_data_rows_witness :
  exists rows,
    export_data (NumRowsText (Some 10))
      (set_collected_data [[1; 2; 3]; [4; 5; 6]]%float Bench.at_launch)
    = (set_collected_data [[1; 2; 3]; [4; 5; 6]]%float Bench.at_launch,
       CsvAttachment ([Text "Channel1"; Text "Channel2"] :: rows)) /\
    length rows = 3%nat.
Proof.
  destruct (export_data_rows
              (set_collected_data [[1; 2; 3]; [4; 5; 6]]%float Bench.at_launch)
              10 3) as (rows & H1 & H2 & _).
  - lia.
  - discriminate.
  - repeat constructor.
  - exists rows. split; [exact H1 | exact H2].
Defined.

(** ** The chart's sliding window *)

Lemma length_shift {T : Type} (l : list T) : length (shift l) = pred (length l).
Proof. by destruct l. Qed.

Lemma push_samples_bound Date_now raw index reads ds n :
  Forall (fun d => length (data d) <= n)%nat ds ->
  Forall (fun d => length (data d) <= S n)%nat
    (push_samples Date_now raw index reads ds).1.
Proof.
  revert index reads. induction ds as [|d ds IH]; intros index reads H; simpl.
  - constructor.
  - apply Forall_cons in H as [Hd H].
    destruct (raw ≫= (fun r => r !! index)).
    + specialize (IH (S index) (S reads) H).
      destruct (push_samples Date_now raw (S index) (S reads) ds). simpl in *.
      constructor; [|done]. simpl. rewrite length_app. simpl. lia.
    + specialize (IH (S index) reads H).
      destruct (push_samples Date_now raw (S index) reads ds). simpl in *.
      constructor; [lia|done].
Qed.

Lemma update_data_bounded Date_now raw pg :
  window_bounded pg -> window_bounded (update_data Date_now raw pg).
Proof.
  intros [Hl Hd]. unfold update_data, window_bounded.
  set (c1 := if (100 <? length (labels (eegChart pg)))%nat
             then mkChart (shift (labels (eegChart pg)))
                    (shift_data <$> datasets (eegChart pg))
             else eegChart pg).
  assert ((length (labels c1) <= 100)%nat /\
          Forall (fun d => length (data d) <= length (labels c1))%nat
            (datasets c1)) as [Hl1 Hd1].
  { unfold c1. destruct (Nat.ltb_spec 100 (length (labels (eegChart pg)))).
    - simpl. rewrite length_shift. split; [lia|].
      apply Forall_fmap. eapply Forall_impl; [exact Hd|]. simpl.
      intros d Hle. rewrite !length_shift. lia.
    - split; [lia|done]. }
  pose proof (push_samples_bound Date_now raw 0 (S (clock_reads pg))
                (datasets c1) _ Hd1) as Hpush.
  destruct (push_samples Date_now raw 0 (S (clock_reads pg)) (datasets c1)).
  simpl in *. rewrite length_app. simpl. split; [lia|].
  eapply Forall_impl; [exact Hpush|]. simpl. lia.
Qed.

(** Every series of a chart made by [createChart] holds at most 101 points,
    whatever it receives. *)
Lemma series_at_most_101 Date_now ref_enabled biasout_enabled enabledChannels
    events reads :
  let pg := receive Date_now events
              (mkPage (createChart ref_enabled biasout_enabled enabledChannels)
                 reads) in
  Forall (fun d => length (data d) <= 101)%nat (datasets (eegChart pg)).
Proof.
  assert (forall pg, window_bounded pg ->
            window_bounded (receive Date_now events pg)) as Hrec.
  { unfold receive. induction events as [|raw events IH]; intros pg H; simpl.
    - done.
    - apply IH. by apply update_data_bounded. }
  intros pg. destruct (Hrec (mkPage (createChart ref_enabled biasout_enabled
                                       enabledChannels) reads)) as [Hl Hd].
  - split; simpl; [lia|].
    destruct ref_enabled, biasout_enabled; simpl;
      repeat (constructor; [simpl; lia|]);
      apply Forall_fmap, Forall_forall; intros; simpl; lia.
  - eapply Forall_impl; [exact Hd|]. intros d Hle. cbv beta in Hle. lia.
Qed.

(** C9, the code where it leaves the claim: on a chart with the single
    series Ch1, the 101st sample is pushed onto 100 buffered points without
    any eviction, so the series holds 101 points; from then on each event
    drops the oldest point first and the series stays at 101. *)
Theorem series_holds_101_points :
  let after n := receive Bench.clock (Bench.samples n) Bench.fresh_page in
  (fun d => (label d, length (data d))) <$> datasets (eegChart (after 101%nat))
    = [("Ch1", 101%nat)] /\
  (fun d => y <$> head (data d)) <$> datasets (eegChart (after 101%nat))
    = [Some 0%float] /\
  (fun d => (label d, length (data d))) <$> datasets (eegChart (after 102%nat))
    = [("Ch1", 101%nat)] /\
  (fun d => y <$> head (data d)) <$> datasets (eegChart (after 102%nat))
    = [Some 1%float].
Proof. vm_compute. repeat split. Qed.

(** * Further properties of the server *)

(** ** Clean-up, start and stop *)

(** With the three names bound and hardware whose close calls return,
    [cleanup_spi_gpio] leaves the three handles at [None] and logs no error
    (the trace is as it was), and a second clean-up finds nothing left to
    do, whatever the hardware answers then. *)
Theorem cleanup_closes_all_handles (hw : hardware) (s : state) :
  spi s <> Unbound -> line s <> Unbound -> chip s <> Unbound ->
  spi_close hw = Ok () -> line_release hw = Ok () -> chip_close hw = Ok () ->
  cleanup_spi_gpio hw s
  = set_handles (Bound false) (Bound false) (Bound false) s /\
  trace (cleanup_spi_gpio hw s) = trace s /\
  forall hw', cleanup_spi_gpio hw' (cleanup_spi_gpio hw s)
              = cleanup_spi_gpio hw s.
Proof.
  intros Hbs Hbl Hbc Hs Hl Hc.
  assert (cleanup_spi_gpio hw s
          = set_handles (Bound false) (Bound false) (Bound false) s) as Heq.
  { unfold cleanup_spi_gpio, close_handle. rewrite Hs, Hl, Hc.
    destruct s as [r ec bp bc lo hi cv cd [|[]] [|[]] [|[]] tr];
      cbn [spi line chip] in *; try done; reflexivity. }
  split; [exact Heq|]. split; [by rewrite Heq|].
  intros hw'. rewrite Heq. reflexivity.
Qed.

Lemma cleanup_closes_all_handles_witness :
  cleanup_spi_gpio Bench.free_hardware
    (set_handles (Bound true) (Bound false) (Bound true) Bench.at_launch)
  = set_handles (Bound false) (Bound false) (Bound false) Bench.at_launch.
Proof.
  apply (cleanup_closes_all_handles Bench.free_hardware
           (set_handles (Bound true) (Bound false) (Bound true)
              Bench.at_launch));
    (discriminate || reflexivity).
Defined.

(** The clean-up stops at the first step that raises, be it a close call
    ([spi.close()], [line.release()] or [chip.close()]) or the read of a
    name that is not bound ([NameError]): the handles before it are at
    [None], that handle and the ones after it stay as they were, and the
    exception is logged.  Whatever the hardware does, a clean-up opens no
    handle and binds no name, adds at most one error to the log and touches
    no other global. *)
Theorem cleanup_stops_at_first_exception (hw : hardware) (s : state) :
  (forall e, spi s = Bound true -> spi_close hw = Raise e ->
     cleanup_spi_gpio hw s = record (LogError (Some e)) s) /\
  (forall e, handle_released (spi s) (spi_close hw) ->
     line s = Bound true -> line_release hw = Raise e ->
     cleanup_spi_gpio hw s
     = record (LogError (Some e))
         (set_handles (Bound false) (Bound true) (chip s) s)) /\
  (forall e, handle_released (spi s) (spi_close hw) ->
     handle_released (line s) (line_release hw) ->
     chip s = Bound true -> chip_close hw = Raise e ->
     cleanup_spi_gpio hw s
     = record (LogError (Some e))
         (set_handles (Bound false) (Bound false) (Bound true) s)) /\
  (spi s = Unbound ->
     cleanup_spi_gpio hw s = record (LogError (Some NameError)) s) /\
  (handle_released (spi s) (spi_close hw) -> line s = Unbound ->
     cleanup_spi_gpio hw s
     = record (LogError (Some NameError))
         (set_handles (Bound false) Unbound (chip s) s)) /\
  (handle_released (spi s) (spi_close hw) ->
     handle_released (line s) (line_release hw) -> chip s = Unbound ->
     cleanup_spi_gpio hw s
     = record (LogError (Some NameError))
         (set_handles (Bound false) (Bound false) Unbound s)) /\
  (forall name : state -> handle, name ∈ [spi; line; chip] ->
     name (cleanup_spi_gpio hw s) = name s \/
     (name s = Bound true /\ name (cleanup_spi_gpio hw s) = Bound false)) /\
  (trace (cleanup_spi_gpio hw s) = trace s \/
   exists e, trace (cleanup_spi_gpio hw s) = trace s ++ [LogError (Some e)]) /\
  set_handles Unbound Unbound Unbound (globals (cleanup_spi_gpio hw s))
  = set_handles Unbound Unbound Unbound (globals s).
Proof.
  destruct s as [r ec bp bc lo hi cv cd sp li ch tr].
  destruct hw as [sc lr cc busy].
  unfold handle_released, cleanup_spi_gpio, close_handle.
  cbn [spi line chip spi_close line_release chip_close set_handles record
       trace globals].
  repeat split.
  - by intros e -> ->.
  - intros e [->|[-> ->]] -> ->; reflexivity.
  - intros e [->|[-> ->]] [->|[-> ->]] -> ->; reflexivity.
  - by intros ->.
  - intros [->|[-> ->]] ->; reflexivity.
  - intros [->|[-> ->]] [->|[-> ->]] ->; reflexivity.
  - intros name Hname. rewrite !elem_of_cons, elem_of_nil in Hname.
    destruct Hname as [->|[->|[->|[]]]];
      destruct sp as [|[]], li as [|[]], ch as [|[]],
               sc as [[]|e1], lr as [[]|e2], cc as [[]|e3];
      cbn; auto.
  - destruct sp as [|[]], li as [|[]], ch as [|[]],
             sc as [[]|e1], lr as [[]|e2], cc as [[]|e3];
      cbn; eauto.
  - destruct sp as [|[]], li as [|[]], ch as [|[]],
             sc as [[]|e1], lr as [[]|e2], cc as [[]|e3];
      reflexivity.
Qed.

Lemma cleanup_stops_at_first_exception_witness :
  cleanup_spi_gpio (mkHardware (Ok ()) (Ok ()) (Raise OtherException) false)
    (set_handles (Bound true) (Bound true) (Bound true) Bench.at_launch)
  = record (LogError (Some OtherException))
      (set_handles (Bound false) (Bound false) (Bound true) Bench.at_launch).
Proof.
  apply (cleanup_stops_at_first_exception
           (mkHardware (Ok ()) (Ok ()) (Raise OtherException) false)
           (set_handles (Bound true) (Bound true) (Bound true)
              Bench.at_launch));
    first [ reflexivity | right; split; reflexivity ].
Defined.

Lemma cleanup_spi_gpio_buffer hw s :
  collected_data (cleanup_spi_gpio hw s) = collected_data s /\
  calibration_values (cleanup_spi_gpio hw s) = calibration_values s.
Proof.
  unfold cleanup_spi_gpio, close_handle.
  repeat case_match; simplify_eq; split; reflexivity.
Qed.

Lemma cleanup_spi_gpio_updates hw s :
  List.filter is_update_data (trace (cleanup_spi_gpio hw s))
  = List.filter is_update_data (trace s).
Proof.
  unfold cleanup_spi_gpio, close_handle.
  repeat case_match; simplify_eq; cbn [trace record set_handles];
    rewrite ?List.filter_app, ?app_nil_r; simpl; by rewrite ?app_nil_r.
Qed.

Lemma acquisition_loop_flag_down
    {filters : DataFilter} {numpy : NumPy} {board : Board} script s :
  running s = false -> acquisition_loop script s = Stopped s.
Proof. intros H. destruct script; cbn [acquisition_loop]; by rewrite H. Qed.

(** A stop request always answers 200, brings the flag down, tells the page
    once that the analysis stopped, and leaves the export buffer and the
    calibration vector alone, whether the stream was running or not.  From
    the state it leaves, the acquisition loop makes no further pass: it
    ends at its next test of the flag, whatever the board still has to
    offer, and publishes nothing more. *)
Theorem stop_analysis_ends_loop
    {filters : DataFilter} {numpy : NumPy} {board : Board}
    (hw : hardware) (s : state) (script : list loop_event) :
  let s' := (stop_analysis hw s).1 in
  status_code (stop_analysis hw s).2 = 200 /\
  running s' = false /\
  last (trace s') = Some EmitAnalysisStopped /\
  collected_data s' = collected_data s /\
  calibration_values s' = calibration_values s /\
  threads_started s' = threads_started s /\
  acquisition_loop script s' = Stopped s'.
Proof.
  intros s'. unfold s', stop_analysis. cbn [fst snd].
  assert (running (record EmitAnalysisStopped
            (cleanup_spi_gpio hw (record (Sleep 1) (set_running false s))))
          = false) as Hdown.
  { cbn [running record]. by rewrite cleanup_spi_gpio_running. }
  repeat split.
  - exact Hdown.
  - cbn [trace record]. apply last_snoc.
  - cbn [collected_data record].
    by rewrite (proj1 (cleanup_spi_gpio_buffer _ _)).
  - cbn [calibration_values record].
    by rewrite (proj2 (cleanup_spi_gpio_buffer _ _)).
  - rewrite threads_started_record, cleanup_spi_gpio_threads,
      threads_started_record. simpl. unfold threads_started. simpl. lia.
  - by apply acquisition_loop_flag_down.
Qed.

(** A start request does not reset the export buffer (nor the calibration
    vector): an export asked right after it gets the file it would have got
    before it. *)
Theorem start_analysis_keeps_buffer (hw : hardware) (s : state)
    (arg : num_rows_arg) :
  collected_data (start_analysis hw s).1 = collected_data s /\
  calibration_values (start_analysis hw s).1 = calibration_values s /\
  (export_data arg (start_analysis hw s).1).2 = (export_data arg s).2.
Proof.
  assert (collected_data (start_analysis hw s).1 = collected_data s /\
          calibration_values (start_analysis hw s).1 = calibration_values s)
    as [Hbuf Hcal].
  { unfold start_analysis. destruct (check_gpio_conflicts hw); cbn [fst];
      cbn [collected_data calibration_values record];
      by rewrite (proj1 (cleanup_spi_gpio_buffer _ _)),
                 (proj2 (cleanup_spi_gpio_buffer _ _)). }
  repeat split; try done.
  unfold export_data. rewrite Hbuf.
  destruct (requested_rows arg); [|done]. by destruct (collected_data s).
Qed.

(** ** What the acquisition thread writes *)

Lemma only_buffer_written_refl s : only_buffer_written s s.
Proof. repeat split. exists []. by rewrite app_nil_r. Qed.

Lemma only_buffer_written_trans s1 s2 s3 :
  only_buffer_written s1 s2 -> only_buffer_written s2 s3 ->
  only_buffer_written s1 s3.
Proof.
  unfold only_buffer_written.
  intros (?&?&?&?&?&?&?&?&?&?&t1&Ht1) (?&?&?&?&?&?&?&?&?&?&t2&Ht2).
  repeat split; try congruence.
  exists (t1 ++ t2). by rewrite Ht2, Ht1, app_assoc.
Qed.

Lemma only_buffer_written_record e s : only_buffer_written s (record e s).
Proof. repeat split. by exists [e]. Qed.

Lemma only_buffer_written_collected d s :
  only_buffer_written s (set_collected_data d s).
Proof. repeat split. exists []. by rewrite app_nil_r. Qed.

Lemma only_buffer_written_globals s s' :
  globals s' = globals s -> (exists t, trace s' = trace s ++ t) ->
  only_buffer_written s s'.
Proof.
  intros Hg Ht. unfold only_buffer_written.
  pose proof (f_equal running Hg). pose proof (f_equal enabled_channels Hg).
  pose proof (f_equal bandpass_enabled Hg).
  pose proof (f_equal baseline_correction_enabled Hg).
  pose proof (f_equal lowcut Hg). pose proof (f_equal highcut Hg).
  pose proof (f_equal calibration_values Hg).
  pose proof (f_equal spi Hg). pose proof (f_equal line Hg).
  pose proof (f_equal chip Hg). simpl in *. repeat split; done.
Qed.

Section ThreadFacts.
Context {filters : DataFilter} {numpy : NumPy} {board : Board}.

Lemma process_window_only_trace dt0 s :
  globals (process_window dt0 s).1 = globals s /\
  exists t, trace (process_window dt0 s).1 = trace s ++ t.
Proof.
  unfold process_window.
  destruct (bandpass_enabled s).
  - destruct (filter_channels eeg_channels s dt0) as [s1 dt1] eqn:Hf.
    apply filter_channels_facts in Hf as (Hg & _ & Ht). by split.
  - split; [done|]. exists []. by rewrite app_nil_r.
Qed.

Lemma loop_iteration_only_buffer p s :
  only_buffer_written s (outcome_state (loop_iteration p s)).
Proof.
  unfold loop_iteration. destruct p as [data|e]; [|apply only_buffer_written_refl].
  destruct (select_rows data eeg_channels) as [dt0|e];
    [|apply only_buffer_written_refl].
  destruct (size dt0 =? 0)%nat; [apply only_buffer_written_record|].
  destruct (process_window_only_trace dt0 s) as [Hg Ht].
  destruct (process_window dt0 s) as [s1 r]. cbn [fst] in *.
  pose proof (only_buffer_written_globals _ _ Hg Ht) as H1.
  destruct r as [dt|e]; [|exact H1].
  destruct (extend_rows 0 dt _) as [acc [e|]]; cbn [outcome_state].
  - eapply only_buffer_written_trans; [exact H1|].
    apply only_buffer_written_collected.
  - destruct (first_samples dt) as [raw|e]; cbn [outcome_state].
    + eapply only_buffer_written_trans; [exact H1|].
      eapply only_buffer_written_trans; [apply only_buffer_written_collected|].
      eapply only_buffer_written_trans; apply only_buffer_written_record.
    + eapply only_buffer_written_trans; [exact H1|].
      apply only_buffer_written_collected.
Qed.

Lemma acquisition_loop_only_buffer script s :
  forallb is_poll script = true ->
  only_buffer_written s (final_state (acquisition_loop script s)).
Proof.
  revert s. induction script as [|ev script IH]; intros s Hpolls; simpl.
  - destruct (running s); apply only_buffer_written_refl.
  - destruct (running s); [|apply only_buffer_written_refl].
    destruct ev as [p|]; [|discriminate]. simpl in Hpolls.
    pose proof (loop_iteration_only_buffer p s) as H1.
    destruct (loop_iteration p s) as [s1|e s1]; cbn [outcome_state] in H1.
    + eapply only_buffer_written_trans; [exact H1|]. by apply IH.
    + exact H1.
Qed.

End ThreadFacts.

(** The acquisition thread, left to itself (no stop request arriving while
    it runs), writes no global but the export buffer: the running flag, the
    settings, the calibration vector and the handles are after it what they
    were before it, however the thread ends, and its trace continues the
    old one. *)
Theorem acquisition_thread_writes_only_buffer
    {filters : DataFilter} {numpy : NumPy} {board : Board}
    (setup : result unit) (script : list loop_event)
    (teardown : result unit) (s : state) :
  forallb is_poll script = true ->
  only_buffer_written s
    (read_eeg_data_brainflow setup script teardown s).1.
Proof.
  intros Hpolls. unfold read_eeg_data_brainflow.
  destruct setup as [[]|e]; [|apply only_buffer_written_record].
  pose proof (acquisition_loop_only_buffer script s Hpolls) as H.
  destruct (acquisition_loop script s) as [s'|e s'|s']; cbn [final_state fst] in *.
  - destruct teardown; [exact H|].
    eapply only_buffer_written_trans; [exact H|apply only_buffer_written_record].
  - eapply only_buffer_written_trans; [exact H|apply only_buffer_written_record].
  - exact H.
Qed.

Lemma acquisition_thread_writes_only_buffer_witness :
  only_buffer_written Bench.streaming
    (read_eeg_data_brainflow (filters := Bench.passthrough_filters)
       (numpy := Bench.small_numpy) (board := Bench.two_channel_board)
       (Ok ()) [Poll (Ok [[0; 1]; [5; 7]; [6; 8]]%float);
                Poll (Raise BrainFlowError)] (Ok ()) Bench.streaming).1.
Proof.
  apply (acquisition_thread_writes_only_buffer
           (filters := Bench.passthrough_filters) (numpy := Bench.small_numpy)
           (board := Bench.two_channel_board)).
  reflexivity.
Defined.

(** ** Events per poll *)

Lemma updates_published_record e s :
  updates_published (record e s) =
  (updates_published s + if is_update_data e then 1 else 0)%nat.
Proof.
  unfold updates_published. cbn [trace record].
  rewrite List.filter_app, length_app. simpl.
  by destruct (is_update_data e).
Qed.

Section EventFacts.
Context {filters : DataFilter} {numpy : NumPy} {board : Board}.

Lemma apply_chain_updates ops channel s dt :
  updates_published (apply_chain ops channel s dt).1 = updates_published s.
Proof.
  revert s dt. induction ops as [|op ops IH]; intros s dt; simpl; [done|].
  destruct (dt !! channel) as [row|].
  2:{ cbn [fst]. rewrite updates_published_record. simpl. lia. }
  destruct (run_filter op row) as [row'|e].
  - rewrite IH, updates_published_record. simpl. lia.
  - cbn [fst]. rewrite !updates_published_record. simpl. lia.
Qed.

Lemma filter_channels_updates channels s dt :
  updates_published (filter_channels channels s dt).1 = updates_published s.
Proof.
  revert s dt.
  induction channels as [|c channels IH]; intros s dt; cbn [filter_channels];
    [done|].
  pose proof (apply_chain_updates filter_chain c s dt) as H.
  destruct (apply_chain filter_chain c s dt) as [s1 dt1]. cbn [fst] in H.
  by rewrite IH.
Qed.

Lemma process_window_updates dt0 s :
  updates_published (process_window dt0 s).1 = updates_published s.
Proof.
  unfold process_window. destruct (bandpass_enabled s); [|done].
  pose proof (filter_channels_updates eeg_channels s dt0) as H.
  by destruct (filter_channels eeg_channels s dt0).
Qed.

Lemma loop_iteration_updates p s :
  (updates_published (outcome_state (loop_iteration p s))
   <= S (updates_published s))%nat.
Proof.
  unfold loop_iteration. destruct p as [data|e]; [|simpl; lia].
  destruct (select_rows data eeg_channels) as [dt0|e]; [|simpl; lia].
  destruct (size dt0 =? 0)%nat.
  { cbn [outcome_state]. rewrite updates_published_record. simpl. lia. }
  pose proof (process_window_updates dt0 s) as H.
  destruct (process_window dt0 s) as [s1 [dt|e]]; cbn [fst] in H;
    [|simpl; lia].
  destruct (extend_rows 0 dt _) as [acc [e|]]; cbn [outcome_state].
  - unfold updates_published in *. simpl. lia.
  - destruct (first_samples dt); cbn [outcome_state];
      rewrite ?updates_published_record; unfold updates_published in *;
      simpl; lia.
Qed.

End EventFacts.

(** The loop publishes at most one [update_data] event per poll of the
    board: exactly one for a window that holds samples when the iteration
    goes through, none for a window without samples, and over a whole run
    never more events than polls. *)
Theorem one_event_per_poll
    {filters : DataFilter} {numpy : NumPy} {board : Board} :
  (forall data s s' dt0,
     loop_iteration (Ok data) s = Next s' ->
     select_rows data eeg_channels = Ok dt0 ->
     updates_published s'
     = (updates_published s + if (size dt0 =? 0)%nat then 0 else 1)%nat) /\
  (forall script s,
     (updates_published (final_state (acquisition_loop script s))
      <= updates_published s + length (List.filter is_poll script))%nat).
Proof.
  split.
  - intros data s s' dt0 Hnext Hsel.
    destruct (loop_iteration_next _ _ _ Hnext)
      as (dt0' & Hsel' & [[Hz ->]|(Hnz & s1 & dt & raw & Hp & _ & ->)]);
      assert (dt0' = dt0) as -> by congruence.
    + apply Nat.eqb_eq in Hz. rewrite Hz, updates_published_record. simpl. lia.
    + apply Nat.eqb_neq in Hnz. rewrite Hnz, !updates_published_record.
      pose proof (process_window_updates dt0 s) as H. rewrite Hp in H.
      cbn [fst] in H. unfold updates_published in *. simpl in *. lia.
  - intros script. induction script as [|ev script IH]; intros s; simpl.
    + destruct (running s); simpl; lia.
    + destruct (running s); [|simpl; lia]. destruct ev as [p|]; simpl.
      * pose proof (loop_iteration_updates p s) as H.
        destruct (loop_iteration p s) as [s1|e s1]; cbn [outcome_state] in H.
        -- specialize (IH s1). lia.
        -- simpl. lia.
      * specialize (IH (set_running false s)).
        unfold updates_published in *. simpl in *. lia.
Qed.

Lemma one_event_per_poll_witness :
  let s' := Bench.iterate Bench.passthrough_filters
              [[0; 1]; [5; 7]; [6; 8]]%float Bench.streaming in
  updates_published s' = 1%nat.
Proof.
  intros s'.
  destruct (one_event_per_poll (filters := Bench.passthrough_filters)
              (numpy := Bench.small_numpy) (board := Bench.two_channel_board))
    as [Hone _].
  apply (Hone [[0; 1]; [5; 7]; [6; 8]]%float Bench.streaming s'
           [[5; 7]; [6; 8]]%float); reflexivity.
Defined.

Lemma first_samples_heads (rows : matrix) raw :
  first_samples rows = Ok raw ->
  Forall2 (fun v row => head row = Some v) raw rows.
Proof.
  revert raw. induction rows as [|r rows IH]; intros raw; simpl.
  - intros [= <-]. constructor.
  - destruct r as [|v0 r]; [discriminate|].
    destruct (first_samples rows) as [xs|]; [|discriminate].
    intros [= <-]. constructor; [done|by apply IH].
Qed.

(** The event an iteration publishes is the first entry of every row of the
    window it has just archived, that is the oldest sample of the window:
    an export taken at that moment starts with exactly these values. *)
Theorem event_is_first_entry_of_each_row
    {filters : DataFilter} {numpy : NumPy} {board : Board}
    (data : matrix) (s s' : state) (dt0 : matrix) :
  loop_iteration (Ok data) s = Next s' ->
  select_rows data eeg_channels = Ok dt0 -> size dt0 <> 0%nat ->
  exists t raw,
    trace s' = t ++ [EmitUpdateData raw; Sleep 1] /\
    Forall2 (fun v row => head row = Some v) raw (collected_data s') /\
    head (zip_star (collected_data s')) = Some raw.
Proof.
  intros Hnext Hsel Hsz.
  destruct (loop_iteration_next _ _ _ Hnext)
    as (dt0' & Hsel' & [[Hz _]|(_ & s1 & dt & raw & Hp & Hraw & ->)]);
    assert (dt0' = dt0) as -> by congruence; [done|].
  exists (trace s1), raw. cbn. split; [by rewrite <- app_assoc|].
  pose proof (first_samples_heads _ _ Hraw) as Hheads. split; [done|].
  assert (dt <> []) as Hne.
  { destruct (process_window_facts _ _ _ _ Hp) as (_ & Hshape & _).
    intros ->. destruct dt0; [done|discriminate Hshape]. }
  destruct dt as [|r dt]; [done|]. cbn [zip_star].
  assert (mapM head (r :: dt) = Some raw) as Hm.
  { apply mapM_Some. by apply Forall2_flip. }
  apply Forall2_cons_inv_r in Hheads as (v & raw' & Hv & _ & ->).
  destruct r as [|v0 r]; [discriminate|]. cbn [length zip_rows].
  by rewrite Hm.
Qed.

Lemma event_is_first_entry_of_each_row_witness :
  let s' := Bench.iterate Bench.passthrough_filters
              [[0; 1]; [5; 7]; [6; 8]]%float Bench.streaming in
  exists t raw,
    trace s' = t ++ [EmitUpdateData raw; Sleep 1] /\
    Forall2 (fun v row => head row = Some v) raw (collected_data s') /\
    head (zip_star (collected_data s')) = Some raw.
Proof.
  intros s'.
  apply (event_is_first_entry_of_each_row
           (filters := Bench.passthrough_filters) (numpy := Bench.small_numpy)
           (board := Bench.two_channel_board)
           [[0; 1]; [5; 7]; [6; 8]]%float Bench.streaming s'
           [[5; 7]; [6; 8]]%float).
  - reflexivity.
  - reflexivity.
  - discriminate.
Defined.

(** ** Baseline correction *)

Lemma baseline_correction_lookup idxs cal dt dt' :
  NoDup idxs ->
  baseline_correction idxs cal dt = Ok dt' ->
  length dt' = length dt /\
  (forall i, i ∈ idxs ->
     exists row c, dt !! i = Some row /\ cal !! i = Some c /\
       dt' !! i = Some ((fun v => PrimFloat.sub v c) <$> row)) /\
  (forall i, i ∉ idxs -> dt' !! i = dt !! i).
Proof.
  revert dt. induction idxs as [|idx idxs IH]; intros dt Hnd; simpl.
  - intros [= <-]. split; [done|]. split; [|done].
    intros i Hi. by apply elem_of_nil in Hi.
  - apply NoDup_cons in Hnd as [Hnotin Hnd].
    destruct (dt !! idx) as [row|] eqn:Hrow; [|discriminate].
    destruct (cal !! idx) as [c|] eqn:Hc; [|discriminate].
    intros H. destruct (IH _ Hnd H) as (Hlen & Hin & Hout).
    rewrite length_insert in Hlen. split; [done|]. split.
    + intros i Hi. apply elem_of_cons in Hi as [->|Hi].
      * exists row, c. repeat split; try done. rewrite (Hout idx Hnotin).
        apply list_lookup_insert_eq. by apply lookup_lt_Some in Hrow.
      * destruct (Hin i Hi) as (row' & c' & Hr' & Hc' & Hd').
        assert (i <> idx) as Hne by (intros ->; done).
        rewrite list_lookup_insert_ne in Hr' by done.
        by exists row', c'.
    + intros i Hi. apply not_elem_of_cons in Hi as [Hne Hi].
      rewrite (Hout i Hi). by apply list_lookup_insert_ne.
Qed.

(** Baseline correction subtracts from every sample of row [i] the
    calibration value of index [i]: with at least as many calibration values
    as the window has rows, the block returns the window with each row
    shifted by its own value, and with fewer it raises [IndexError]. *)
Theorem baseline_correction_subtracts (cal : list float) (dt : matrix) :
  ((length dt <= length cal)%nat ->
   baseline_correction (seq 0 (length dt)) cal dt
   = Ok (zip_with (fun row c => (fun v => PrimFloat.sub v c) <$> row) dt cal)) /\
  ((length cal < length dt)%nat ->
   baseline_correction (seq 0 (length dt)) cal dt = Raise IndexError).
Proof.
  split.
  - intros Hlen.
    destruct (baseline_correction_ok (seq 0 (length dt)) cal dt) as [dt' H].
    { apply Forall_forall. intros i Hi. apply list_elem_of_In, in_seq in Hi. lia. }
    rewrite H. f_equal.
    destruct (baseline_correction_lookup _ _ _ _ (NoDup_seq 0 (length dt)) H)
      as (Hl & Hin & _).
    apply list_eq. intros i. rewrite lookup_zip_with.
    destruct (decide (i < length dt)%nat) as [Hi|Hi].
    + destruct (Hin i) as (row & c & -> & -> & ->); [|done].
      apply list_elem_of_In, in_seq. lia.
    + rewrite (lookup_ge_None_2 dt) by lia.
      apply lookup_ge_None_2. lia.
  - intros Hshort.
    apply (baseline_correction_short _ _ _ (length cal)); [|lia].
    apply list_elem_of_In, in_seq. lia.
Qed.

Lemma baseline_correction_subtracts_witness :
  baseline_correction (seq 0 2) [1; 10]%float [[5; 7]; [16; 18]]%float
  = Ok [[4; 6]; [6; 8]]%float.
Proof.
  apply (baseline_correction_subtracts [1; 10]%float
           [[5; 7]; [16; 18]]%float).
  simpl. lia.
Defined.

(** With baseline correction switched on and fewer calibration values than
    the board has EEG rows, the first window that holds samples ends the
    acquisition thread: the iteration raises [IndexError] before anything is
    archived or published. *)
Theorem baseline_needs_enough_calibration_values
    {filters : DataFilter} {numpy : NumPy} {board : Board}
    (data : matrix) (s : state) (dt0 : matrix) :
  baseline_correction_enabled s = true ->
  (length (calibration_values s) < length eeg_channels)%nat ->
  select_rows data eeg_channels = Ok dt0 -> size dt0 <> 0%nat ->
  exists s1,
    loop_iteration (Ok data) s = Raised IndexError s1 /\
    collected_data s1 = collected_data s /\
    updates_published s1 = updates_published s /\
    forall rest teardown,
      (read_eeg_data_brainflow (Ok ()) (Poll (Ok data) :: rest) teardown
         (set_running true s)).2 = Finished.
Proof.
  intros Hon Hshort Hsel Hsz.
  assert (forall s0, baseline_correction_enabled s0 = true ->
            calibration_values s0 = calibration_values s ->
            exists s1, process_window dt0 s0 = (s1, Raise IndexError) /\
              globals s1 = globals s0 /\
              updates_published s1 = updates_published s0) as Hwin.
  { intros s0 Hon0 Hcal0. unfold process_window.
    pose proof (process_window_updates dt0 s0) as Hup.
    unfold process_window in Hup.
    destruct (if bandpass_enabled s0 then filter_channels eeg_channels s0 dt0
              else (s0, dt0)) as [s1 dt1] eqn:Hf.
    assert (globals s1 = globals s0 /\ shape dt1 = shape dt0) as [Hg Hs].
    { destruct (bandpass_enabled s0).
      - apply filter_channels_facts in Hf. tauto.
      - by injection Hf as <- <-. }
    exists s1. split; [|split; [done|exact Hup]]. f_equal.
    replace (baseline_correction_enabled s1) with true
      by (rewrite <- Hon0; apply (f_equal baseline_correction_enabled (eq_sym Hg))).
    replace (calibration_values s1) with (calibration_values s)
      by (rewrite <- Hcal0; apply (f_equal calibration_values (eq_sym Hg))).
    rewrite (baseline_correction_short _ _ _ (length (calibration_values s)));
      [done| |lia].
    apply list_elem_of_In, in_seq. lia. }
  apply Nat.eqb_neq in Hsz.
  destruct (Hwin s Hon eq_refl) as (s1 & Hp & Hg & Hup).
  exists s1. repeat split.
  - unfold loop_iteration. by rewrite Hsel, Hsz, Hp.
  - apply (f_equal collected_data Hg).
  - exact Hup.
  - intros rest teardown. unfold read_eeg_data_brainflow.
    cbn [acquisition_loop running set_running].
    destruct (Hwin (set_running true s) Hon eq_refl) as (s2 & Hp2 & _ & _).
    unfold loop_iteration. by rewrite Hsel, Hsz, Hp2.
Qed.

Lemma baseline_needs_enough_calibration_values_witness :
  let s := set_calibration_values [PrimFloat.nan]
             (mkState true 1 false true 1 30 [0; 0]%float [[]; []]
                false false false []) in
  exists s1,
    loop_iteration (filters := Bench.passthrough_filters)
      (numpy := Bench.small_numpy) (board := Bench.two_channel_board)
      (Ok [[0; 1]; [5; 7]; [6; 8]]%float) s = Raised IndexError s1 /\
    collected_data s1 = [[]; []] /\
    updates_published s1 = 0%nat /\
    forall rest teardown,
      (read_eeg_data_brainflow (filters := Bench.passthrough_filters)
         (numpy := Bench.small_numpy) (board := Bench.two_channel_board)
         (Ok ()) (Poll (Ok [[0; 1]; [5; 7]; [6; 8]]%float) :: rest) teardown
         (set_running true s)).2 = Finished.
Proof.
  intros s.
  apply (baseline_needs_enough_calibration_values
           (filters := Bench.passthrough_filters) (numpy := Bench.small_numpy)
           (board := Bench.two_channel_board)
           [[0; 1]; [5; 7]; [6; 8]]%float s [[5; 7]; [6; 8]]%float).
  - reflexivity.
  - simpl. lia.
  - reflexivity.
  - discriminate.
Defined.

(** ** What the REF block and the filter block leave alone *)

(** With the filter and baseline blocks switched off, every row but the
    first is archived exactly as the board delivered it, and so is the first
    unless its mean exceeds 1000. *)
Theorem plain_rows_archived_raw
    {filters : DataFilter} {numpy : NumPy} {board : Board}
    (data : matrix) (s s' : state) (dt0 : matrix) :
  loop_iteration (Ok data) s = Next s' ->
  select_rows data eeg_channels = Ok dt0 -> size dt0 <> 0%nat ->
  bandpass_enabled s = false -> baseline_correction_enabled s = false ->
  (forall i, i <> 0%nat -> collected_data s' !! i = dt0 !! i) /\
  (forall ref_values, dt0 !! 0%nat = Some ref_values ->
     PrimFloat.ltb 1000 (np_mean ref_values) = false ->
     collected_data s' = dt0).
Proof.
  intros Hnext Hsel Hsz Hfilter Hbase.
  destruct (loop_iteration_next _ _ _ Hnext)
    as (dt0' & Hsel' & [[Hz _]|(_ & s1 & dt & raw & Hp & _ & ->)]);
    assert (dt0' = dt0) as -> by congruence; [done|].
  unfold process_window in Hp. rewrite Hfilter, Hbase in Hp.
  injection Hp as <- Hp. simpl in Hp. cbn [collected_data record set_collected_data].
  unfold normalize_ref in Hp.
  destruct (dt0 !! 0%nat) as [row|] eqn:Hrow; [|discriminate].
  destruct (PrimFloat.ltb 1000 (np_mean row)) eqn:Hbig;
    injection Hp as <-; split.
  - intros i Hi. by apply list_lookup_insert_ne.
  - intros ref_values [= <-] Hsmall. congruence.
  - done.
  - done.
Qed.

Lemma plain_rows_archived_raw_witness :
  collected_data (Bench.iterate Bench.passthrough_filters
                    [[0; 1]; [5; 7]; [6; 8]]%float Bench.streaming)
  = [[5; 7]; [6; 8]]%float.
Proof.
  refine (proj2 (plain_rows_archived_raw
                   (filters := Bench.passthrough_filters)
                   (numpy := Bench.small_numpy)
                   (board := Bench.two_channel_board)
                   [[0; 1]; [5; 7]; [6; 8]]%float Bench.streaming _
                   [[5; 7]; [6; 8]]%float _ _ _ _ _) [5; 7]%float _ _);
    try reflexivity; discriminate.
Defined.

Section FilterRows.
Context {filters : DataFilter} {board : Board}.

Lemma apply_chain_other_rows ops channel s dt i :
  i <> channel -> (apply_chain ops channel s dt).2 !! i = dt !! i.
Proof.
  intros Hne. revert s dt.
  induction ops as [|op ops IH]; intros s dt; simpl; [done|].
  destruct (dt !! channel) as [row|]; [|done].
  destruct (run_filter op row) as [row'|e]; [|done].
  rewrite IH. by apply list_lookup_insert_ne.
Qed.

Lemma filter_channels_other_rows channels s dt i :
  i ∉ channels -> (filter_channels channels s dt).2 !! i = dt !! i.
Proof.
  revert s dt.
  induction channels as [|c channels IH]; intros s dt Hi;
    cbn [filter_channels]; [done|].
  apply not_elem_of_cons in Hi as [Hne Hi].
  pose proof (apply_chain_other_rows filter_chain c s dt i Hne) as H1.
  destruct (apply_chain filter_chain c s dt) as [s1 dt1]. cbn [snd] in H1.
  by rewrite IH.
Qed.

End FilterRows.

(** The filter block addresses the rows of the window by EEG channel id,
    not by position: a row whose position is not among the ids comes out of
    the block as it went in, whatever the filters do, and an id past the
    last row only leaves a logged [IndexError].  With ids that start at 1,
    the first row of the window is never filtered. *)
Theorem filter_block_skips_rows_without_id
    {filters : DataFilter} {board : Board} (s : state) (dt : matrix) :
  (forall i, i ∉ eeg_channels ->
     (filter_channels eeg_channels s dt).2 !! i = dt !! i) /\
  (forall channel s0 dt0, (length dt0 <= channel)%nat ->
     apply_chain filter_chain channel s0 dt0
     = (record (LogError (Some IndexError)) s0, dt0)).
Proof.
  split.
  - intros i Hi. by apply filter_channels_other_rows.
  - intros channel s0 dt0 Hlen. unfold filter_chain. cbn [apply_chain].
    by rewrite (lookup_ge_None_2 dt0 channel Hlen).
Qed.

Lemma filter_block_skips_rows_without_id_witness :
  (filter_channels (filters := Bench.raising_filters)
     (board := Bench.two_channel_board)
     (eeg_channels (Board := Bench.two_channel_board))
     Bench.filtering [[5; 7]; [6; 8]]%float).2 !! 0%nat
  = Some [5; 7]%float.
Proof.
  apply (filter_block_skips_rows_without_id
           (filters := Bench.raising_filters)
           (board := Bench.two_channel_board)
           Bench.filtering [[5; 7]; [6; 8]]%float).
  intros Hin. apply list_elem_of_In in Hin. simpl in Hin.
  destruct Hin as [H|[H|[]]]; discriminate H.
Defined.

(** ** What a calibration computes *)

Lemma empty_window_row (dt : matrix) i :
  size dt = 0%nat -> default [] (dt !! i) = [].
Proof.
  intros Hz. apply size_zero_shape in Hz.
  destruct (dt !! i) as [row|] eqn:Hi; [|done]. simpl.
  assert (shape dt !! i = Some (length row)) as Hs
    by (unfold shape; by rewrite list_lookup_fmap, Hi).
  rewrite Forall_forall in Hz.
  specialize (Hz (length row) (list_elem_of_lookup_2 _ _ _ Hs)).
  by destruct row.
Qed.

Section CalibrationValues.
Context {numpy : NumPy} {board : Board}.

Lemma calibration_loop_columns polls cd s s' cd' :
  calibration_loop polls cd s = (s', Ok cd') ->
  length cd' = length cd /\
  forall i old, cd !! i = Some old ->
    cd' !! i = Some (old ++ column i (windows polls)).
Proof.
  revert cd s. induction polls as [|p polls IH]; intros cd s;
    cbn [calibration_loop].
  - intros [= _ <-]. split; [done|]. intros i old Hi.
    unfold column. simpl. by rewrite app_nil_r.
  - destruct p as [data|e]; [|discriminate].
    destruct (select_rows data eeg_channels) as [dt|e] eqn:Hsel; [|discriminate].
    assert (forall i, column i (windows (Ok data :: polls))
                      = default [] (dt !! i) ++ column i (windows polls))
      as Hcol.
    { intros i. unfold column, windows. cbn [omap list_omap]. by rewrite Hsel. }
    destruct (size dt =? 0)%nat eqn:Hsz.
    + apply Nat.eqb_eq in Hsz. intros H. destruct (IH _ _ H) as [Hl Hin].
      split; [done|]. intros i old Hi.
      by rewrite Hcol, (empty_window_row dt i Hsz), (Hin i old Hi).
    + destruct (extend_rows 0 dt cd) as [acc [e|]] eqn:Hext; [discriminate|].
      assert (length dt <= length cd)%nat as Hfit.
      { destruct (decide (length dt <= length cd)%nat) as [|Hlong]; [done|].
        destruct (extend_rows_short 0 dt cd) as [acc' Hshort]; [lia|].
        congruence. }
      destruct (extend_rows_append 0 dt cd) as (acc' & Heq & Hl & _ & Hhi & Hin);
        [lia|].
      assert (acc' = acc) as -> by congruence.
      intros H. destruct (IH _ _ H) as [Hl' Hin'].
      split; [congruence|]. intros i old Hi. rewrite Hcol.
      destruct (dt !! i) as [row|] eqn:Hrow; simpl.
      * rewrite app_assoc. apply Hin'. by apply (Hin i row old).
      * apply Hin'. rewrite Hhi; [done|].
        apply lookup_ge_None in Hrow. lia.
Qed.

Lemma calibration_loop_updates polls cd s :
  updates_published (calibration_loop polls cd s).1 = updates_published s.
Proof.
  revert cd s. induction polls as [|p polls IH]; intros cd s; simpl; [done|].
  destruct p as [data|e]; [|done].
  destruct (select_rows data eeg_channels) as [dt|e]; [|done].
  destruct (size dt =? 0)%nat.
  - rewrite IH, updates_published_record. simpl. lia.
  - destruct (extend_rows 0 dt cd) as [acc [e|]]; [done|apply IH].
Qed.

End CalibrationValues.

(** A calibration that goes through stores one value per enabled channel
    (not per EEG row of the board): value [i] is numpy's mean of everything
    row [i] of the polled windows held, in the order polled, and the mean of
    nothing for an enabled channel the board has no row for. *)
Theorem calibration_values_are_row_means {numpy : NumPy} {board : Board}
    (setup : result unit) (polls : list (result matrix))
    (teardown : result unit) (s : state) (values : list float) :
  (calibration_run setup polls s).2 = Ok values ->
  values = (fun i => np_mean (column i (windows polls)))
             <$> seq 0 (Z.to_nat (enabled_channels s)) /\
  calibration_values (calibrate setup polls teardown s) = values /\
  length (calibration_values (calibrate setup polls teardown s))
  = Z.to_nat (enabled_channels s).
Proof.
  intros Hrun.
  assert (values = (fun i => np_mean (column i (windows polls)))
                     <$> seq 0 (Z.to_nat (enabled_channels s))) as Hvalues.
  { unfold calibration_run in Hrun. destruct setup as [[]|e]; [|discriminate].
    destruct (calibration_loop polls _ s) as [s1 [cd'|e]] eqn:Hloop;
      [|discriminate].
    destruct (calibration_loop_columns _ _ _ _ _ Hloop) as [Hl Hin].
    rewrite length_replicate in Hl. simpl in Hrun. injection Hrun as <-.
    apply list_eq. intros i. rewrite !list_lookup_fmap.
    destruct (decide (i < Z.to_nat (enabled_channels s))%nat) as [Hi|Hi].
    - rewrite (Hin i []) by (by apply lookup_replicate_2).
      by rewrite lookup_seq_lt.
    - rewrite (lookup_ge_None_2 cd') by lia.
      by rewrite lookup_seq_ge by lia. }
  pose proof (calibrate_outcome setup polls teardown s) as Hout.
  rewrite Hrun in Hout. split; [done|]. split; [done|].
  by rewrite Hout, Hvalues, length_fmap, length_seq.
Qed.

Lemma calibration_values_are_row_means_witness :
  calibration_values
    (calibrate (numpy := Bench.small_numpy) (board := Bench.two_channel_board)
       (Ok ()) [Ok [[0; 1]; [10; 20]; [30; 50]]%float;
                Ok [[2]; [30]; [70]]%float] (Ok ()) Bench.at_launch)
  = [20; 50]%float.
Proof.
  apply (calibration_values_are_row_means (numpy := Bench.small_numpy)
           (board := Bench.two_channel_board)
           (Ok ()) [Ok [[0; 1]; [10; 20]; [30; 50]]%float;
                    Ok [[2]; [30]; [70]]%float] (Ok ()) Bench.at_launch).
  reflexivity.
Defined.

(** A calibration, however it ends, writes no global but the calibration
    vector: the running flag, the settings, the export buffer and the
    handles stay as they were, and no [update_data] event is published. *)
Theorem calibrate_writes_only_vector {numpy : NumPy} {board : Board}
    (setup : result unit) (polls : list (result matrix))
    (teardown : result unit) (s : state) :
  only_calibration_written s (calibrate setup polls teardown s).
Proof.
  unfold calibrate, calibration_run.
  destruct setup as [[]|e].
  2:{ repeat split. rewrite updates_published_record. simpl. lia. }
  pose proof (calibration_loop_globals polls
                (replicate (Z.to_nat (enabled_channels s)) []) s) as Hg.
  pose proof (calibration_loop_updates polls
                (replicate (Z.to_nat (enabled_channels s)) []) s) as Hu.
  destruct (calibration_loop polls _ s) as [s1 r]. cbn [fst] in *.
  pose proof (f_equal running Hg). pose proof (f_equal enabled_channels Hg).
  pose proof (f_equal bandpass_enabled Hg).
  pose proof (f_equal baseline_correction_enabled Hg).
  pose proof (f_equal lowcut Hg). pose proof (f_equal highcut Hg).
  pose proof (f_equal collected_data Hg).
  pose proof (f_equal spi Hg). pose proof (f_equal line Hg).
  pose proof (f_equal chip Hg). simpl in *.
  destruct r as [cd|e]; simpl; [destruct teardown|];
    repeat split; try done;
    rewrite ?updates_published_record; unfold updates_published in *;
    simpl in *; lia.
Qed.

(** * Further properties of the export *)

Lemma zip_rows_shortest n (data : matrix) :
  data <> [] ->
  (length (zip_rows n data) <= n)%nat /\
  Forall (fun ch => length (zip_rows n data) <= length ch)%nat data /\
  (length (zip_rows n data) = n \/
   Exists (fun ch => length ch = length (zip_rows n data)) data).
Proof.
  revert data. induction n as [|n IH]; intros data Hne; simpl.
  - split; [done|]. split; [|by left].
    apply Forall_forall. intros; lia.
  - destruct (mapM head data) as [row|] eqn:Hheads; simpl.
    + assert (Forall (fun ch => is_Some (head ch)) data) as Hall.
      { apply (mapM_is_Some_1 head). by rewrite Hheads. }
      destruct (IH (tail <$> data)) as (Hle & Hfor & Hex).
      { by destruct data. }
      split; [lia|]. split.
      * rewrite Forall_fmap in Hfor. apply Forall_forall. intros ch Hch.
        rewrite Forall_forall in Hfor. rewrite Forall_forall in Hall.
        specialize (Hfor ch Hch). specialize (Hall ch Hch). simpl in Hfor.
        destruct ch; [by destruct Hall|simpl in *; lia].
      * destruct Hex as [Heq|Hex]; [left; lia|right].
        rewrite Exists_fmap in Hex. apply Exists_exists in Hex as (ch & Hch & Hl).
        apply Exists_exists. exists ch. split; [done|].
        rewrite Forall_forall in Hall. specialize (Hall ch Hch).
        destruct ch; [by destruct Hall|simpl in *; lia].
    + split; [lia|]. split; [apply Forall_forall; intros; lia|]. right.
      destruct (decide (Forall (fun ch => is_Some (head ch)) data)) as [Hall|Hnot].
      * apply (mapM_is_Some_2 head) in Hall. rewrite Hheads in Hall.
        by destruct Hall.
      * apply not_Forall_Exists in Hnot; [|apply _].
        apply Exists_exists in Hnot as (ch & Hch & Hnone).
        apply Exists_exists. exists ch. split; [done|].
        destruct ch; [done|]. exfalso. apply Hnone. by eexists.
Qed.

Lemma zip_rows_width n (data : matrix) row :
  row ∈ zip_rows n data -> length row = length data.
Proof.
  revert data. induction n as [|n IH]; intros data; simpl.
  - intros H. by apply elem_of_nil in H.
  - destruct (mapM head data) as [r|] eqn:Hheads; simpl.
    + intros H. apply elem_of_cons in H as [->|H].
      * symmetry. by apply (length_mapM head).
      * rewrite (IH _ H). apply length_fmap.
    + intros H. by apply elem_of_nil in H.
Qed.

(** The file has as many data rows as the shortest channel of what it is
    made from has values: [zip] stops with the first channel that runs out,
    so no row misses a column and no channel contributes past that row. *)
Theorem csv_rows_end_with_shortest_channel (data : matrix) :
  data <> [] ->
  Forall (fun ch => length (zip_star data) <= length ch)%nat data /\
  Exists (fun ch => length ch = length (zip_star data)) data /\
  length (create_csv data) = S (length (zip_star data)) /\
  Forall (fun row => length row = length data) (create_csv data).
Proof.
  intros Hne. destruct data as [|ch0 chs]; [done|].
  cbn [zip_star].
  destruct (zip_rows_shortest (length ch0) (ch0 :: chs) Hne) as (Hle & Hfor & Hex).
  split; [done|]. split; [|split].
  - destruct Hex as [Heq|Hex]; [|done]. apply Exists_cons_hd. by rewrite Heq.
  - unfold create_csv. cbn [length zip_star]. by rewrite length_fmap.
  - unfold create_csv, header_row. apply Forall_cons. split.
    + by rewrite length_fmap, length_seq.
    + apply Forall_fmap, Forall_forall. intros row Hrow. simpl.
      rewrite length_fmap. cbn [zip_star] in Hrow.
      apply (zip_rows_width _ _ _ Hrow).
Qed.

Lemma csv_rows_end_with_shortest_channel_witness :
  Exists (fun ch => length ch = length (zip_star [[1; 2; 3]; [4]; [5; 6]]%float))
    [[1; 2; 3]; [4]; [5; 6]]%float.
Proof.
  apply (csv_rows_end_with_shortest_channel [[1; 2; 3]; [4]; [5; 6]]%float).
  discriminate.
Defined.

(** Turning a rectangular buffer into rows and the rows back into columns
    gives the buffer again: with at least one channel and at least one value
    per channel, [zip( * )] applied twice is the identity. *)
Theorem zip_star_twice (data : matrix) (L : nat) :
  data <> [] -> (0 < L)%nat ->
  Forall (fun ch => length ch = L) data ->
  zip_star (zip_star data) = data.
Proof.
  intros Hne HL Hall. destruct data as [|ch0 chs]; [done|].
  assert (length ch0 = L) as Hch0 by (by apply Forall_cons in Hall as [? _]).
  cbn [zip_star]. rewrite Hch0.
  destruct (zip_rows_spec L (ch0 :: chs)) as [Hlen Hrows].
  { eapply Forall_impl; [exact Hall|]. simpl. lia. }
  set (rows := zip_rows L (ch0 :: chs)) in *.
  assert (Forall (fun row => length row = length (ch0 :: chs)) rows) as Hwidth.
  { apply Forall_forall. intros row Hrow.
    apply list_elem_of_lookup in Hrow as [i Hi]. by apply (Hrows i row). }
  destruct rows as [|row0 rows'] eqn:Hrs; [simpl in Hlen; lia|].
  cbn [zip_star].
  assert (length row0 = length (ch0 :: chs)) as Hrow0
    by (by apply Forall_cons in Hwidth as [? _]).
  rewrite Hrow0.
  destruct (zip_rows_spec (length (ch0 :: chs)) (row0 :: rows')) as [Hlen2 Hcols].
  { eapply Forall_impl; [exact Hwidth|]. simpl. lia. }
  apply list_eq. intros j.
  destruct ((ch0 :: chs) !! j) as [ch|] eqn:Hj.
  - destruct (lookup_lt_is_Some_2 (zip_rows (length (ch0 :: chs)) (row0 :: rows')) j)
      as [col Hcol].
    { rewrite Hlen2. by apply lookup_lt_Some in Hj. }
    rewrite Hcol. f_equal. destruct (Hcols j col Hcol) as [Hcl Hcin].
    apply list_eq. intros i.
    destruct ((row0 :: rows') !! i) as [row|] eqn:Hi.
    + rewrite (Hcin i row Hi).
      destruct (Hrows i row Hi) as [_ Hrin]. apply (Hrin j ch Hj).
    + apply lookup_ge_None in Hi. rewrite (lookup_ge_None_2 col) by lia.
      symmetry. apply lookup_ge_None_2.
      rewrite Forall_forall in Hall.
      rewrite (Hall ch (list_elem_of_lookup_2 _ _ _ Hj)). lia.
  - apply lookup_ge_None_2. rewrite Hlen2. by apply lookup_ge_None in Hj.
Qed.

Lemma zip_star_twice_witness :
  zip_star (zip_star [[1; 2; 3]; [4; 5; 6]]%float)
  = [[1; 2; 3]; [4; 5; 6]]%float.
Proof.
  apply (zip_star_twice [[1; 2; 3]; [4; 5; 6]]%float 3).
  - discriminate.
  - lia.
  - repeat constructor.
Defined.

(** A negative row count is no error and is not clamped: [ch[:n]] then
    drops the last [-n] values of every channel, so a buffer whose channels
    hold [L] values is exported with [L - (-n)] data rows (none when [-n]
    reaches [L]), the oldest ones. *)
Theorem export_data_negative_rows (s : state) (n : Z) (L : nat) :
  n < 0 ->
  collected_data s <> [] ->
  Forall (fun ch => length ch = L) (collected_data s) ->
  exists rows,
    export_data (NumRowsText (Some n)) s
      = (s, CsvAttachment (header_row (collected_data s) :: rows)) /\
    length rows = (L - Z.to_nat (- n))%nat /\
    forall i row, rows !! i = Some row ->
      forall j ch v, collected_data s !! j = Some ch -> ch !! i = Some v ->
        row !! j = Some (Number v).
Proof.
  intros Hn Hne Hall. unfold export_data. cbn [requested_rows].
  destruct (collected_data s) as [|ch0 chs] eqn:Hcd; [done|]. clear Hne.
  assert (length ch0 = L) as Hch0 by (by apply Forall_cons in Hall as [? _]).
  destruct (Z.gtb_spec n (Z.of_nat (length ch0))) as [Hgt|_]; [lia|].
  set (k := (L - Z.to_nat (- n))%nat).
  assert (forall ch : list float, length ch = L -> slice_to n ch = take k ch)
    as Hslice.
  { intros ch Hch. unfold slice_to. destruct (Z.leb_spec 0 n); [lia|].
    by rewrite Hch. }
  set (sliced := slice_to n <$> (ch0 :: chs)).
  assert (Forall (fun ch => k <= length ch)%nat sliced) as Hsl.
  { apply Forall_fmap. eapply Forall_impl; [exact Hall|]. simpl.
    intros ch Hch. rewrite (Hslice ch Hch), length_take. lia. }
  assert (zip_star sliced = zip_rows k sliced) as Hzip.
  { unfold sliced. cbn. f_equal. rewrite (Hslice ch0 Hch0), length_take. lia. }
  destruct (zip_rows_spec k sliced Hsl) as [Hlen Hrows].
  exists ((fun row : list float => Number <$> row) <$> zip_star sliced).
  split; [|split].
  - unfold create_csv, header_row. fold sliced. unfold sliced at 1.
    by rewrite length_fmap.
  - by rewrite length_fmap, Hzip, Hlen.
  - intros i row. rewrite Hzip, list_lookup_fmap.
    destruct (zip_rows k sliced !! i) as [r|] eqn:Hi; [|discriminate].
    intros [= <-] j ch v Hj Hv. destruct (Hrows i r Hi) as [_ Hin].
    rewrite list_lookup_fmap, (Hin j (slice_to n ch)).
    2:{ unfold sliced. by rewrite list_lookup_fmap, Hj. }
    rewrite Forall_forall in Hall.
    rewrite (Hslice ch (Hall ch (list_elem_of_lookup_2 _ _ _ Hj))).
    assert (i < k)%nat by (apply lookup_lt_Some in Hi; lia).
    by rewrite lookup_take_lt, Hv by done.
Qed.

Lemma export_data_negative_rows_witness :
  exists rows,
    export_data (NumRowsText (Some (-1)))
      (set_collected_data [[1; 2; 3]; [4; 5; 6]]%float Bench.at_launch)
    = (set_collected_data [[1; 2; 3]; [4; 5; 6]]%float Bench.at_launch,
       CsvAttachment ([Text "Channel1"; Text "Channel2"] :: rows)) /\
    length rows = 2%nat.
Proof.
  destruct (export_data_negative_rows
              (set_collected_data [[1; 2; 3]; [4; 5; 6]]%float Bench.at_launch)
              (-1) 3) as (rows & H1 & H2 & _).
  - lia.
  - discriminate.
  - repeat constructor.
  - exists rows. split; [exact H1 | exact H2].
Defined.

(** An export only reads: it answers 500 exactly when [num_rows] is not an
    integer or the buffer has no channel at all, and then only a log line
    is added; otherwise the state is left exactly as it was.  Either way the
    globals are untouched, so asking again gets the same answer. *)
Theorem export_data_only_reads (arg : num_rows_arg) (s : state) :
  ((export_data arg s).2 = InternalServerError ->
   exists e, (export_data arg s).1 = record (LogError (Some e)) s) /\
  globals (export_data arg s).1 = globals s /\
  ((export_data arg s).2 = InternalServerError <->
   arg = NumRowsText None \/ collected_data s = []) /\
  ((export_data arg s).2 <> InternalServerError -> (export_data arg s).1 = s) /\
  (export_data arg (export_data arg s).1).2 = (export_data arg s).2.
Proof.
  split.
  { unfold export_data.
    destruct arg as [|[n|]]; cbn [requested_rows];
      destruct (collected_data s); cbn [fst snd];
      first [ discriminate | intros _; by eexists ]. }
  unfold export_data.
  destruct arg as [|[n|]]; cbn [requested_rows];
    destruct (collected_data s) as [|ch0 chs] eqn:Hcd; cbn [fst snd];
    cbn [collected_data record]; rewrite ?Hcd; cbn [fst snd];
    (split; [done|]); (split; [|by split]); split;
    try (by intros H; discriminate H); try (by intros _; right);
    try (by intros _; left); try (by intros [H|H]; discriminate H);
    try reflexivity.
Qed.

Lemma export_data_only_reads_witness :
  (export_data (NumRowsText None) Bench.at_launch).2 = InternalServerError.
Proof.
  destruct (export_data_only_reads (NumRowsText None) Bench.at_launch)
    as (_ & _ & [_ Hfails] & _).
  apply Hfails. by left.
Defined.

(** * Further properties of the browser's chart *)

Lemma channel_label_inj a b :
  "Ch" +:+ pretty (S a) = "Ch" +:+ pretty (S b) -> a = b.
Proof.
  intros H. apply (inj (String.app "Ch")) in H.
  apply (inj pretty) in H. lia.
Qed.

Lemma createChart_fresh (ref_on biasout_on : bool) (n : nat) :
  Forall (fun d => data d = [] /\ hidden d = false)
    (datasets (createChart ref_on biasout_on n)) /\
  labels (createChart ref_on biasout_on n) = [].
Proof.
  split; [|done]. unfold createChart. cbn [datasets].
  rewrite !Forall_app. repeat split.
  - destruct ref_on; repeat constructor.
  - destruct biasout_on; repeat constructor.
  - apply Forall_fmap, Forall_forall. by intros.
Qed.

(** [createChart] makes one series per enabled channel plus one each for
    REF and BIASOUT when ticked, in the order REF, BIASOUT, Ch1, Ch2, ...;
    every series starts empty and visible, and no two series share a label,
    so a label names at most one series. *)
Theorem createChart_series (ref_on biasout_on : bool) (n : nat) :
  let c := createChart ref_on biasout_on n in
  length (datasets c)
  = (n + (if ref_on then 1 else 0) + (if biasout_on then 1 else 0))%nat /\
  label <$> datasets c
  = (if ref_on then ["REF"] else []) ++
    (if biasout_on then ["BIASOUT"] else []) ++
    ((fun i => "Ch" +:+ pretty (S i)) <$> seq 0 n) /\
  NoDup (label <$> datasets c) /\
  Forall (fun d => data d = [] /\ hidden d = false) (datasets c) /\
  labels c = [].
Proof.
  intros c. unfold c, createChart. cbn [datasets labels].
  assert (NoDup ((fun i => "Ch" +:+ pretty (S i)) <$> seq 0 n)) as Hch.
  { apply NoDup_fmap_2_strong; [|apply NoDup_seq].
    intros a b _ _. apply channel_label_inj. }
  assert (forall l : string, l ∈ (fun i => "Ch" +:+ pretty (S i)) <$> seq 0 n ->
            l <> "REF" /\ l <> "BIASOUT") as Hother.
  { intros l Hl. apply list_elem_of_fmap in Hl as (i & -> & _).
    split; intros H; discriminate H. }
  split; [|split; [|split; [|split; [|done]]]].
  - rewrite !length_app, length_fmap, length_seq.
    destruct ref_on, biasout_on; simpl; lia.
  - rewrite !fmap_app, <- list_fmap_compose.
    by destruct ref_on, biasout_on.
  - rewrite !fmap_app, <- list_fmap_compose.
    change (label ∘ _) with (fun i => "Ch" +:+ pretty (S i)).
    destruct ref_on, biasout_on; simpl;
      repeat (apply NoDup_cons; split); try done;
      rewrite ?not_elem_of_cons; repeat split; try done;
      intros Hin; destruct (Hother _ Hin); done.
  - apply createChart_fresh.
Qed.

Lemma toggle_first_facts lbl ds :
  length (toggle_first lbl ds) = length ds /\
  label <$> toggle_first lbl ds = label <$> ds /\
  data <$> toggle_first lbl ds = data <$> ds.
Proof.
  induction ds as [|d ds (IH1 & IH2 & IH3)]; cbn [toggle_first]; [done|].
  destruct (String.eqb (label d) lbl); rewrite ?fmap_cons; cbn [length];
    [done|].
  by rewrite IH1, IH2, IH3.
Qed.

Lemma toggle_first_twice lbl ds :
  toggle_first lbl (toggle_first lbl ds) = ds.
Proof.
  induction ds as [|d ds IH]; simpl; [done|].
  destruct (String.eqb (label d) lbl) eqn:E; simpl; rewrite E.
  - rewrite negb_involutive. by destruct d.
  - by rewrite IH.
Qed.

Lemma toggle_first_absent lbl ds :
  lbl ∉ label <$> ds -> toggle_first lbl ds = ds.
Proof.
  induction ds as [|d ds IH]; simpl; [done|].
  intros Hin. apply not_elem_of_cons in Hin as [Hne Hin].
  destruct (String.eqb_spec (label d) lbl) as [Heq|_]; [congruence|].
  by rewrite IH.
Qed.

Lemma toggle_first_hidden lbl ds j d :
  NoDup (label <$> ds) -> ds !! j = Some d ->
  hidden <$> toggle_first lbl ds !! j
  = Some (if String.eqb (label d) lbl then negb (hidden d) else hidden d).
Proof.
  revert j. induction ds as [|d0 ds IH]; intros j Hnd Hj; [done|].
  simpl in Hnd. apply NoDup_cons in Hnd as [Hnotin Hnd]. simpl.
  destruct (String.eqb_spec (label d0) lbl) as [Heq|Hne].
  - destruct j as [|j]; simpl in *.
    + injection Hj as <-. by rewrite (proj2 (String.eqb_eq _ _) Heq).
    + rewrite Hj. simpl. destruct (String.eqb_spec (label d) lbl) as [Hd|]; [|done].
      exfalso. apply Hnotin. rewrite Heq, <- Hd.
      apply list_elem_of_fmap. exists d. split; [done|].
      by apply list_elem_of_lookup_2 in Hj.
  - destruct j as [|j]; simpl in *.
    + injection Hj as <-. by rewrite (proj2 (String.eqb_neq _ _) Hne).
    + by apply IH.
Qed.

(** A click on a colour box flips the hidden flag of the series with that
    label and of no other (labels being distinct, as [createChart] makes
    them), and never touches the buffered points, the time axis or the
    order of the series; a label no series carries changes nothing; a
    second click on the same box undoes the first. *)
Theorem click_color_box_toggles (lbl : string) (pg : page) :
  click_color_box lbl (click_color_box lbl pg) = pg /\
  data <$> datasets (eegChart (click_color_box lbl pg))
    = data <$> datasets (eegChart pg) /\
  label <$> datasets (eegChart (click_color_box lbl pg))
    = label <$> datasets (eegChart pg) /\
  labels (eegChart (click_color_box lbl pg)) = labels (eegChart pg) /\
  (lbl ∉ label <$> datasets (eegChart pg) -> click_color_box lbl pg = pg) /\
  (NoDup (label <$> datasets (eegChart pg)) ->
   forall j d, datasets (eegChart pg) !! j = Some d ->
     hidden <$> datasets (eegChart (click_color_box lbl pg)) !! j
     = Some (if String.eqb (label d) lbl then negb (hidden d) else hidden d)).
Proof.
  unfold click_color_box. cbn [eegChart datasets labels clock_reads].
  destruct (toggle_first_facts lbl (datasets (eegChart pg))) as (_ & Hl & Hd).
  split; [|split; [done|split; [done|split; [done|split]]]].
  - rewrite toggle_first_twice. by destruct pg as [[ls ds] reads].
  - intros Habs. rewrite (toggle_first_absent _ _ Habs).
    by destruct pg as [[ls ds] reads].
  - intros Hnd j d Hj. by apply toggle_first_hidden.
Qed.

Lemma click_color_box_toggles_witness :
  hidden <$> datasets (eegChart (click_color_box "Ch1"
             (mkPage (createChart true false 2) 0))) !! 1%nat
  = Some true.
Proof.
  destruct (click_color_box_toggles "Ch1" (mkPage (createChart true false 2) 0))
    as (_ & _ & _ & _ & _ & Hflip).
  apply (Hflip ltac:(vm_compute; repeat constructor;
                        rewrite ?not_elem_of_cons; repeat split;
                        try discriminate; apply not_elem_of_nil)
           1%nat (mkDataset "Ch1" [] false)).
  reflexivity.
Defined.

(** ** What a series receives *)

Section SeriesFacts.
Variable Date_now : nat -> Z.

Lemma push_samples_lookup raw index reads ds j d :
  ds !! j = Some d ->
  exists d', (push_samples Date_now raw index reads ds).1 !! j = Some d' /\
    label d' = label d /\ hidden d' = hidden d /\
    y <$> data d'
    = (y <$> data d) ++ option_list (raw ≫= (fun r => r !! (index + j)%nat)).
Proof.
  revert index reads j. induction ds as [|d0 ds IH]; intros index reads j Hj;
    [done|]. cbn [push_samples].
  destruct j as [|j]; simpl in Hj.
  - injection Hj as ->. rewrite Nat.add_0_r.
    destruct (raw ≫= (fun r => r !! index)) as [v|].
    + destruct (push_samples Date_now raw (S index) (S reads) ds).
      eexists. split; [done|]. repeat split. simpl. by rewrite fmap_app.
    + destruct (push_samples Date_now raw (S index) reads ds).
      eexists. split; [done|]. repeat split. simpl. by rewrite app_nil_r.
  - replace (index + S j)%nat with (S index + j)%nat by lia.
    destruct (raw ≫= (fun r => r !! index)) as [v|].
    + destruct (IH (S index) (S reads) j Hj) as (d' & Hd' & H).
      destruct (push_samples Date_now raw (S index) (S reads) ds).
      by exists d'.
    + destruct (IH (S index) reads j Hj) as (d' & Hd' & H).
      destruct (push_samples Date_now raw (S index) reads ds).
      by exists d'.
Qed.

Lemma push_samples_length raw index reads ds :
  length (push_samples Date_now raw index reads ds).1 = length ds.
Proof.
  revert index reads. induction ds as [|d0 ds IH]; intros index reads;
    [done|]. cbn [push_samples].
  destruct (raw ≫= (fun r => r !! index)) as [v|].
  - specialize (IH (S index) (S reads)).
    destruct (push_samples Date_now raw (S index) (S reads) ds).
    simpl in *. lia.
  - specialize (IH (S index) reads).
    destruct (push_samples Date_now raw (S index) reads ds).
    simpl in *. lia.
Qed.

(** One event, seen from series [j]. *)
Lemma update_data_lookup raw pg j d :
  datasets (eegChart pg) !! j = Some d ->
  exists d', datasets (eegChart (update_data Date_now raw pg)) !! j = Some d' /\
    label d' = label d /\ hidden d' = hidden d /\
    y <$> data d'
    = (if (100 <? length (labels (eegChart pg)))%nat
       then tail (y <$> data d) else y <$> data d)
      ++ option_list (raw ≫= (fun r => r !! j)) /\
    length (labels (eegChart (update_data Date_now raw pg)))
    = S (if (100 <? length (labels (eegChart pg)))%nat
         then pred (length (labels (eegChart pg)))
         else length (labels (eegChart pg))).
Proof.
  intros Hj. unfold update_data.
  destruct (100 <? length (labels (eegChart pg)))%nat.
  - cbn [labels datasets].
    assert ((shift_data <$> datasets (eegChart pg)) !! j = Some (shift_data d))
      as Hs by (by rewrite list_lookup_fmap, Hj).
    destruct (push_samples_lookup raw 0 (S (clock_reads pg)) _ j _ Hs)
      as (d' & Hd' & Hl & Hh & Hy).
    destruct (push_samples Date_now raw 0 (S (clock_reads pg))
                (shift_data <$> datasets (eegChart pg))).
    exists d'. cbn [eegChart datasets labels fst] in *.
    repeat split; try done.
    + rewrite Hy. simpl. unfold shift. by rewrite fmap_tail.
    + rewrite length_app, length_shift. simpl. lia.
  - destruct (push_samples_lookup raw 0 (S (clock_reads pg)) _ j _ Hj)
      as (d' & Hd' & Hl & Hh & Hy).
    destruct (push_samples Date_now raw 0 (S (clock_reads pg))
                (datasets (eegChart pg))).
    exists d'. cbn [eegChart datasets labels fst] in *.
    repeat split; try done. rewrite length_app. simpl. lia.
Qed.

Lemma update_data_keeps_identity raw pg :
  length (datasets (eegChart (update_data Date_now raw pg)))
  = length (datasets (eegChart pg)).
Proof.
  unfold update_data.
  destruct (100 <? length (labels (eegChart pg)))%nat.
  - pose proof (push_samples_length raw 0 (S (clock_reads pg))
                  (shift_data <$> datasets (eegChart pg))) as H.
    rewrite length_fmap in H.
    by destruct (push_samples Date_now raw 0 _ _).
  - pose proof (push_samples_length raw 0 (S (clock_reads pg))
                  (datasets (eegChart pg))) as H.
    by destruct (push_samples Date_now raw 0 _ _).
Qed.

Lemma receive_snoc events raw pg :
  receive Date_now (events ++ [raw]) pg
  = update_data Date_now raw (receive Date_now events pg).
Proof. unfold receive. by rewrite foldl_app. Qed.

End SeriesFacts.

Lemma tail_drop {T : Type} k (l : list T) : tail (drop k l) = drop (S k) l.
Proof.
  revert l. induction k as [|k IH]; intros [|a l]; simpl; done.
Qed.

(** No event changes which series the chart has: their number, order,
    labels and hidden flags stay as they are, whatever the events carry. *)
Theorem update_data_keeps_series (Date_now : nat -> Z)
    (events : list (option (list float))) (pg : page) :
  label <$> datasets (eegChart (receive Date_now events pg))
    = label <$> datasets (eegChart pg) /\
  hidden <$> datasets (eegChart (receive Date_now events pg))
    = hidden <$> datasets (eegChart pg).
Proof.
  induction events as [|raw events IH] using rev_ind; [done|].
  rewrite receive_snoc. destruct IH as [IHl IHh]. rewrite <- IHl, <- IHh.
  set (pg' := receive Date_now events pg).
  pose proof (update_data_keeps_identity Date_now raw pg') as Hlen.
  split; apply list_eq; intros j; rewrite !list_lookup_fmap;
    (destruct (datasets (eegChart pg') !! j) as [d|] eqn:Hj;
     [destruct (update_data_lookup Date_now raw pg' j d Hj)
        as (d' & -> & Hl & Hh & _); simpl; congruence
     |rewrite (lookup_ge_None_2 (datasets (eegChart (update_data Date_now raw pg'))));
      [done|rewrite Hlen; by apply lookup_ge_None]]).
Qed.

(** The sliding window, for every run of events: a series of a fresh chart
    that gets a sample from each event holds the last 101 of them, oldest
    first (all of them while there are no more than 101), and the time axis
    has as many labels. *)
Theorem series_holds_last_101_samples (Date_now : nat -> Z)
    (ref_on biasout_on : bool) (n reads j : nat)
    (events : list (option (list float))) (d : dataset) :
  let pg := receive Date_now events
              (mkPage (createChart ref_on biasout_on n) reads) in
  Forall (fun ev : option (list float) =>
            is_Some (ev ≫= (fun raw => raw !! j))) events ->
  datasets (eegChart pg) !! j = Some d ->
  y <$> data d = last_n 101 (series_samples j events) /\
  length (data d) = Nat.min (length events) 101 /\
  length (labels (eegChart pg)) = Nat.min (length events) 101.
Proof.
  intros pg. unfold pg. clear pg. revert d.
  induction events as [|raw events IH] using rev_ind; intros d Hall Hj.
  - assert (data d = []) as Hd.
    { destruct (createChart_fresh ref_on biasout_on n) as [Hfresh _].
      rewrite Forall_forall in Hfresh.
      apply (Hfresh d), (list_elem_of_lookup_2 _ j). exact Hj. }
    by rewrite Hd.
  - apply Forall_app in Hall as [Hall Hraw]. apply Forall_cons in Hraw as [Hraw _].
    rewrite receive_snoc in Hj |- *.
    set (pg' := receive Date_now events
                  (mkPage (createChart ref_on biasout_on n) reads)) in *.
    destruct (lookup_lt_is_Some_2 (datasets (eegChart pg')) j) as [d0 Hd0].
    { apply lookup_lt_Some in Hj.
      pose proof (update_data_keeps_identity Date_now raw pg') as Hlen.
      lia. }
    destruct (IH d0 Hall Hd0) as (Hy & Hlen & Hlab).
    destruct (update_data_lookup Date_now raw pg' j d0 Hd0)
      as (d' & Hd' & _ & _ & Hy' & Hlab').
    assert (d' = d) as -> by congruence.
    assert (length (series_samples j events) = length events) as Hss.
    { unfold series_samples. clear -Hall.
      induction Hall as [|ev evs [v Hv] _ IHs]; [done|].
      cbn [omap list_omap]. rewrite Hv. simpl. by rewrite IHs. }
    destruct Hraw as [v Hv].
    assert (series_samples j (events ++ [raw]) = series_samples j events ++ [v])
      as Hsnoc.
    { unfold series_samples. rewrite omap_app. cbn [omap list_omap].
      by rewrite Hv. }
    rewrite Hv in Hy'. simpl in Hy'. rewrite Hlab in Hy', Hlab'.
    assert (y <$> data d = last_n 101 (series_samples j (events ++ [raw])))
      as Hgoal.
    { rewrite Hy', Hsnoc, Hy. unfold last_n. rewrite length_app, Hss. simpl.
      destruct (Nat.ltb_spec 100 (Nat.min (length events) 101)) as [Hfull|Hroom].
      - replace (tail (drop (length events - 101) (series_samples j events)))
          with (drop (length events + 1 - 101) (series_samples j events)).
        + rewrite drop_app_le; [done|]. rewrite Hss. lia.
        + replace (length events + 1 - 101)%nat
            with (S (length events - 101))%nat by lia.
          symmetry. apply tail_drop.
      - replace (length events - 101)%nat with 0%nat by lia.
        replace (length events + 1 - 101)%nat with 0%nat by lia. done. }
    split; [exact Hgoal|]. split.
    + rewrite <- (length_fmap y), Hgoal. unfold last_n.
      rewrite length_drop, Hsnoc, !length_app, Hss. simpl. lia.
    + rewrite Hlab', length_app. simpl.
      destruct (Nat.ltb_spec 100 (Nat.min (length events) 101)); lia.
Qed.

Lemma series_holds_last_101_samples_witness :
  match datasets (eegChart (receive Bench.clock (Bench.samples 3)
                              Bench.fresh_page)) !! 0%nat with
  | Some d => y <$> data d = [0; 1; 2]%float
  | None => False
  end.
Proof.
  destruct (datasets (eegChart (receive Bench.clock (Bench.samples 3)
                                  Bench.fresh_page)) !! 0%nat)
    as [d|] eqn:Hd; [|discriminate Hd].
  apply (series_holds_last_101_samples Bench.clock false false 1 0 0
           (Bench.samples 3) d).
  - repeat constructor; by eexists.
  - exact Hd.
Defined.

(** A series for which no event carries a sample never shows a point: the
    handler pushes onto series [j] only when [data.raw] has an entry [j].
    So with more series on the chart than floats in the events, the last
    series stay empty. *)
Theorem series_without_samples_stays_empty (Date_now : nat -> Z)
    (ref_on biasout_on : bool) (n reads j : nat)
    (events : list (option (list float))) (d : dataset) :
  Forall (fun ev : option (list float) =>
            ev ≫= (fun raw => raw !! j) = None) events ->
  datasets (eegChart (receive Date_now events
                        (mkPage (createChart ref_on biasout_on n) reads)))
    !! j = Some d ->
  data d = [].
Proof.
  revert d. induction events as [|raw events IH] using rev_ind; intros d Hall Hj.
  - destruct (createChart_fresh ref_on biasout_on n) as [Hfresh _].
    rewrite Forall_forall in Hfresh.
    apply (Hfresh d), (list_elem_of_lookup_2 _ j). exact Hj.
  - apply Forall_app in Hall as [Hall Hraw]. apply Forall_cons in Hraw as [Hraw _].
    rewrite receive_snoc in Hj.
    set (pg' := receive Date_now events
                  (mkPage (createChart ref_on biasout_on n) reads)) in *.
    destruct (lookup_lt_is_Some_2 (datasets (eegChart pg')) j) as [d0 Hd0].
    { apply lookup_lt_Some in Hj.
      pose proof (update_data_keeps_identity Date_now raw pg') as Hlen. lia. }
    destruct (update_data_lookup Date_now raw pg' j d0 Hd0)
      as (d' & Hd' & _ & _ & Hy' & _).
    assert (d' = d) as -> by congruence.
    rewrite (IH d0 Hall Hd0), Hraw in Hy'.
    apply (fmap_nil_inv y). rewrite Hy'.
    by destruct (100 <? length (labels (eegChart pg')))%nat.
Qed.

Lemma series_without_samples_stays_empty_witness :
  match datasets (eegChart (receive Bench.clock (Bench.samples 3)
                              (mkPage (createChart true false 1) 0)))
          !! 1%nat with
  | Some d => data d = []
  | None => False
  end.
Proof.
  destruct (datasets (eegChart (receive Bench.clock (Bench.samples 3)
                                  (mkPage (createChart true false 1) 0)))
              !! 1%nat) as [d|] eqn:Hd; [|discriminate Hd].
  apply (series_without_samples_stays_empty Bench.clock true false 1 0 1
           (Bench.samples 3) d).
  - repeat constructor.
  - exact Hd.
Defined.

(** * Further properties: settings updates *)

Section SettingsFacts.
Context {builtins : Builtins}.

Lemma read_global_ok {T : Type} names name (x v : T) :
  read_global names name x = Ok v -> v = x /\ name ∉ names.
Proof.
  unfold read_global. case_bool_decide; [done|]. by intros [= <-].
Qed.

Lemma read_global_bound {T : Type} names name (x : T) :
  name ∉ names -> read_global names name x = Ok x.
Proof. intros H. unfold read_global. by rewrite bool_decide_eq_false_2. Qed.

Lemma read_global_unbound {T : Type} names name (x : T) :
  name ∈ names -> read_global names name x = Raise NameError.
Proof. intros H. unfold read_global. by rewrite bool_decide_eq_true_2. Qed.

Lemma converted_unbound {T : Type} (conv : json -> result T) data key
    names name x :
  name ∈ names ->
  converted conv data key (read_global names name x) = Raise NameError.
Proof. intros H. by rewrite (read_global_unbound _ _ _ H). Qed.

Lemma converted_again {T : Type} (conv : json -> result T) data key
    names name x v :
  converted conv data key (read_global names name x) = Ok v ->
  converted conv data key (read_global names name v) = Ok v.
Proof.
  unfold converted, read_global. case_bool_decide; [done|].
  by destruct (data !! key).
Qed.

Lemma converted_again_bound {T : Type} (conv : json -> result T) data key
    (x v : T) :
  converted conv data key (Ok x) = Ok v ->
  converted conv data key (Ok v) = Ok v.
Proof. unfold converted. by destruct (data !! key). Qed.

Lemma converted_absent {T : Type} (conv : json -> result T) data key
    names name x v :
  data !! key = None ->
  converted conv data key (read_global names name x) = Ok v -> v = x.
Proof.
  unfold converted, read_global. intros ->. case_bool_decide; [done|].
  by intros [= <-].
Qed.

Lemma converted_absent_bound {T : Type} (conv : json -> result T) data key
    (x v : T) :
  data !! key = None -> converted conv data key (Ok x) = Ok v -> v = x.
Proof. unfold converted. intros ->. by intros [= <-]. Qed.

Lemma converted_ok_bound {T : Type} (conv : json -> result T) data key
    names name x v :
  converted conv data key (read_global names name x) = Ok v ->
  name ∉ names.
Proof. unfold converted, read_global. by case_bool_decide. Qed.

Lemma flag_again data key old :
  flag data key (flag data key old) = flag data key old.
Proof. unfold flag. by destruct (data !! key). Qed.

Lemma flag_absent data key old : data !! key = None -> flag data key old = old.
Proof. unfold flag. by intros ->. Qed.

End SettingsFacts.

Ltac settings_simpl :=
  cbn [fst snd core order ref_enabled biasout_enabled smoothing_enabled
       unbound set_core set_order set_ref_enabled set_biasout_enabled
       set_smoothing_enabled set_lowcut set_highcut
       set_baseline_correction_enabled set_enabled_channels
       set_bandpass_enabled running enabled_channels bandpass_enabled
       baseline_correction_enabled lowcut highcut calibration_values
       collected_data spi line chip trace] in *.

Ltac settings_cases :=
  unfold update_settings;
  repeat match goal with
         | |- context [match converted ?c ?d ?k ?o with _ => _ end] =>
             let H := fresh "Hconv" in
             destruct (converted c d k o) eqn:H
         | |- context [match read_global ?u ?n ?v with _ => _ end] =>
             let H := fresh "Hread" in
             destruct (read_global u n v) eqn:H
         end;
  settings_simpl.

(** A settings update changes only what the body names: a global whose key
    the body lacks keeps its value, also when the update breaks off (on an
    unbound global, or on a value that [float] or [int] rejects); with the
    four settings bound, an empty body changes nothing and is answered
    200. *)
Theorem update_settings_keeps_absent {builtins : Builtins}
    (data : gmap string json) (sv : server) :
  let sv' := (update_settings data sv).1 in
  (data !! "lowcut" = None -> lowcut (core sv') = lowcut (core sv)) /\
  (data !! "highcut" = None -> highcut (core sv') = highcut (core sv)) /\
  (data !! "order" = None -> order sv' = order sv) /\
  (data !! "baseline_correction_enabled" = None ->
     baseline_correction_enabled (core sv')
     = baseline_correction_enabled (core sv)) /\
  (data !! "enabled_channels" = None ->
     enabled_channels (core sv') = enabled_channels (core sv)) /\
  (data !! "ref_enabled" = None -> ref_enabled sv' = ref_enabled sv) /\
  (data !! "biasout_enabled" = None ->
     biasout_enabled sv' = biasout_enabled sv) /\
  (data !! "bandpass_filter_enabled" = None ->
     bandpass_enabled (core sv') = bandpass_enabled (core sv)) /\
  (data !! "smoothing_enabled" = None ->
     smoothing_enabled sv' = smoothing_enabled sv) /\
  (unbound sv = [] ->
     update_settings ∅ sv = (sv, Ok (mkResponse "Settings updated" 200))).
Proof.
  intros sv'. unfold sv'. clear sv'.
  split; [|split; [|split; [|split; [|split; [|split; [|split; [|split;
    [|split]]]]]]]].
  10:{ intros Hu. unfold update_settings, converted, flag, read_global.
       settings_simpl. rewrite Hu, !lookup_empty.
       by destruct sv as [[] ? ? ? ? ?]. }
  all: intros Habs; settings_cases;
    repeat match goal with
           | H : converted _ _ _ (read_global _ _ _) = Ok _ |- _ =>
               first [ apply (converted_absent _ _ _ _ _ _ _ Habs) in H; subst
                     | clear H ]
           | H : converted _ _ _ (Ok _) = Ok _ |- _ =>
               first [ apply (converted_absent_bound _ _ _ _ _ Habs) in H;
                       subst
                     | clear H ]
           | H : read_global _ _ _ = Ok _ |- _ =>
               apply read_global_ok in H as [-> _]
           end;
    rewrite ?(flag_absent _ _ _ Habs); reflexivity.
Qed.

Lemma update_settings_keeps_absent_witness :
  lowcut (core (update_settings (builtins := BenchSettings.small_builtins)
                  (page_settings_body true "abc" true true true)
                  BenchSettings.server_at_launch).1)
  = 1%float.
Proof.
  apply (update_settings_keeps_absent
           (builtins := BenchSettings.small_builtins)
           (page_settings_body true "abc" true true true)
           BenchSettings.server_at_launch).
  reflexivity.
Defined.

(** A settings update writes settings only: the running flag, the
    calibration vector, the export buffer and the handles are left alone,
    nothing is sent or logged and no name gets bound that was not, whatever
    the body holds and whether or not the update goes through. *)
Theorem update_settings_keeps_stream {builtins : Builtins}
    (data : gmap string json) (sv : server) :
  let s := core sv in
  let s' := core (update_settings data sv).1 in
  running s' = running s /\ calibration_values s' = calibration_values s /\
  collected_data s' = collected_data s /\ trace s' = trace s /\
  spi s' = spi s /\ line s' = line s /\ chip s' = chip s /\
  unbound (update_settings data sv).1 = unbound sv.
Proof. cbv zeta. settings_cases; repeat split. Qed.

(** Sending the same body twice is the same as sending it once: every
    global the update writes gets a value that depends on the body alone,
    so the second update finds nothing to change, and it ends as the first
    did (also when the first broke off). *)
Theorem update_settings_twice {builtins : Builtins}
    (data : gmap string json) (sv : server) :
  update_settings data (update_settings data sv).1 = update_settings data sv.
Proof.
  unfold update_settings at 2 3.
  destruct (converted py_float data "lowcut" _) as [lo|e] eqn:H1; cbn [fst].
  2:{ unfold update_settings. by rewrite H1. }
  destruct (converted py_float data "highcut" _) as [hi|e] eqn:H2; cbn [fst].
  2:{ unfold update_settings. settings_simpl.
    rewrite (converted_again _ _ _ _ _ _ _ H1). settings_simpl.
    by rewrite H2. }
  destruct (converted py_int data "order" _) as [ord|e] eqn:H3; cbn [fst].
  2:{ unfold update_settings. settings_simpl.
    rewrite (converted_again _ _ _ _ _ _ _ H1). settings_simpl.
    rewrite (converted_again _ _ _ _ _ _ _ H2). settings_simpl.
    by rewrite H3. }
  destruct (converted py_int data "enabled_channels" _) as [n|e] eqn:H4;
    cbn [fst].
  2:{ unfold update_settings. settings_simpl.
    rewrite (converted_again _ _ _ _ _ _ _ H1). settings_simpl.
    rewrite (converted_again _ _ _ _ _ _ _ H2). settings_simpl.
    rewrite (converted_again _ _ _ _ _ _ _ H3). settings_simpl.
    by rewrite flag_again, H4. }
  destruct (read_global _ "smoothing_enabled" _) as [old|e] eqn:H5;
    cbn [fst].
  2:{ unfold update_settings. settings_simpl.
    rewrite (converted_again _ _ _ _ _ _ _ H1). settings_simpl.
    rewrite (converted_again _ _ _ _ _ _ _ H2). settings_simpl.
    rewrite (converted_again _ _ _ _ _ _ _ H3). settings_simpl.
    rewrite (converted_again_bound _ _ _ _ _ H4). settings_simpl.
    by rewrite !flag_again, H5. }
  unfold update_settings. settings_simpl.
  rewrite (converted_again _ _ _ _ _ _ _ H1). settings_simpl.
  rewrite (converted_again _ _ _ _ _ _ _ H2). settings_simpl.
  rewrite (converted_again _ _ _ _ _ _ _ H3). settings_simpl.
  rewrite (converted_again_bound _ _ _ _ _ H4). settings_simpl.
  apply read_global_ok in H5 as [-> H5].
  rewrite (read_global_bound _ _ _ H5).
  by rewrite !flag_again.
Qed.

(** An update breaks off at the first value [float] or [int] rejects, with
    the assignments before it already made: when [lowcut], [highcut] and
    [order] are bound and [enabled_channels] cannot be read as an integer,
    the cut-offs, the order and the baseline flag have taken the values of
    the body, while the number of channels and the flags assigned after it
    (REF, BIASOUT, band-pass, smoothing) stay as they were, whatever the
    body says about them. *)
Theorem update_settings_breaks_off {builtins : Builtins}
    (data : gmap string json) (sv : server)
    (lo hi : float) (ord : Z) (j : json) (e : exn) :
  converted py_float data "lowcut" (read_global (unbound sv) "lowcut"
                                      (lowcut (core sv))) = Ok lo ->
  converted py_float data "highcut" (read_global (unbound sv) "highcut"
                                       (highcut (core sv))) = Ok hi ->
  converted py_int data "order" (read_global (unbound sv) "order"
                                   (order sv)) = Ok ord ->
  data !! "enabled_channels" = Some j -> py_int j = Raise e ->
  let sv' := (update_settings data sv).1 in
  (update_settings data sv).2 = Raise e /\
  lowcut (core sv') = lo /\ highcut (core sv') = hi /\ order sv' = ord /\
  baseline_correction_enabled (core sv')
  = flag data "baseline_correction_enabled"
      (baseline_correction_enabled (core sv)) /\
  enabled_channels (core sv') = enabled_channels (core sv) /\
  ref_enabled sv' = ref_enabled sv /\
  biasout_enabled sv' = biasout_enabled sv /\
  bandpass_enabled (core sv') = bandpass_enabled (core sv) /\
  smoothing_enabled sv' = smoothing_enabled sv.
Proof.
  intros H1 H2 H3 Hj He. cbv zeta.
  assert (update_settings data sv
          = (set_core (set_baseline_correction_enabled
                         (flag data "baseline_correction_enabled"
                            (baseline_correction_enabled (core sv))))
               (set_order ord
                  (set_core (set_highcut hi) (set_core (set_lowcut lo) sv))),
             Raise e)) as ->.
  { unfold update_settings.
    rewrite H1. settings_simpl. rewrite H2.
    settings_simpl. rewrite H3.
    unfold converted. rewrite Hj, He. reflexivity. }
  repeat split.
Qed.

Lemma update_settings_breaks_off_witness :
  let sv' := (update_settings (builtins := BenchSettings.small_builtins)
                (page_settings_body true "" false false true)
                BenchSettings.server_at_launch).1 in
  baseline_correction_enabled (core sv') = true /\
  ref_enabled sv' = true /\ bandpass_enabled (core sv') = false.
Proof.
  destruct (update_settings_breaks_off
              (builtins := BenchSettings.small_builtins)
              (page_settings_body true "" false false true)
              BenchSettings.server_at_launch 1 30 4 (JString "")
              OtherException)
    as (_ & _ & _ & _ & Hb & _ & Hr & _ & Hp & _); try reflexivity.
  cbv zeta. split; [exact Hb|]. split; [exact Hr | exact Hp].
Defined.

(** The update reads each setting before it assigns it, so a setting that
    nothing has bound stops it with [NameError]: with [lowcut] unbound every
    request raises and leaves the server exactly as it was, whatever the
    body holds, and with any of [lowcut], [highcut], [order] and
    [smoothing_enabled] unbound no request is answered 200.  With only
    [smoothing_enabled] unbound the request raises after every other
    setting the body names has been assigned. *)
Theorem update_settings_unbound_global {builtins : Builtins}
    (data : gmap string json) (sv : server) :
  ("lowcut" ∈ unbound sv ->
     update_settings data sv = (sv, Raise NameError)) /\
  (forall name,
     name ∈ ["lowcut"; "highcut"; "order"; "smoothing_enabled"] ->
     name ∈ unbound sv ->
     forall r, (update_settings data sv).2 <> Ok r) /\
  (forall lo hi ord n,
     converted py_float data "lowcut" (read_global (unbound sv) "lowcut"
                                         (lowcut (core sv))) = Ok lo ->
     converted py_float data "highcut" (read_global (unbound sv) "highcut"
                                          (highcut (core sv))) = Ok hi ->
     converted py_int data "order" (read_global (unbound sv) "order"
                                      (order sv)) = Ok ord ->
     converted py_int data "enabled_channels"
       (Ok (enabled_channels (core sv))) = Ok n ->
     "smoothing_enabled" ∈ unbound sv ->
     let sv' := (update_settings data sv).1 in
     (update_settings data sv).2 = Raise NameError /\
     lowcut (core sv') = lo /\ highcut (core sv') = hi /\ order sv' = ord /\
     baseline_correction_enabled (core sv')
     = flag data "baseline_correction_enabled"
         (baseline_correction_enabled (core sv)) /\
     enabled_channels (core sv') = n /\
     ref_enabled sv' = flag data "ref_enabled" (ref_enabled sv) /\
     biasout_enabled sv' = flag data "biasout_enabled" (biasout_enabled sv) /\
     bandpass_enabled (core sv')
     = flag data "bandpass_filter_enabled" (bandpass_enabled (core sv)) /\
     smoothing_enabled sv' = smoothing_enabled sv).
Proof.
  split; [|split].
  - intros Hu. unfold update_settings.
    by rewrite (converted_unbound _ _ _ _ _ _ Hu).
  - intros name Hname Hu r.
    settings_cases; try discriminate.
    repeat match goal with
           | H : converted _ _ _ (read_global _ _ _) = Ok _ |- _ =>
               apply converted_ok_bound in H
           | H : read_global _ _ _ = Ok _ |- _ =>
               apply read_global_ok in H as [_ H]
           end.
    exfalso. rewrite !elem_of_cons, elem_of_nil in Hname.
    destruct Hname as [->| [->| [->| [->| []]]]]; done.
  - intros lo hi ord n H1 H2 H3 H4 Hu. cbv zeta.
    unfold update_settings.
    rewrite H1. settings_simpl. rewrite H2. settings_simpl. rewrite H3.
    settings_simpl. rewrite H4. settings_simpl.
    rewrite (read_global_unbound _ _ _ Hu). by settings_simpl.
Qed.

Lemma update_settings_unbound_global_witness :
  update_settings (builtins := BenchSettings.small_builtins)
    (page_settings_body true "8" true true true)
    BenchSettings.server_as_posted
  = (BenchSettings.server_as_posted, Raise NameError).
Proof.
  apply (update_settings_unbound_global
           (builtins := BenchSettings.small_builtins)
           (page_settings_body true "8" true true true)
           BenchSettings.server_as_posted).
  vm_compute. by left.
Defined.

Lemma page_settings_body_lookup b v r bo bp :
  let data := page_settings_body b v r bo bp in
  data !! "lowcut" = None /\ data !! "highcut" = None /\
  data !! "order" = None /\ data !! "smoothing_enabled" = None /\
  data !! "baseline_correction_enabled" = Some (JBool b) /\
  data !! "enabled_channels" = Some (JString v) /\
  data !! "ref_enabled" = Some (JBool r) /\
  data !! "biasout_enabled" = Some (JBool bo) /\
  data !! "bandpass_filter_enabled" = Some (JBool bp).
Proof. repeat split. Qed.

(** What the page itself can change: its body names the five inputs it
    shows, so an update sent by the page can never change [lowcut],
    [highcut], [order] or the smoothing flag.  With [lowcut], [highcut]
    and [order] bound it sets the baseline flag, and then the number of
    channels and the REF, BIASOUT and band-pass flags when the text of the
    number field reads as an integer (answered 200 when
    [smoothing_enabled] is bound too); when the text does not read as an
    integer, only the baseline flag is updated. *)
Theorem page_update_settings {builtins : Builtins}
    (b r bo bp : bool) (v : string) (sv : server) :
  let data := page_settings_body b v r bo bp in
  let sv' := (update_settings data sv).1 in
  lowcut (core sv') = lowcut (core sv) /\
  highcut (core sv') = highcut (core sv) /\
  order sv' = order sv /\
  smoothing_enabled sv' = smoothing_enabled sv /\
  ("lowcut" ∉ unbound sv -> "highcut" ∉ unbound sv ->
   "order" ∉ unbound sv ->
   baseline_correction_enabled (core sv') = b /\
   (forall n, py_int (JString v) = Ok n ->
      enabled_channels (core sv') = n /\ ref_enabled sv' = r /\
      biasout_enabled sv' = bo /\ bandpass_enabled (core sv') = bp /\
      ("smoothing_enabled" ∉ unbound sv ->
       (update_settings data sv).2
       = Ok (mkResponse "Settings updated" 200))) /\
   (forall e, py_int (JString v) = Raise e ->
      (update_settings data sv).2 = Raise e /\
      enabled_channels (core sv') = enabled_channels (core sv) /\
      ref_enabled sv' = ref_enabled sv /\
      biasout_enabled sv' = biasout_enabled sv /\
      bandpass_enabled (core sv') = bandpass_enabled (core sv))).
Proof.
  cbv zeta.
  destruct (page_settings_body_lookup b v r bo bp)
    as (Hl & Hh & Ho & Hs & Hb & Hn & Hr & Hbo & Hbp).
  cbv zeta in *.
  split; [|split; [|split; [|split]]].
  5:{ intros Hlo Hhi Hord. unfold update_settings, converted, flag.
    settings_simpl.
    rewrite !read_global_bound by done.
    rewrite Hl, Hh, Ho, Hs, Hb, Hn, Hr, Hbo, Hbp. settings_simpl.
    destruct (py_int (JString v)) as [n|e]; settings_simpl.
    - split; [|split].
      + by destruct (read_global _ _ _).
      + intros ? [= <-].
        destruct (read_global _ "smoothing_enabled" _) eqn:Hrd;
          settings_simpl; repeat split; try done.
        * intros Hsm. by rewrite (read_global_bound _ _ _ Hsm) in Hrd.
      + intros ? [=].
    - split; [done|]. split; [intros ? [=]|]. intros ? [= <-]. done. }
  all: settings_cases;
    repeat match goal with
           | H : converted _ _ ?k (read_global _ _ _) = Ok _ |- _ =>
               first [ apply (converted_absent _ _ _ _ _ _ _ Hl) in H; subst
                     | apply (converted_absent _ _ _ _ _ _ _ Hh) in H; subst
                     | apply (converted_absent _ _ _ _ _ _ _ Ho) in H; subst
                     | clear H ]
           | H : read_global _ _ _ = Ok _ |- _ =>
               apply read_global_ok in H as [-> _]
           end;
    rewrite ?(flag_absent _ _ _ Hs); reflexivity.
Qed.

Lemma page_update_settings_witness :
  enabled_channels
    (core (update_settings (builtins := BenchSettings.small_builtins)
             (page_settings_body true "8" true true false)
             BenchSettings.server_at_launch).1)
  = 8.
Proof.
  destruct (page_update_settings (builtins := BenchSettings.small_builtins)
              true true true false "8" BenchSettings.server_at_launch)
    as (_ & _ & _ & _ & Hok).
  destruct Hok as (_ & Hok & _); [vm_compute; set_solver ..|].
  apply (Hok 8). reflexivity.
Defined.

(** * Further properties: export after streaming, the page's controls *)

Lemma export_rows_equal_channels (data : matrix) (n : Z) (L : nat) :
  0 <= n -> data <> [] -> Forall (fun ch => length ch = L) data ->
  forall s, collected_data s = data ->
    exists rows,
      (export_data (NumRowsText (Some n)) s).2
      = CsvAttachment (header_row data :: rows) /\
      length rows = Nat.min (Z.to_nat n) L.
Proof.
  intros Hn Hne Hall s Hcd. unfold export_data. cbn [requested_rows].
  rewrite Hcd. destruct data as [|ch0 chs]; [done|]. clear Hne.
  set (k := if n >? Z.of_nat (length ch0) then Z.of_nat (length ch0) else n).
  assert (length ch0 = L) as Hch0 by (by apply Forall_cons in Hall as [? _]).
  assert (0 <= k /\ Z.to_nat k = Nat.min (Z.to_nat n) L) as [Hk Hmin].
  { unfold k. destruct (Z.gtb_spec n (Z.of_nat (length ch0))); lia. }
  set (sliced := slice_to k <$> (ch0 :: chs)).
  assert (Forall (fun ch => Z.to_nat k <= length ch)%nat sliced) as Hsl.
  { apply Forall_fmap. eapply Forall_impl; [exact Hall|]. simpl.
    intros ch Hch. unfold slice_to.
    destruct (Z.leb_spec 0 k); [|lia]. rewrite length_take. lia. }
  assert (zip_star sliced = zip_rows (Z.to_nat k) sliced) as Hzip.
  { unfold sliced. cbn. f_equal. unfold slice_to.
    destruct (Z.leb_spec 0 k); [|lia]. rewrite length_take. lia. }
  destruct (zip_rows_spec (Z.to_nat k) sliced Hsl) as [Hlen _].
  exists ((fun row : list float => Number <$> row) <$> zip_star sliced).
  cbn [snd]. split.
  - unfold create_csv, header_row. fold sliced. unfold sliced at 1.
    by rewrite length_fmap.
  - by rewrite length_fmap, Hzip, Hlen.
Qed.

(** An export asked while the stream runs gets the last published window
    and nothing older: after an iteration that published a window of [L]
    samples per channel, the file has [min n L] data rows, however long the
    stream has been running.  With the default request of 5000 rows the
    file is the whole window. *)
Theorem export_after_iteration
    {filters : DataFilter} {numpy : NumPy} {board : Board}
    (data : matrix) (s s' : state) (dt0 : matrix) (n : Z) (L : nat) :
  loop_iteration (Ok data) s = Next s' ->
  select_rows data eeg_channels = Ok dt0 -> size dt0 <> 0%nat ->
  Forall (fun row => length row = L) dt0 ->
  0 <= n ->
  exists rows,
    (export_data (NumRowsText (Some n)) s').2
    = CsvAttachment (header_row dt0 :: rows) /\
    length rows = Nat.min (Z.to_nat n) L.
Proof.
  intros Hnext Hsel Hsz Hrect Hn.
  destruct (loop_iteration_next _ _ _ Hnext)
    as (dt0' & Hsel' & [[Hz _]|(_ & s1 & dt & raw & Hp & _ & ->)]);
    assert (dt0' = dt0) as -> by congruence; [done|].
  destruct (process_window_facts _ _ _ _ Hp) as (_ & Hshape & _).
  assert (Forall (fun row => length row = L) dt) as Hrect'.
  { assert (Forall (fun k => k = L) (shape dt)) as Hs.
    { rewrite Hshape. unfold shape. by apply Forall_fmap. }
    unfold shape in Hs. by rewrite Forall_fmap in Hs. }
  assert (dt <> []) as Hne.
  { intros ->. destruct dt0; [done|discriminate Hshape]. }
  destruct (export_rows_equal_channels dt n L Hn Hne Hrect'
              (record (Sleep 1) (record (EmitUpdateData raw)
                                   (set_collected_data dt s1))) eq_refl)
    as (rows & Hrows & Hlen).
  exists rows. split; [|done]. rewrite Hrows. unfold header_row.
  by rewrite <- (shape_length dt), Hshape, shape_length.
Qed.

Lemma export_after_iteration_witness :
  exists rows,
    (export_data NumRowsAbsent
       (Bench.iterate Bench.passthrough_filters
          [[0; 1]; [5; 7]; [6; 8]]%float
          (set_collected_data [[1; 2; 3; 4]; [1; 2; 3; 4]]%float
             Bench.streaming))).2
    = CsvAttachment ([Text "Channel1"; Text "Channel2"] :: rows) /\
    length rows = 2%nat.
Proof.
  apply (export_after_iteration
           (filters := Bench.passthrough_filters) (numpy := Bench.small_numpy)
           (board := Bench.two_channel_board)
           [[0; 1]; [5; 7]; [6; 8]]%float
           (set_collected_data [[1; 2; 3; 4]; [1; 2; 3; 4]]%float
              Bench.streaming)
           _ [[5; 7]; [6; 8]]%float 5000 2).
  - reflexivity.
  - reflexivity.
  - discriminate.
  - repeat constructor.
  - lia.
Defined.

Lemma page_step_shape c ev :
  (exists b, forall t, set_calibrate_text t c
                       = set_calibrate_text t (disableControls b c)) ->
  exists b, forall t, set_calibrate_text t (page_step c ev)
                      = set_calibrate_text t (disableControls b (page_step c ev)).
Proof.
  intros [b Hb]. destruct ev as [|status| | |]; cbn [page_step].
  - by exists true.
  - destruct (status =? 409); [by exists false|by exists b].
  - by exists false.
  - by exists true.
  - by exists false.
Qed.

(** The page's controls are always in one of two settings, whatever was
    clicked and answered since the page loaded: either start, calibration,
    export and the five setting inputs are enabled and stop is disabled, or
    the other way round.  A start request leaves them in the second setting
    unless it is answered 409; a click on stop and the end of a calibration,
    successful or not, put them in the first. *)
Theorem controls_have_two_settings (events : list page_event) :
  let c := page_run events controls_at_load in
  stopBtn c = negb (startBtn c) /\
  calibrateBtn c = startBtn c /\ exportBtn c = startBtn c /\
  baseline_input c = startBtn c /\ channels_input c = startBtn c /\
  ref_input c = startBtn c /\ biasout_input c = startBtn c /\
  bandpass_input c = startBtn c /\
  (forall status,
     startBtn (page_run (events ++ [StartClicked; StartAnswered status])
                 controls_at_load)
     = negb (status =? 409)) /\
  startBtn (page_run (events ++ [StopClicked]) controls_at_load) = false /\
  startBtn (page_run (events ++ [CalibrateClicked]) controls_at_load) = true /\
  page_run (events ++ [CalibrateClicked; CalibrateSettled]) controls_at_load
  = set_calibrate_text "Start Calibration" (disableControls false c).
Proof.
  intros c.
  assert (exists b, forall t, set_calibrate_text t c
                              = set_calibrate_text t (disableControls b c))
    as [b Hb].
  { unfold c, page_run.
    induction events as [|ev events IH] using rev_ind.
    - by exists false.
    - rewrite foldl_app. cbn [foldl]. by apply page_step_shape. }
  specialize (Hb "").
  pose proof (f_equal startBtn Hb). pose proof (f_equal stopBtn Hb).
  pose proof (f_equal calibrateBtn Hb). pose proof (f_equal exportBtn Hb).
  pose proof (f_equal baseline_input Hb). pose proof (f_equal channels_input Hb).
  pose proof (f_equal ref_input Hb). pose proof (f_equal biasout_input Hb).
  pose proof (f_equal bandpass_input Hb). simpl in *.
  repeat split; try congruence.
  - intros status. unfold page_run. rewrite foldl_app. cbn.
    by destruct (status =? 409).
  - unfold page_run. by rewrite foldl_app.
  - unfold page_run. by rewrite foldl_app.
  - unfold page_run. by rewrite foldl_app.
Qed.
